(** * Livestream reservation and bulk response aggregation

    A shallow embedding of [reserveLivestreamHandler],
    [fillLivestreamResponse], [fillLivestreamResponseBulk]
    ([livestream_handler.go]) and [fillReactionResponseBulk]
    ([reaction_handler.go]), together with the properties proved about
    them; and, further down, of the other handlers of the two files.

    Storage is modelled as the rows a transaction sees and SQL
    statements as functions on those rows. Every statement a function
    issues is recorded in the transaction, so that the statements
    themselves (which ones, with which keys, how many) can be reasoned
    about, and the database may fail any of them. Functions run in a
    state and error monad over the transaction. *)

From Stdlib Require Import ZArith Ascii String List Bool Lia.
From stdpp Require Import base option list gmap.

Local Open Scope Z_scope.

(** ** Go values *)

Module Go.

(** [int64] arithmetic wraps around. *)
Definition wrap64 (z : Z) : Z := (z + 2 ^ 63) mod 2 ^ 64 - 2 ^ 63.

Definition MinInt64 : Z := - 2 ^ 63.
Definition MaxInt64 : Z := 2 ^ 63 - 1.

(** A slice is either [nil] or backed by an array; the two are told
    apart by [encoding/json] ([null] against [[]]). *)
Inductive slice (A : Type) : Type :=
| nil_slice
| make_slice (elems : list A).
Arguments nil_slice {A}.
Arguments make_slice {A} elems.

Definition elems {A} (s : slice A) : list A :=
  match s with
  | nil_slice => []
  | make_slice l => l
  end.

Definition len {A} (s : slice A) : nat := length (elems s).

(** The error values the handlers produce or pass on. *)
Inductive error : Type :=
| ErrNoRows                               (* sql.ErrNoRows *)
| ErrStorage                              (* a failure reported by the database *)
| ErrEmptySlice                           (* sqlx.In: empty slice passed to 'in' query *)
| Errorf (format : string) (arg : Z)      (* fmt.Errorf(format, arg) *)
| Wrap (format : string) (cause : error)  (* fmt.Errorf("...: %w", err) *)
| ErrOther (text : string).               (* an error of a collaborator *)

Inductive result (E A : Type) : Type :=
| Ok (a : A)
| Err (e : E).
Arguments Ok {E A} a.
Arguments Err {E A} e.

Definition is_ok {E A} (r : result E A) : bool :=
  match r with Ok _ => true | Err _ => false end.

End Go.
Export Go.

(** ** Package [time], as far as the handler uses it *)

Module time.

(** A [Time] without monotonic reading: [ext] holds the seconds since
    January 1, year 1 as an [int64], [nsec] the nanoseconds. *)
Record Time : Type := mkTime { ext : Z; nsec : Z }.

Definition unixToInternal : Z := (1969 * 365 + 1969 / 4 - 1969 / 100 + 1969 / 400) * 86400.

(** [time.Unix(sec, nsec)] for [0 <= nsec < 1e9]. *)
Definition Unix (sec nsec : Z) : Time :=
  {| ext := wrap64 (sec + unixToInternal); nsec := nsec |}.

(** Days from 1970-01-01 to the given civil date. *)
Definition daysSinceEpoch (year month day : Z) : Z :=
  let y := if month <=? 2 then year - 1 else year in
  let era := y / 400 in
  let yoe := y - era * 400 in
  let mp := if month <=? 2 then month + 9 else month - 3 in
  let doy := (153 * mp + 2) / 5 + day - 1 in
  let doe := yoe * 365 + yoe / 4 - yoe / 100 + doy in
  era * 146097 + doe - 719468.

(** [time.Date(year, month, day, hour, min, sec, 0, time.UTC)]. *)
Definition Date (year month day hour min sec : Z) : Time :=
  Unix (daysSinceEpoch year month day * 86400 + hour * 3600 + min * 60 + sec) 0.

(** [t.Unix()]. *)
Definition ToUnix (t : Time) : Z := wrap64 (ext t - unixToInternal).

Definition Equal (t u : Time) : bool :=
  (ext t =? ext u) && (nsec t =? nsec u).
Definition After (t u : Time) : bool :=
  (ext t >? ext u) || ((ext t =? ext u) && (nsec t >? nsec u)).
Definition Before (t u : Time) : bool :=
  (ext t <? ext u) || ((ext t =? ext u) && (nsec t <? nsec u)).



(** The order of instants. *)
Definition lt (t u : Time) : Prop :=
  ext t < ext u \/ (ext t = ext u /\ nsec t < nsec u).

End time.

(** ** Rows and response entities *)

Module ReserveLivestreamRequest.
Record t : Type := mk
  { Tags : list Z;
    Title : string;
    Description : string;
    PlaylistUrl : string;
    ThumbnailUrl : string;
    StartAt : Z;
    EndAt : Z }.
End ReserveLivestreamRequest.

Module LivestreamModel.
Record t : Type := mk
  { ID : Z;
    UserID : Z;
    Title : string;
    Description : string;
    PlaylistUrl : string;
    ThumbnailUrl : string;
    StartAt : Z;
    EndAt : Z }.
End LivestreamModel.

Module LivestreamTagModel.
Record t : Type := mk { ID : Z; LivestreamID : Z; TagID : Z }.
End LivestreamTagModel.

Module ReservationSlotModel.
Record t : Type := mk { ID : Z; Slot : Z; StartAt : Z; EndAt : Z }.
End ReservationSlotModel.

(** Modelled from the spec: [TagModel] and [Tag], which another file of
    the package declares, are the lookup entity (id, name); the
    handlers use exactly these two fields of each. *)
Module TagModel.
Record t : Type := mk { ID : Z; Name : string }.
End TagModel.

Module Tag.
Record t : Type := mk { ID : Z; Name : string }.
End Tag.

Module Livestream.
Record t {User : Type} : Type := mk
  { ID : Z;
    Owner : User;
    Title : string;
    Description : string;
    PlaylistUrl : string;
    ThumbnailUrl : string;
    Tags : slice Tag.t;
    StartAt : Z;
    EndAt : Z }.
Arguments t : clear implicits.
Arguments mk {User}.
End Livestream.

Module ReactionModel.
Record t : Type := mk
  { ID : Z;
    EmojiName : string;
    UserID : Z;
    LivestreamID : Z;
    CreatedAt : Z }.
End ReactionModel.

Module Reaction.
Record t {User : Type} : Type := mk
  { ID : Z;
    EmojiName : string;
    User_ : User;
    Livestream_ : Livestream.t User;
    CreatedAt : Z }.
Arguments t : clear implicits.
Arguments mk {User}.
End Reaction.

(** ** Storage *)

(** The tables, each with its rows in the order an unordered [SELECT]
    returns them. *)
Record Tables {UserModel : Type} : Type := mkTables
  { users : list UserModel;
    tags : list TagModel.t;
    livestreams : list LivestreamModel.t;
    livestream_tags : list LivestreamTagModel.t;
    reservation_slots : list ReservationSlotModel.t }.
Arguments Tables : clear implicits.
Arguments mkTables {UserModel}.

(** The statements the modelled functions issue, with their arguments. *)
Inductive Query : Type :=
| Begin
| Commit
| SelectSlotsForUpdate (startAt endAt : Z)
    (* SELECT * FROM reservation_slots WHERE start_at >= ? AND end_at <= ? FOR UPDATE *)
| SelectSlotCount (startAt endAt : Z)
    (* SELECT slot FROM reservation_slots WHERE start_at = ? AND end_at = ? *)
| UpdateSlots (startAt endAt : Z)
    (* UPDATE reservation_slots SET slot = slot - 1 WHERE start_at >= ? AND end_at <= ? *)
| InsertLivestream (row : LivestreamModel.t)
    (* INSERT INTO livestreams (user_id, title, ...) VALUES (...) *)
| InsertLivestreamTag (livestreamID tagID : Z)
    (* INSERT INTO livestream_tags (livestream_id, tag_id) VALUES (...) *)
| SelectUserByID (id : Z)
    (* SELECT * FROM users WHERE id = ? *)
| SelectUsersIn (ids : list Z)
    (* SELECT * FROM users WHERE id IN (?) *)
| SelectLivestreamTagsByLivestreamID (id : Z)
    (* SELECT * FROM livestream_tags WHERE livestream_id = ? *)
| SelectLivestreamTagsIn (ids : list Z)
    (* SELECT * FROM livestream_tags WHERE livestream_id IN (?) *)
| SelectTagByID (id : Z)
    (* SELECT * FROM tags WHERE id = ? *)
| SelectTagsIn (ids : list Z)
    (* SELECT * FROM tags WHERE id IN (?) *)
| SelectLivestreamsIn (ids : list Z).
    (* SELECT * FROM livestreams WHERE id IN (?) *)

(** A transaction: the rows it sees, the AUTO_INCREMENT counters (which
    a rollback does not restore), whether it has committed, the
    statements issued so far, and which of the statements the database
    fails ([faults n] for the statement issued after [n] others). *)
Record Tx {UserModel : Type} : Type := mkTx
  { view : Tables UserModel;
    livestreams_seq : Z;
    livestream_tags_seq : Z;
    committed : bool;
    issued : list Query;
    faults : nat -> bool }.
Arguments Tx : clear implicits.
Arguments mkTx {UserModel}.

(** The committed database: tables and counters. *)
Record Database {UserModel : Type} : Type := mkDatabase
  { tables : Tables UserModel;
    next_livestream_id : Z;
    next_livestream_tag_id : Z }.
Arguments Database : clear implicits.
Arguments mkDatabase {UserModel}.

(** The part of the package that composes users ([user_handler.go]) is a
    collaborator of these handlers: its row and entity types, the id
    column, and the two composers. The composers read the rows of the
    transaction and may fail. *)
Class UserHandler : Type :=
  { UserModel : Type;
    User : Type;
    UserModel_ID : UserModel -> Z;
    fillUserResponse : Tables UserModel -> UserModel -> result error User;
    fillUserResponseBulk : Tables UserModel -> list UserModel -> result error (gmap Z User) }.

(** ** A state and error monad for code that runs in a transaction *)

Module Monad.

Definition M (S E A : Type) : Type := S -> result E A * S.

Definition ret {S E A} (a : A) : M S E A := fun s => (Ok a, s).

Definition fail {S E A} (e : E) : M S E A := fun s => (Err e, s).

Definition bind {S E A B} (c : M S E A) (k : A -> M S E B) : M S E B :=
  fun s =>
    match c s with
    | (Ok a, s') => k a s'
    | (Err e, s') => (Err e, s')
    end.

(** [if err != nil { return ..., f(err) }] *)
Definition mapErr {S E F A} (f : E -> F) (c : M S E A) : M S F A :=
  fun s =>
    match c s with
    | (Ok a, s') => (Ok a, s')
    | (Err e, s') => (Err (f e), s')
    end.

Definition lift {S E A} (r : result E A) : M S E A := fun s => (r, s).

End Monad.
Export Monad.

Notation "'let*' x ':=' c 'in' k" := (bind c (fun x => k))
  (at level 10, x name, c at level 100, k at level 200).

(** [c |> f]: [c], then [f] applied to what it returns. *)
Notation "c |> f" := (f c) (at level 90, left associativity, only parsing).

(** ** HTTP errors *)

Inductive Message : Type :=
| Text (s : string)
| TextErr (s : string) (e : error)                       (* s + err.Error() *)
| SlotUnavailable (termStartAt termEndAt startAt endAt : Z). (* the fmt.Sprintf of the capacity check *)

Record HTTPError : Type := NewHTTPError { Code : Z; Message_ : Message }.

Definition StatusCreated : Z := 201.
Definition StatusBadRequest : Z := 400.
Definition StatusInternalServerError : Z := 500.

(** ** SQL statements as functions on rows *)

(** [key IN (ids)] *)
Definition inb (key : Z) (ids : list Z) : bool := existsb (Z.eqb key) ids.

(** [sqlx.In(query, ids)]: the expanded argument list, or an error when
    the slice is empty. *)
Definition sqlx_In (ids : list Z) : result error (list Z) :=
  match ids with
  | [] => Err ErrEmptySlice
  | _ :: _ => Ok ids
  end.

Definition slot_in_window (startAt endAt : Z) (r : ReservationSlotModel.t) : bool :=
  (ReservationSlotModel.StartAt r >=? startAt) && (ReservationSlotModel.EndAt r <=? endAt).

Definition slot_at (startAt endAt : Z) (r : ReservationSlotModel.t) : bool :=
  (ReservationSlotModel.StartAt r =? startAt) && (ReservationSlotModel.EndAt r =? endAt).

Definition decrement_slot (r : ReservationSlotModel.t) : ReservationSlotModel.t :=
  ReservationSlotModel.mk (ReservationSlotModel.ID r) (ReservationSlotModel.Slot r - 1)
    (ReservationSlotModel.StartAt r) (ReservationSlotModel.EndAt r).

Abbreviation DB := (Tables UserModel).
Abbreviation TxM := (M (Tx UserModel)).

Section Statements.
Context `{UH : UserHandler}.

Definition slots_in_window (startAt endAt : Z) (T : DB) : list ReservationSlotModel.t :=
  List.filter (slot_in_window startAt endAt) (reservation_slots T).

Definition slot_counts_at (startAt endAt : Z) (T : DB) : list Z :=
  map ReservationSlotModel.Slot (List.filter (slot_at startAt endAt) (reservation_slots T)).

Definition update_slots (startAt endAt : Z) (T : DB) : DB :=
  mkTables (users T) (tags T) (livestreams T) (livestream_tags T)
    (map (fun r => if slot_in_window startAt endAt r then decrement_slot r else r)
       (reservation_slots T)).

Definition insert_livestream (row : LivestreamModel.t) (T : DB) : DB :=
  mkTables (users T) (tags T) (livestreams T ++ [row]) (livestream_tags T)
    (reservation_slots T).

Definition insert_livestream_tag (row : LivestreamTagModel.t) (T : DB) : DB :=
  mkTables (users T) (tags T) (livestreams T) (livestream_tags T ++ [row])
    (reservation_slots T).

Definition users_where_id (id : Z) (T : DB) : list UserModel :=
  List.filter (fun u => UserModel_ID u =? id) (users T).

Definition users_where_id_in (ids : list Z) (T : DB) : list UserModel :=
  List.filter (fun u => inb (UserModel_ID u) ids) (users T).

Definition livestream_tags_where_livestream_id (id : Z) (T : DB) : list LivestreamTagModel.t :=
  List.filter (fun lt => LivestreamTagModel.LivestreamID lt =? id) (livestream_tags T).

Definition livestream_tags_where_livestream_id_in (ids : list Z) (T : DB)
  : list LivestreamTagModel.t :=
  List.filter (fun lt => inb (LivestreamTagModel.LivestreamID lt) ids) (livestream_tags T).

Definition tags_where_id (id : Z) (T : DB) : list TagModel.t :=
  List.filter (fun t => TagModel.ID t =? id) (tags T).

Definition tags_where_id_in (ids : list Z) (T : DB) : list TagModel.t :=
  List.filter (fun t => inb (TagModel.ID t) ids) (tags T).

Definition livestreams_where_id_in (ids : list Z) (T : DB) : list LivestreamModel.t :=
  List.filter (fun l => inb (LivestreamModel.ID l) ids) (livestreams T).

(** *** Calls on the transaction *)

(** Every statement is recorded; the database may fail it. A [COMMIT]
    that succeeds commits the transaction. *)
Definition exec (q : Query) : TxM error unit :=
  fun tx =>
    let failed := faults tx (length (issued tx)) in
    let done :=
      match q with
      | Commit => negb failed
      | _ => false
      end in
    (if failed then Err ErrStorage else Ok tt,
     mkTx (view tx) (livestreams_seq tx) (livestream_tags_seq tx) (committed tx || done)
       (issued tx ++ [q]) (faults tx)).

(** A change of the rows the transaction sees. *)
Definition modify (change : DB -> DB) : TxM error unit :=
  fun tx =>
    (Ok tt, mkTx (change (view tx)) (livestreams_seq tx) (livestream_tags_seq tx)
              (committed tx) (issued tx) (faults tx)).

(** [tx.SelectContext(ctx, &dest, query, args...)] *)
Definition SelectContext {A} (q : Query) (rows : DB -> list A) : TxM error (list A) :=
  let* _ := exec q in
  fun tx => (Ok (rows (view tx)), tx).

(** [tx.GetContext(ctx, &dest, query, args...)]: the first row, or
    [sql.ErrNoRows]. *)
Definition GetContext {A} (q : Query) (rows : DB -> list A) : TxM error A :=
  let* rs := SelectContext q rows in
  match rs with
  | [] => fail ErrNoRows
  | r :: _ => ret r
  end.

(** [tx.ExecContext] / [tx.NamedExecContext] *)
Definition ExecContext (q : Query) (change : DB -> DB) : TxM error unit :=
  let* _ := exec q in
  modify change.

(** The next value of the AUTO_INCREMENT counter of [livestreams]. *)
Definition nextLivestreamID : TxM error Z :=
  fun tx =>
    (Ok (livestreams_seq tx),
     mkTx (view tx) (livestreams_seq tx + 1) (livestream_tags_seq tx) (committed tx)
       (issued tx) (faults tx)).

Definition nextLivestreamTagID : TxM error Z :=
  fun tx =>
    (Ok (livestream_tags_seq tx),
     mkTx (view tx) (livestreams_seq tx) (livestream_tags_seq tx + 1) (committed tx)
       (issued tx) (faults tx)).

Definition rowWithID (id : Z) (row : LivestreamModel.t) : LivestreamModel.t :=
  LivestreamModel.mk id (LivestreamModel.UserID row) (LivestreamModel.Title row)
    (LivestreamModel.Description row) (LivestreamModel.PlaylistUrl row)
    (LivestreamModel.ThumbnailUrl row) (LivestreamModel.StartAt row)
    (LivestreamModel.EndAt row).

(** The INSERT into [livestreams] followed by [rs.LastInsertId()],
    which reads the id out of the result and does not fail. *)
Definition InsertLivestreamRow (row : LivestreamModel.t) : TxM error Z :=
  let* _ := exec (InsertLivestream row) in
  let* id := nextLivestreamID in
  let* _ := modify (insert_livestream (rowWithID id row)) in
  ret id.

Definition InsertLivestreamTagRow (livestreamID tagID : Z) : TxM error unit :=
  let* _ := exec (InsertLivestreamTag livestreamID tagID) in
  let* id := nextLivestreamTagID in
  modify (insert_livestream_tag (LivestreamTagModel.mk id livestreamID tagID)).

(** The user composers run on the rows the transaction sees. *)
Definition callFillUserResponse (userModel : UserModel) : TxM error User :=
  fun tx => (fillUserResponse (view tx) userModel, tx).

Definition callFillUserResponseBulk (userModels : list UserModel) : TxM error (gmap Z User) :=
  fun tx => (fillUserResponseBulk (view tx) userModels, tx).

End Statements.

(** ** The response composers ([fillLivestreamResponse] and the bulk ones) *)

Section Composers.
Context `{UH : UserHandler}.

Definition tagOf (tagModel : TagModel.t) : Tag.t :=
  Tag.mk (TagModel.ID tagModel) (TagModel.Name tagModel).

Definition livestreamOf (livestreamModel : LivestreamModel.t) (owner : User)
    (tags : list Tag.t) : Livestream.t User :=
  Livestream.mk (LivestreamModel.ID livestreamModel) owner
    (LivestreamModel.Title livestreamModel) (LivestreamModel.Description livestreamModel)
    (LivestreamModel.PlaylistUrl livestreamModel) (LivestreamModel.ThumbnailUrl livestreamModel)
    (make_slice tags)
    (LivestreamModel.StartAt livestreamModel) (LivestreamModel.EndAt livestreamModel).

(** The loop of [fillLivestreamResponse]: one [SELECT] per join row. *)
Fixpoint fetchTags (livestreamTagModels : list LivestreamTagModel.t) : TxM error (list Tag.t) :=
  match livestreamTagModels with
  | [] => ret []
  | livestreamTag :: rest =>
      let* tagModel :=
        GetContext (SelectTagByID (LivestreamTagModel.TagID livestreamTag))
          (tags_where_id (LivestreamTagModel.TagID livestreamTag)) in
      let* tags := fetchTags rest in
      ret (tagOf tagModel :: tags)
  end.

Definition fillLivestreamResponse (livestreamModel : LivestreamModel.t)
  : TxM error (Livestream.t User) :=
  let* ownerModel :=
    GetContext (SelectUserByID (LivestreamModel.UserID livestreamModel))
      (users_where_id (LivestreamModel.UserID livestreamModel)) in
  let* owner := callFillUserResponse ownerModel in
  let* livestreamTagModels :=
    SelectContext (SelectLivestreamTagsByLivestreamID (LivestreamModel.ID livestreamModel))
      (livestream_tags_where_livestream_id (LivestreamModel.ID livestreamModel)) in
  let* tags := fetchTags livestreamTagModels in
  ret (livestreamOf livestreamModel owner tags).

(** [livestreamTagMap[k] = append(livestreamTagMap[k], livestreamTag)] *)
Definition groupByLivestreamID (livestreamTagModels : list LivestreamTagModel.t)
  : gmap Z (list LivestreamTagModel.t) :=
  fold_left
    (fun m livestreamTag =>
       <[LivestreamTagModel.LivestreamID livestreamTag :=
           default [] (m !! LivestreamTagModel.LivestreamID livestreamTag) ++ [livestreamTag]]> m)
    livestreamTagModels ∅.

(** [tagMap[tagModel.ID] = Tag{...}] *)
Definition tagMapOf (tagModels : list TagModel.t) : gmap Z Tag.t :=
  fold_left (fun m tagModel => <[TagModel.ID tagModel := tagOf tagModel]> m) tagModels ∅.

(** The inner loop of step 5: the tags of one livestream, from the map. *)
Fixpoint lookupTags (tagMap : gmap Z Tag.t) (livestreamTags : list LivestreamTagModel.t)
  : result error (list Tag.t) :=
  match livestreamTags with
  | [] => Ok []
  | livestreamTag :: rest =>
      match tagMap !! LivestreamTagModel.TagID livestreamTag with
      | None => Err (Errorf "tag not found for TagID %d" (LivestreamTagModel.TagID livestreamTag))
      | Some tag =>
          match lookupTags tagMap rest with
          | Err e => Err e
          | Ok tags => Ok (tag :: tags)
          end
      end
  end.

(** Step 5 of [fillLivestreamResponseBulk]. *)
Fixpoint buildLivestreams (ownerMap : gmap Z User)
    (livestreamTagMap : gmap Z (list LivestreamTagModel.t)) (tagMap : gmap Z Tag.t)
    (livestreamModels : list LivestreamModel.t) (livestreamMap : gmap Z (Livestream.t User))
  : result error (gmap Z (Livestream.t User)) :=
  match livestreamModels with
  | [] => Ok livestreamMap
  | livestreamModel :: rest =>
      match ownerMap !! LivestreamModel.UserID livestreamModel with
      | None =>
          Err (Errorf "owner not found for UserID %d" (LivestreamModel.UserID livestreamModel))
      | Some owner =>
          let livestreamTags :=
            default [] (livestreamTagMap !! LivestreamModel.ID livestreamModel) in
          match lookupTags tagMap livestreamTags with
          | Err e => Err e
          | Ok tags =>
              buildLivestreams ownerMap livestreamTagMap tagMap rest
                (<[LivestreamModel.ID livestreamModel :=
                     livestreamOf livestreamModel owner tags]> livestreamMap)
          end
      end
  end.

(** A [nil] map reads like the empty one. *)
Definition fillLivestreamResponseBulk (livestreamModels : list LivestreamModel.t)
  : TxM error (gmap Z (Livestream.t User)) :=
  match livestreamModels with
  | [] => ret ∅
  | _ :: _ =>
      (* 1. *)
      let userIDs := map LivestreamModel.UserID livestreamModels in
      let livestreamIDs := map LivestreamModel.ID livestreamModels in
      (* 2. *)
      let* args := lift (sqlx_In userIDs) |> mapErr (Wrap "failed to build owner query: %w") in
      let* ownerModels :=
        SelectContext (SelectUsersIn args) (users_where_id_in args)
          |> mapErr (Wrap "failed to fetch owners: %w") in
      let* ownerMap :=
        callFillUserResponseBulk ownerModels
          |> mapErr (Wrap "failed to process owner responses: %w") in
      (* 3. *)
      let* args :=
        lift (sqlx_In livestreamIDs) |> mapErr (Wrap "failed to build livestream tag query: %w") in
      let* livestreamTagModels :=
        SelectContext (SelectLivestreamTagsIn args) (livestream_tags_where_livestream_id_in args)
          |> mapErr (Wrap "failed to fetch livestream tags: %w") in
      let livestreamTagMap := groupByLivestreamID livestreamTagModels in
      (* 4. *)
      let tagIDs := map LivestreamTagModel.TagID livestreamTagModels in
      let* args := lift (sqlx_In tagIDs) |> mapErr (Wrap "failed to build tag query: %w") in
      let* tagModels :=
        SelectContext (SelectTagsIn args) (tags_where_id_in args)
          |> mapErr (Wrap "failed to fetch tags: %w") in
      let tagMap := tagMapOf tagModels in
      (* 5. *)
      lift (buildLivestreams ownerMap livestreamTagMap tagMap livestreamModels ∅)
  end.

Definition reactionOf (reactionModel : ReactionModel.t) (user : User)
    (livestream : Livestream.t User) : Reaction.t User :=
  Reaction.mk (ReactionModel.ID reactionModel) (ReactionModel.EmojiName reactionModel)
    user livestream (ReactionModel.CreatedAt reactionModel).

(** Step 4 of [fillReactionResponseBulk]. *)
Fixpoint buildReactions (userMap : gmap Z User) (livestreamMap : gmap Z (Livestream.t User))
    (reactionModels : list ReactionModel.t) : result error (list (Reaction.t User)) :=
  match reactionModels with
  | [] => Ok []
  | reactionModel :: rest =>
      match userMap !! ReactionModel.UserID reactionModel with
      | None => Err (Errorf "user not found for ID %d" (ReactionModel.UserID reactionModel))
      | Some user =>
          match livestreamMap !! ReactionModel.LivestreamID reactionModel with
          | None =>
              Err (Errorf "livestream not found for ID %d"
                     (ReactionModel.LivestreamID reactionModel))
          | Some livestream =>
              match buildReactions userMap livestreamMap rest with
              | Err e => Err e
              | Ok reactions => Ok (reactionOf reactionModel user livestream :: reactions)
              end
          end
      end
  end.

(** Steps 1 to 3 of [fillReactionResponseBulk]: the two maps. *)
Definition reactionLookups (reactionModels : list ReactionModel.t)
  : TxM error (gmap Z User * gmap Z (Livestream.t User)) :=
  (* 1. *)
  let userIDs := map ReactionModel.UserID reactionModels in
  let livestreamIDs := map ReactionModel.LivestreamID reactionModels in
  (* 2. *)
  let* args := lift (sqlx_In userIDs) |> mapErr (Wrap "failed to build user query: %w") in
  let* userModels :=
    SelectContext (SelectUsersIn args) (users_where_id_in args)
      |> mapErr (Wrap "failed to fetch users: %w") in
  let* userMap :=
    callFillUserResponseBulk userModels
      |> mapErr (Wrap "failed to process user responses: %w") in
  (* 3. *)
  let* args :=
    lift (sqlx_In livestreamIDs) |> mapErr (Wrap "failed to build livestream query: %w") in
  let* livestreamModels :=
    SelectContext (SelectLivestreamsIn args) (livestreams_where_id_in args)
      |> mapErr (Wrap "failed to fetch livestreams: %w") in
  let* livestreamMap :=
    fillLivestreamResponseBulk livestreamModels
      |> mapErr (Wrap "failed to process livestream responses: %w") in
  ret (userMap, livestreamMap).

Definition fillReactionResponseBulk (reactionModels : list ReactionModel.t)
  : TxM error (slice (Reaction.t User)) :=
  match reactionModels with
  | [] => ret nil_slice
  | _ :: _ =>
      let* maps := reactionLookups reactionModels in
      (* 4. *)
      let* reactions := lift (buildReactions (fst maps) (snd maps) reactionModels) in
      ret (make_slice reactions)
  end.

End Composers.

(** ** [reserveLivestreamHandler] *)

Definition termStartAt : time.Time := time.Date 2023 11 25 1 0 0.
Definition termEndAt : time.Time := time.Date 2024 11 25 1 0 0.

(** The condition under which the handler answers "bad reservation time
    range", for a scheduling term and the two instants of a request. *)
Definition badTimeRange (termStartAt termEndAt reserveStartAt reserveEndAt : time.Time) : bool :=
  (time.Equal reserveStartAt termEndAt || time.After reserveStartAt termEndAt)
  || (time.Equal reserveEndAt termStartAt || time.Before reserveEndAt termStartAt).

Definition badTimeRangeError : HTTPError :=
  NewHTTPError StatusBadRequest (Text "bad reservation time range").

Section Reserve.
Context `{UH : UserHandler}.

Definition httpError {A} (code : Z) (message : string) (c : TxM error A) : TxM HTTPError A :=
  mapErr (fun err => NewHTTPError code (TextErr message err)) c.

(** The loop over the locked slots: each one's capacity is read again
    and must be at least 1. *)
Fixpoint checkSlots (req : ReserveLivestreamRequest.t) (slots : list ReservationSlotModel.t)
  : TxM HTTPError unit :=
  match slots with
  | [] => ret tt
  | slot :: rest =>
      let* count :=
        GetContext
          (SelectSlotCount (ReservationSlotModel.StartAt slot) (ReservationSlotModel.EndAt slot))
          (slot_counts_at (ReservationSlotModel.StartAt slot) (ReservationSlotModel.EndAt slot))
          |> httpError StatusInternalServerError "failed to get reservation_slots: " in
      if count <? 1 then
        fail (NewHTTPError StatusBadRequest
                (SlotUnavailable (time.ToUnix termStartAt) (time.ToUnix termEndAt)
                   (ReserveLivestreamRequest.StartAt req) (ReserveLivestreamRequest.EndAt req)))
      else checkSlots req rest
  end.

(** The loop that inserts one join row per requested tag. *)
Fixpoint insertTags (livestreamID : Z) (tagIDs : list Z) : TxM HTTPError unit :=
  match tagIDs with
  | [] => ret tt
  | tagID :: rest =>
      let* _ :=
        InsertLivestreamTagRow livestreamID tagID
          |> httpError StatusInternalServerError "failed to insert livestream tag: " in
      insertTags livestreamID rest
  end.

(** The handler between [BeginTxx] and the end, for the session's user
    and the decoded request. *)
Definition reserveInTx (userID : Z) (req : ReserveLivestreamRequest.t)
  : TxM HTTPError (Livestream.t User) :=
  let reserveStartAt := time.Unix (ReserveLivestreamRequest.StartAt req) 0 in
  let reserveEndAt := time.Unix (ReserveLivestreamRequest.EndAt req) 0 in
  if badTimeRange termStartAt termEndAt reserveStartAt reserveEndAt then
    fail badTimeRangeError
  else
    let* slots :=
      SelectContext
        (SelectSlotsForUpdate (ReserveLivestreamRequest.StartAt req)
           (ReserveLivestreamRequest.EndAt req))
        (slots_in_window (ReserveLivestreamRequest.StartAt req)
           (ReserveLivestreamRequest.EndAt req))
        |> httpError StatusInternalServerError "failed to get reservation_slots: " in
    let* _ := checkSlots req slots in
    let livestreamModel :=
      LivestreamModel.mk 0 userID (ReserveLivestreamRequest.Title req)
        (ReserveLivestreamRequest.Description req) (ReserveLivestreamRequest.PlaylistUrl req)
        (ReserveLivestreamRequest.ThumbnailUrl req) (ReserveLivestreamRequest.StartAt req)
        (ReserveLivestreamRequest.EndAt req) in
    let* _ :=
      ExecContext
        (UpdateSlots (ReserveLivestreamRequest.StartAt req) (ReserveLivestreamRequest.EndAt req))
        (update_slots (ReserveLivestreamRequest.StartAt req) (ReserveLivestreamRequest.EndAt req))
        |> httpError StatusInternalServerError "failed to update reservation_slot: " in
    let* livestreamID :=
      InsertLivestreamRow livestreamModel
        |> httpError StatusInternalServerError "failed to insert livestream: " in
    let livestreamModel := rowWithID livestreamID livestreamModel in
    let* _ := insertTags livestreamID (ReserveLivestreamRequest.Tags req) in
    let* livestream :=
      fillLivestreamResponse livestreamModel
        |> httpError StatusInternalServerError "failed to fill livestream: " in
    let* _ := exec Commit |> httpError StatusInternalServerError "failed to commit: " in
    ret livestream.

(** The transaction of one call: what the handler answers and the
    transaction as it stands when the handler returns. *)
Definition reserveRun (userID : Z) (req : ReserveLivestreamRequest.t)
    (faults : nat -> bool) (db : Database UserModel)
  : result HTTPError (Livestream.t User) * Tx UserModel :=
  let tx :=
    mkTx (tables db) (next_livestream_id db) (next_livestream_tag_id db) false [] faults in
  (let* _ :=
     exec Begin |> httpError StatusInternalServerError "failed to begin transaction: " in
   reserveInTx userID req) tx.

(** [Ok livestream] is the answer [201 Created] with that body. The
    rows of the transaction are the database's once it has committed;
    otherwise the deferred [tx.Rollback()] discards them. *)
Definition reserveLivestreamHandler (userID : Z) (req : ReserveLivestreamRequest.t)
    (faults : nat -> bool) (db : Database UserModel)
  : result HTTPError (Livestream.t User) * Database UserModel :=
  let (response, tx) := reserveRun userID req faults db in
  (response,
   mkDatabase (if committed tx then view tx else tables db)
     (livestreams_seq tx) (livestream_tags_seq tx)).

End Reserve.

(** * The other handlers of the two files

    [searchLivestreamsHandler], [getMyLivestreamsHandler],
    [getUserLivestreamsHandler], [enterLivestreamHandler],
    [exitLivestreamHandler], [getLivestreamHandler],
    [getLivecommentReportsHandler] ([livestream_handler.go]),
    [getReactionsHandler], [postReactionHandler] and
    [fillReactionResponse] ([reaction_handler.go]). They are taken
    after [verifyUserSession] has accepted the session, with the
    session's user id, the raw path and query parameters and the
    decoded request body as arguments. *)

(** ** [strconv.Atoi] *)

Module strconv.

Definition digit (c : ascii) : option Z :=
  let n := Z.of_N (N_of_ascii c) in
  if (48 <=? n) && (n <=? 57) then Some (n - 48) else None.

Fixpoint digits (s : string) (acc : Z) : option Z :=
  match s with
  | EmptyString => Some acc
  | String c rest =>
      match digit c with
      | Some d => digits rest (10 * acc + d)
      | None => None
      end
  end.

(** [strconv.Atoi] with an [int] of 64 bits: an optional sign, then at
    least one decimal digit and nothing else, within the range of
    [int64]. [None] stands for both of its errors. *)
Definition Atoi (s : string) : option Z :=
  let (negative, body) :=
    match s with
    | String "-"%char rest => (true, rest)
    | String "+"%char rest => (false, rest)
    | _ => (false, s)
    end in
  match body with
  | EmptyString => None
  | String _ _ =>
      match digits body 0 with
      | Some n =>
          let z := if negative then - n else n in
          if (MinInt64 <=? z) && (z <=? MaxInt64) then Some z else None
      | None => None
      end
  end.

End strconv.

(** ** Rows, tables and statements *)

Module LivestreamViewerModel.
Record t : Type := mk { UserID : Z; LivestreamID : Z; CreatedAt : Z }.
End LivestreamViewerModel.

Module PostReactionRequest.
Record t : Type := mk { EmojiName : string }.
End PostReactionRequest.

(** The whole database: the tables and counters of the reservation,
    the reactions with their AUTO_INCREMENT counter, the viewers
    history and the livecomment reports. *)
Record Site {UserModel ReportModel : Type} : Type := mkSite
  { database : Database UserModel;
    reactions : list ReactionModel.t;
    next_reaction_id : Z;
    livestream_viewers_history : list LivestreamViewerModel.t;
    livecomment_reports : list ReportModel }.
Arguments Site : clear implicits.
Arguments mkSite {UserModel ReportModel}.

(** The statements of these handlers: those of the composers and of the
    reservation, and their own. *)
Inductive Statement : Type :=
| Issued (q : Query)
| SelectLivestreamByID (id : Z)
    (* SELECT * FROM livestreams WHERE id = ? *)
| SelectLivestreamsByUserID (userID : Z)
    (* SELECT * FROM livestreams WHERE user_id = ? *)
| SelectLivestreamsDesc (limit : option Z)
    (* SELECT * FROM livestreams ORDER BY id DESC [LIMIT n] *)
| SelectTagIDsByName (name : string)
    (* SELECT id FROM tags WHERE name = ? *)
| SelectLivestreamTagsByTagIDs (ids : list Z)
    (* SELECT * FROM livestream_tags WHERE tag_id IN (?) ORDER BY livestream_id DESC *)
| SelectUserByName (name : string)
    (* SELECT * FROM users WHERE name = ? *)
| SelectReportsByLivestreamID (id : Z)
    (* SELECT * FROM livecomment_reports WHERE livestream_id = ? *)
| SelectReactionsDesc (livestreamID : Z) (limit : option Z)
    (* SELECT * FROM reactions WHERE livestream_id = ? ORDER BY created_at DESC [LIMIT n] *)
| InsertReaction (row : ReactionModel.t)
    (* INSERT INTO reactions (user_id, livestream_id, emoji_name, created_at) VALUES (...) *)
| InsertViewer (row : LivestreamViewerModel.t)
    (* INSERT INTO livestream_viewers_history (user_id, livestream_id, created_at) VALUES (...) *)
| DeleteViewer (userID livestreamID : Z).
    (* DELETE FROM livestream_viewers_history WHERE user_id = ? AND livestream_id = ? *)

(** A transaction on the whole database: the rows and counters it sees,
    whether it has committed, the statements issued so far, and which
    statements the database fails. *)
Record Session {UserModel ReportModel : Type} : Type := mkSession
  { current : Site UserModel ReportModel;
    finished : bool;
    statements : list Statement;
    plan : nat -> bool }.
Arguments Session : clear implicits.
Arguments mkSession {UserModel ReportModel}.

(** What the rest of the package and the schema contribute: the name
    column of a user row, the comparison [name = ?] under the collation
    of the name columns, and the rows and the composer of livecomment
    reports ([livecomment_handler.go]). *)
Class Package `{UH : UserHandler} : Type :=
  { UserModel_Name : UserModel -> string;
    nameEq : string -> string -> bool;
    LivecommentReportModel : Type;
    LivecommentReport : Type;
    LivecommentReportModel_LivestreamID : LivecommentReportModel -> Z;
    fillLivecommentReportResponse :
      Site UserModel LivecommentReportModel -> LivecommentReportModel
      -> result error LivecommentReport }.

Definition StatusOK : Z := 200.
Definition StatusForbidden : Z := 403.
Definition StatusNotFound : Z := 404.

(** [fmt.Sprintf(format, arg)] as the text of an answer. *)
Definition Sprintf (format : string) (arg : Z) : Message := TextErr "" (Errorf format arg).

(** ** [ORDER BY ... DESC] and [LIMIT] *)

Fixpoint insertDesc {A} (key : A -> Z) (x : A) (rows : list A) : list A :=
  match rows with
  | [] => [x]
  | y :: rest => if key y <=? key x then x :: rows else y :: insertDesc key x rest
  end.

(** The rows by descending key. Rows with equal keys come in the order
    of the table here; MySQL promises no order among them. *)
Definition orderByDesc {A} (key : A -> Z) (rows : list A) : list A :=
  fold_right (insertDesc key) [] rows.

(** [LIMIT n] as the handlers append it to the statement: the first [n]
    rows, and a statement MySQL rejects when [n] is negative. *)
Definition limited {A} (limit : option Z) (rows : list A) : result error (list A) :=
  match limit with
  | None => Ok rows
  | Some n =>
      if n <? 0 then Err (ErrOther "You have an error in your SQL syntax")
      else Ok (firstn (Z.to_nat n) rows)
  end.

Abbreviation SITE := (Site UserModel LivecommentReportModel).
Abbreviation SessM := (M (Session UserModel LivecommentReportModel)).

Section Sessions.
Context `{P : Package}.

Definition rowsOf (S : SITE) : DB := tables (database S).

Definition livestreams_where_id (id : Z) (S : SITE) : list LivestreamModel.t :=
  List.filter (fun l => LivestreamModel.ID l =? id) (livestreams (rowsOf S)).

Definition livestreams_where_user_id (userID : Z) (S : SITE) : list LivestreamModel.t :=
  List.filter (fun l => LivestreamModel.UserID l =? userID) (livestreams (rowsOf S)).

Definition livestreams_desc (limit : option Z) (S : SITE) : result error (list LivestreamModel.t) :=
  limited limit (orderByDesc LivestreamModel.ID (livestreams (rowsOf S))).

Definition tag_ids_where_name (name : string) (S : SITE) : list Z :=
  map TagModel.ID (List.filter (fun t => nameEq (TagModel.Name t) name) (tags (rowsOf S))).

Definition livestream_tags_where_tag_id_in (ids : list Z) (S : SITE)
  : list LivestreamTagModel.t :=
  orderByDesc LivestreamTagModel.LivestreamID
    (List.filter (fun lt => inb (LivestreamTagModel.TagID lt) ids) (livestream_tags (rowsOf S))).

Definition users_where_name (name : string) (S : SITE) : list UserModel :=
  List.filter (fun u => nameEq (UserModel_Name u) name) (users (rowsOf S)).

Definition reports_where_livestream_id (id : Z) (S : SITE) : list LivecommentReportModel :=
  List.filter (fun r => LivecommentReportModel_LivestreamID r =? id) (livecomment_reports S).

Definition reactions_desc (livestreamID : Z) (limit : option Z) (S : SITE)
  : result error (list ReactionModel.t) :=
  limited limit
    (orderByDesc ReactionModel.CreatedAt
       (List.filter (fun r => ReactionModel.LivestreamID r =? livestreamID) (reactions S))).

Definition insert_reaction (row : ReactionModel.t) (S : SITE) : SITE :=
  mkSite (database S) (reactions S ++ [row]) (next_reaction_id S)
    (livestream_viewers_history S) (livecomment_reports S).

Definition insert_viewer (row : LivestreamViewerModel.t) (S : SITE) : SITE :=
  mkSite (database S) (reactions S) (next_reaction_id S)
    (livestream_viewers_history S ++ [row]) (livecomment_reports S).

Definition delete_viewer (userID livestreamID : Z) (S : SITE) : SITE :=
  mkSite (database S) (reactions S) (next_reaction_id S)
    (List.filter
       (fun v => negb ((LivestreamViewerModel.UserID v =? userID)
                       && (LivestreamViewerModel.LivestreamID v =? livestreamID)))
       (livestream_viewers_history S))
    (livecomment_reports S).

(** *** Calls on the transaction *)

(** The transaction as the composers see it: the statement they issue
    next is the next one of the session. *)
Definition txOf (s : Session UserModel LivecommentReportModel) : Tx UserModel :=
  let db := database (current s) in
  mkTx (tables db) (next_livestream_id db) (next_livestream_tag_id db) (finished s) []
    (fun n => plan s (length (statements s) + n)%nat).

Definition sessionOf (s : Session UserModel LivecommentReportModel) (tx : Tx UserModel)
  : Session UserModel LivecommentReportModel :=
  mkSession
    (mkSite (mkDatabase (view tx) (livestreams_seq tx) (livestream_tags_seq tx))
       (reactions (current s)) (next_reaction_id (current s))
       (livestream_viewers_history (current s)) (livecomment_reports (current s)))
    (committed tx) (statements s ++ map Issued (issued tx)) (plan s).

(** A call of a function that takes the [*sqlx.Tx]. *)
Definition inTx {E A} (c : TxM E A) : SessM E A :=
  fun s => let (r, tx) := c (txOf s) in (r, sessionOf s tx).

Definition issue (q : Statement) : SessM error unit :=
  fun s =>
    (if plan s (length (statements s)) then Err ErrStorage else Ok tt,
     mkSession (current s) (finished s) (statements s ++ [q]) (plan s)).

(** [tx.SelectContext]; the statement may be one the database rejects. *)
Definition SelectRows {A} (q : Statement) (rows : SITE -> result error (list A))
  : SessM error (list A) :=
  let* _ := issue q in
  fun s => (rows (current s), s).

(** [tx.GetContext] *)
Definition GetRow {A} (q : Statement) (rows : SITE -> list A) : SessM error A :=
  let* rs := SelectRows q (fun S => Ok (rows S)) in
  match rs with
  | [] => fail ErrNoRows
  | r :: _ => ret r
  end.

(** [tx.ExecContext] / [tx.NamedExecContext] *)
Definition ExecStatement (q : Statement) (change : SITE -> SITE) : SessM error unit :=
  let* _ := issue q in
  fun s => (Ok tt, mkSession (change (current s)) (finished s) (statements s) (plan s)).

(** The INSERT into [reactions] followed by [result.LastInsertId()]. *)
Definition InsertReactionRow (row : ReactionModel.t) : SessM error Z :=
  let* _ := issue (InsertReaction row) in
  fun s =>
    let S := current s in
    let id := next_reaction_id S in
    let stored :=
      ReactionModel.mk id (ReactionModel.EmojiName row) (ReactionModel.UserID row)
        (ReactionModel.LivestreamID row) (ReactionModel.CreatedAt row) in
    (Ok id,
     mkSession
       (mkSite (database S) (reactions S ++ [stored]) (id + 1)
          (livestream_viewers_history S) (livecomment_reports S))
       (finished s) (statements s) (plan s)).

Definition callFillLivecommentReportResponse (reportModel : LivecommentReportModel)
  : SessM error LivecommentReport :=
  fun s => (fillLivecommentReportResponse (current s) reportModel, s).

(** [echo.NewHTTPError(code, message+err.Error())] *)
Definition withStatus {A} (code : Z) (message : string) (c : SessM error A)
  : SessM HTTPError A :=
  mapErr (fun err => NewHTTPError code (TextErr message err)) c.

Definition BeginTxx : SessM HTTPError unit :=
  inTx (exec Begin) |> withStatus StatusInternalServerError "failed to begin transaction: ".

Definition CommitTx : SessM HTTPError unit :=
  inTx (exec Commit) |> withStatus StatusInternalServerError "failed to commit: ".

(** ** The handlers *)

Definition fillReactionResponse (reactionModel : ReactionModel.t)
  : SessM error (Reaction.t User) :=
  let* userModel :=
    inTx (GetContext (SelectUserByID (ReactionModel.UserID reactionModel))
            (users_where_id (ReactionModel.UserID reactionModel))) in
  let* user := inTx (callFillUserResponse userModel) in
  let* livestreamModel :=
    GetRow (SelectLivestreamByID (ReactionModel.LivestreamID reactionModel))
      (livestreams_where_id (ReactionModel.LivestreamID reactionModel)) in
  let* livestream := inTx (fillLivestreamResponse livestreamModel) in
  ret (reactionOf reactionModel user livestream).

(** The loop of [searchLivestreamsHandler] over the join rows of the
    tag. *)
Fixpoint fetchLivestreams (keyTaggedLivestreams : list LivestreamTagModel.t)
  : SessM HTTPError (list LivestreamModel.t) :=
  match keyTaggedLivestreams with
  | [] => ret []
  | keyTaggedLivestream :: rest =>
      let* ls :=
        GetRow (SelectLivestreamByID (LivestreamTagModel.LivestreamID keyTaggedLivestream))
          (livestreams_where_id (LivestreamTagModel.LivestreamID keyTaggedLivestream))
          |> withStatus StatusInternalServerError "failed to get livestreams: " in
      let* livestreamModels := fetchLivestreams rest in
      ret (ls :: livestreamModels)
  end.

(** Its last loop: the response list, in the order of the rows. *)
Fixpoint collectLivestreams (livestreamMap : gmap Z (Livestream.t User))
    (livestreamModels : list LivestreamModel.t) : result HTTPError (list (Livestream.t User)) :=
  match livestreamModels with
  | [] => Ok []
  | livestreamModel :: rest =>
      match livestreamMap !! LivestreamModel.ID livestreamModel with
      | None =>
          Err (NewHTTPError StatusInternalServerError
                 (Sprintf "livestream not found for ID %d" (LivestreamModel.ID livestreamModel)))
      | Some livestream =>
          match collectLivestreams livestreamMap rest with
          | Err e => Err e
          | Ok livestreams => Ok (livestream :: livestreams)
          end
      end
  end.

(** The query parameter [limit]: absent, or a number. *)
Definition limitParam (limit : string) : result HTTPError (option Z) :=
  if (limit =? "")%string then Ok None
  else
    match strconv.Atoi limit with
    | None =>
        Err (NewHTTPError StatusBadRequest (Text "limit query parameter must be integer"))
    | Some n => Ok (Some n)
    end.

Definition searchLivestreamsHandler (tag limit : string)
  : SessM HTTPError (slice (Livestream.t User)) :=
  let* _ := BeginTxx in
  let* livestreamModels :=
    if negb (tag =? "")%string then
      let* tagIDList :=
        SelectRows (SelectTagIDsByName tag) (fun S => Ok (tag_ids_where_name tag S))
          |> withStatus StatusInternalServerError "failed to get tags: " in
      let* params :=
        lift (sqlx_In tagIDList)
          |> withStatus StatusInternalServerError "failed to construct IN query: " in
      let* keyTaggedLivestreams :=
        SelectRows (SelectLivestreamTagsByTagIDs params)
          (fun S => Ok (livestream_tags_where_tag_id_in params S))
          |> withStatus StatusInternalServerError "failed to get keyTaggedLivestreams: " in
      fetchLivestreams keyTaggedLivestreams
    else
      let* limit := lift (limitParam limit) in
      SelectRows (SelectLivestreamsDesc limit) (livestreams_desc limit)
        |> withStatus StatusInternalServerError "failed to get livestreams: " in
  let* livestreamMap :=
    inTx (fillLivestreamResponseBulk livestreamModels)
      |> withStatus StatusInternalServerError "failed to fill livestreams: " in
  let* livestreams := lift (collectLivestreams livestreamMap livestreamModels) in
  let* _ := CommitTx in
  ret (make_slice livestreams).

(** The loop of [getMyLivestreamsHandler] and [getUserLivestreamsHandler]. *)
Fixpoint fillLivestreams (livestreamModels : list LivestreamModel.t)
  : SessM HTTPError (list (Livestream.t User)) :=
  match livestreamModels with
  | [] => ret []
  | livestreamModel :: rest =>
      let* livestream :=
        inTx (fillLivestreamResponse livestreamModel)
          |> withStatus StatusInternalServerError "failed to fill livestream: " in
      let* livestreams := fillLivestreams rest in
      ret (livestream :: livestreams)
  end.

Definition getMyLivestreamsHandler (userID : Z) : SessM HTTPError (slice (Livestream.t User)) :=
  let* _ := BeginTxx in
  let* livestreamModels :=
    SelectRows (SelectLivestreamsByUserID userID)
      (fun S => Ok (livestreams_where_user_id userID S))
      |> withStatus StatusInternalServerError "failed to get livestreams: " in
  let* livestreams := fillLivestreams livestreamModels in
  let* _ := CommitTx in
  ret (make_slice livestreams).

Definition getUserLivestreamsHandler (username : string)
  : SessM HTTPError (slice (Livestream.t User)) :=
  let* _ := BeginTxx in
  let* user :=
    GetRow (SelectUserByName username) (users_where_name username)
      |> mapErr (fun err =>
           match err with
           | ErrNoRows => NewHTTPError StatusNotFound (Text "user not found")
           | _ => NewHTTPError StatusInternalServerError (TextErr "failed to get user: " err)
           end) in
  let* livestreamModels :=
    SelectRows (SelectLivestreamsByUserID (UserModel_ID user))
      (fun S => Ok (livestreams_where_user_id (UserModel_ID user) S))
      |> withStatus StatusInternalServerError "failed to get livestreams: " in
  let* livestreams := fillLivestreams livestreamModels in
  let* _ := CommitTx in
  ret (make_slice livestreams).

(** [now] is what [time.Now().Unix()] returns. *)
Definition enterLivestreamHandler (userID : Z) (livestream_id : string) (now : Z)
  : SessM HTTPError unit :=
  match strconv.Atoi livestream_id with
  | None => fail (NewHTTPError StatusBadRequest (Text "livestream_id must be integer"))
  | Some livestreamID =>
      let* _ := BeginTxx in
      let viewer := LivestreamViewerModel.mk userID livestreamID now in
      let* _ :=
        ExecStatement (InsertViewer viewer) (insert_viewer viewer)
          |> withStatus StatusInternalServerError "failed to insert livestream_view_history: " in
      CommitTx
  end.

Definition exitLivestreamHandler (userID : Z) (livestream_id : string) : SessM HTTPError unit :=
  match strconv.Atoi livestream_id with
  | None => fail (NewHTTPError StatusBadRequest (Text "livestream_id in path must be integer"))
  | Some livestreamID =>
      let* _ := BeginTxx in
      let* _ :=
        ExecStatement (DeleteViewer userID livestreamID) (delete_viewer userID livestreamID)
          |> withStatus StatusInternalServerError "failed to delete livestream_view_history: " in
      CommitTx
  end.

Definition getLivestreamHandler (livestream_id : string) : SessM HTTPError (Livestream.t User) :=
  match strconv.Atoi livestream_id with
  | None => fail (NewHTTPError StatusBadRequest (Text "livestream_id in path must be integer"))
  | Some livestreamID =>
      let* _ := BeginTxx in
      let* livestreamModel :=
        GetRow (SelectLivestreamByID livestreamID) (livestreams_where_id livestreamID)
          |> mapErr (fun err =>
               match err with
               | ErrNoRows =>
                   NewHTTPError StatusNotFound (Text "not found livestream that has the given id")
               | _ =>
                   NewHTTPError StatusInternalServerError (TextErr "failed to get livestream: " err)
               end) in
      let* livestream :=
        inTx (fillLivestreamResponse livestreamModel)
          |> withStatus StatusInternalServerError "failed to fill livestream: " in
      let* _ := CommitTx in
      ret livestream
  end.

(** The loop of [getLivecommentReportsHandler]. *)
Fixpoint fillReports (reportModels : list LivecommentReportModel)
  : SessM HTTPError (list LivecommentReport) :=
  match reportModels with
  | [] => ret []
  | reportModel :: rest =>
      let* report :=
        callFillLivecommentReportResponse reportModel
          |> withStatus StatusInternalServerError "failed to fill livecomment report: " in
      let* reports := fillReports rest in
      ret (report :: reports)
  end.

Definition getLivecommentReportsHandler (userID : Z) (livestream_id : string)
  : SessM HTTPError (slice LivecommentReport) :=
  match strconv.Atoi livestream_id with
  | None => fail (NewHTTPError StatusBadRequest (Text "livestream_id in path must be integer"))
  | Some livestreamID =>
      let* _ := BeginTxx in
      let* livestreamModel :=
        GetRow (SelectLivestreamByID livestreamID) (livestreams_where_id livestreamID)
          |> withStatus StatusInternalServerError "failed to get livestream: " in
      if negb (LivestreamModel.UserID livestreamModel =? userID) then
        fail (NewHTTPError StatusForbidden
                (Text "can't get other streamer's livecomment reports"))
      else
        let* reportModels :=
          SelectRows (SelectReportsByLivestreamID livestreamID)
            (fun S => Ok (reports_where_livestream_id livestreamID S))
            |> withStatus StatusInternalServerError "failed to get livecomment reports: " in
        let* reports := fillReports reportModels in
        let* _ := CommitTx in
        ret (make_slice reports)
  end.

Definition getReactionsHandler (livestream_id limit : string)
  : SessM HTTPError (slice (Reaction.t User)) :=
  match strconv.Atoi livestream_id with
  | None => fail (NewHTTPError StatusBadRequest (Text "livestream_id in path must be integer"))
  | Some livestreamID =>
      let* _ := BeginTxx in
      let* limit := lift (limitParam limit) in
      let* reactionModels :=
        SelectRows (SelectReactionsDesc livestreamID limit) (reactions_desc livestreamID limit)
          |> mapErr (fun _ => NewHTTPError StatusNotFound (Text "failed to get reactions")) in
      let* reactions :=
        inTx (fillReactionResponseBulk reactionModels)
          |> withStatus StatusInternalServerError "failed to fill reactions: " in
      let* _ := CommitTx in
      ret reactions
  end.

Definition postReactionHandler (userID : Z) (livestream_id : string)
    (req : PostReactionRequest.t) (now : Z) : SessM HTTPError (Reaction.t User) :=
  match strconv.Atoi livestream_id with
  | None => fail (NewHTTPError StatusBadRequest (Text "livestream_id in path must be integer"))
  | Some livestreamID =>
      let* _ := BeginTxx in
      let reactionModel :=
        ReactionModel.mk 0 (PostReactionRequest.EmojiName req) userID livestreamID now in
      let* reactionID :=
        InsertReactionRow reactionModel
          |> withStatus StatusInternalServerError "failed to insert reaction: " in
      let reactionModel :=
        ReactionModel.mk reactionID (ReactionModel.EmojiName reactionModel)
          (ReactionModel.UserID reactionModel) (ReactionModel.LivestreamID reactionModel)
          (ReactionModel.CreatedAt reactionModel) in
      let* reaction :=
        fillReactionResponse reactionModel
          |> withStatus StatusInternalServerError "failed to fill reaction: " in
      let* _ := CommitTx in
      ret reaction
  end.

(** ** A request as a whole *)

(** The rows a rollback restores; the AUTO_INCREMENT counters stay
    where the transaction left them. *)
Definition restored (site : SITE) (s : Session UserModel LivecommentReportModel) : SITE :=
  let db := database (current s) in
  mkSite
    (mkDatabase (tables (database site)) (next_livestream_id db) (next_livestream_tag_id db))
    (reactions site) (next_reaction_id (current s)) (livestream_viewers_history site)
    (livecomment_reports site).

(** A handler from the arrival of the request to its answer: [Ok] is
    the answer with the handler's success status, and when the handler
    returns without having committed, its deferred [tx.Rollback()]
    restores the rows. *)
Definition serve {A} (handler : SessM HTTPError A) (plan : nat -> bool) (site : SITE)
  : result HTTPError A * SITE :=
  let (response, s) := handler (mkSession site false [] plan) in
  (response, if finished s then current s else restored site s).

(** The statements of a request, in the order issued. *)
Definition trace {A} (handler : SessM HTTPError A) (plan : nat -> bool) (site : SITE)
  : list Statement :=
  statements (snd (handler (mkSession site false [] plan))).

End Sessions.

(** ** A small database for the examples *)

Module Sample.

(** A user composer for the examples: a user row is an id and a name,
    and the entity is the row. *)
Record UserRow : Type := mkUser { uid : Z; uname : string }.

Definition handler : UserHandler :=
  {| UserModel := UserRow;
     User := UserRow;
     UserModel_ID := uid;
     fillUserResponse := fun _ userModel => Ok userModel;
     fillUserResponseBulk := fun _ userModels =>
       Ok (fold_left (fun m userModel => <[uid userModel := userModel]> m) userModels ∅) |}.

Definition noFaults : nat -> bool := fun _ => false.

Definition hour : Z := 3600.

(** 2023-11-25 01:00:00 UTC and 2024-11-25 01:00:00 UTC in Unix seconds. *)
Definition t0 : Z := 1700874000.
Definition t1 : Z := 1732496400.

Definition alice : UserRow := mkUser 1 "alice".
Definition bob : UserRow := mkUser 2 "bob".

Definition request (tagIDs : list Z) (startAt endAt : Z) : ReserveLivestreamRequest.t :=
  ReserveLivestreamRequest.mk tagIDs "title" "description" "playlist" "thumbnail" startAt endAt.

Definition database (slots : list ReservationSlotModel.t) : Database UserRow :=
  mkDatabase
    (mkTables [alice; bob] [TagModel.mk 1 "chat"; TagModel.mk 2 "music"] [] [] slots)
    1 1.

(** Two consecutive one-hour slots at the start of the term. *)
Definition twoSlots (c1 c2 : Z) : list ReservationSlotModel.t :=
  [ReservationSlotModel.mk 1 c1 t0 (t0 + hour);
   ReservationSlotModel.mk 2 c2 (t0 + hour) (t0 + 2 * hour)].

(** Two rows for one and the same hour. *)
Definition sameHourTwice (c1 c2 : Z) : list ReservationSlotModel.t :=
  [ReservationSlotModel.mk 1 c1 t0 (t0 + hour);
   ReservationSlotModel.mk 2 c2 t0 (t0 + hour)].

Definition stream (id userID : Z) : LivestreamModel.t :=
  LivestreamModel.mk id userID "title" "description" "playlist" "thumbnail" t0 (t0 + hour).

Definition transaction (T : Tables UserRow) : Tx UserRow :=
  mkTx T 100 100 false [] noFaults.

(** Livestreams 7 and 8 of alice carry tags; livestream 9 of bob carries
    none. *)
Definition catalogue : Tables UserRow :=
  mkTables [alice; bob] [TagModel.mk 1 "chat"; TagModel.mk 2 "music"]
    [stream 7 1; stream 8 1; stream 9 2]
    [LivestreamTagModel.mk 1 7 1; LivestreamTagModel.mk 2 7 2; LivestreamTagModel.mk 3 8 2]
    [].

Definition reaction (id userID livestreamID : Z) : ReactionModel.t :=
  ReactionModel.mk id "smile" userID livestreamID (t0 + 60).

(** For the other handlers: names compare as strings, and a livecomment
    report is its id and the id of its livestream, composed as it is. *)
Definition package : Package (UH := handler) :=
  @Build_Package handler uname String.eqb (Z * Z) (Z * Z) snd (fun _ reportModel => Ok reportModel).

(** The catalogue with three reactions, one viewer and two reports. *)
Definition site : Site UserRow (Z * Z) :=
  mkSite (mkDatabase catalogue 10 4)
    [ReactionModel.mk 1 "smile" 2 7 (t0 + 60);
     ReactionModel.mk 2 "heart" 1 7 (t0 + 90);
     ReactionModel.mk 3 "smile" 1 8 (t0 + 30)]
    4
    [LivestreamViewerModel.mk 2 7 (t0 + 10)]
    [(1, 7); (2, 8)].

End Sample.

(** * Properties *)

(** ** Instants *)









(** ** Runs in a transaction *)

Section Runs.
Context `{UH : UserHandler}.

Lemma bind_run {E A B} (c : TxM E A) (k : A -> TxM E B) tx r tx' :
  bind c k tx = (r, tx') ->
  (exists a tx1, c tx = (Ok a, tx1) /\ k a tx1 = (r, tx'))
  \/ (exists e, c tx = (Err e, tx') /\ r = Err e).
Proof.
  unfold bind. destruct (c tx) as [[a | e] tx1]; intros H.
  - left. eauto.
  - right. inversion H; subst. eauto.
Qed.

Lemma bind_run_ok {E A B} (c : TxM E A) (k : A -> TxM E B) tx b tx' :
  bind c k tx = (Ok b, tx') ->
  exists a tx1, c tx = (Ok a, tx1) /\ k a tx1 = (Ok b, tx').
Proof.
  intros H. apply bind_run in H as [H | (e & _ & H)]; [exact H | discriminate].
Qed.

Lemma mapErr_run {E F A} (f : E -> F) (c : TxM E A) tx r tx' :
  mapErr f c tx = (r, tx') ->
  (exists a, c tx = (Ok a, tx') /\ r = Ok a)
  \/ (exists e, c tx = (Err e, tx') /\ r = Err (f e)).
Proof.
  unfold mapErr. destruct (c tx) as [[a | e] tx1]; intros H; inversion H; subst; eauto.
Qed.

(** *** What a computation leaves as it is *)

(** [keeps f c]: [c] does not change the component [f] of the
    transaction, whatever it returns. *)
Definition keeps {X E A} (f : Tx UserModel -> X) (c : TxM E A) : Prop :=
  forall tx r tx', c tx = (r, tx') -> f tx' = f tx.

Lemma keeps_ret {X E A} (f : Tx UserModel -> X) (a : A) : keeps f (ret (E := E) a).
Proof. intros tx r tx' H. inversion H; subst. reflexivity. Qed.

Lemma keeps_fail {X E A} (f : Tx UserModel -> X) (e : E) : keeps f (fail (A := A) e).
Proof. intros tx r tx' H. inversion H; subst. reflexivity. Qed.

Lemma keeps_lift {X E A} (f : Tx UserModel -> X) (r : result E A) : keeps f (lift r).
Proof. intros tx r' tx' H. inversion H; subst. reflexivity. Qed.

Lemma keeps_bind {X E A B} (f : Tx UserModel -> X) (c : TxM E A) (k : A -> TxM E B) :
  keeps f c -> (forall a, keeps f (k a)) -> keeps f (bind c k).
Proof.
  intros Hc Hk tx r tx' H.
  apply bind_run in H as [(a & tx1 & H1 & H2) | (e & H1 & _)].
  - rewrite (Hk _ _ _ _ H2). exact (Hc _ _ _ H1).
  - exact (Hc _ _ _ H1).
Qed.

Lemma keeps_mapErr {X E F A} (f : Tx UserModel -> X) (g : E -> F) (c : TxM E A) :
  keeps f c -> keeps f (mapErr g c).
Proof.
  intros Hc tx r tx' H.
  apply mapErr_run in H as [(a & H & _) | (e & H & _)]; exact (Hc _ _ _ H).
Qed.

Lemma keeps_if {X E A} (f : Tx UserModel -> X) (b : bool) (c d : TxM E A) :
  keeps f c -> keeps f d -> keeps f (if b then c else d).
Proof. destruct b; auto. Qed.

Lemma keeps_callFillUserResponse {X} (f : Tx UserModel -> X) userModel :
  keeps f (callFillUserResponse userModel).
Proof. intros tx r tx' H. inversion H; subst. reflexivity. Qed.

Lemma keeps_callFillUserResponseBulk {X} (f : Tx UserModel -> X) userModels :
  keeps f (callFillUserResponseBulk userModels).
Proof. intros tx r tx' H. inversion H; subst. reflexivity. Qed.

(** The components. *)
Definition slotsOf (tx : Tx UserModel) : list ReservationSlotModel.t :=
  reservation_slots (view tx).
Definition tagsOf (tx : Tx UserModel) : list TagModel.t := tags (view tx).
Definition usersOf (tx : Tx UserModel) : list UserModel := users (view tx).

(** A statement leaves the rows, the counters and the fault plan alone. *)
Lemma exec_run (q : Query) tx r tx' :
  exec q tx = (r, tx') ->
  view tx' = view tx /\ faults tx' = faults tx /\ issued tx' = issued tx ++ [q]
  /\ livestreams_seq tx' = livestreams_seq tx
  /\ livestream_tags_seq tx' = livestream_tags_seq tx
  /\ r = (if faults tx (length (issued tx)) then Err ErrStorage else Ok tt).
Proof. unfold exec. intros H. inversion H; subst. simpl. repeat split. Qed.

Lemma keeps_exec_view q : keeps view (exec q).
Proof. intros tx r tx' H. apply exec_run in H. tauto. Qed.

Lemma keeps_exec_faults q : keeps faults (exec q).
Proof. intros tx r tx' H. apply exec_run in H. tauto. Qed.

Lemma keeps_exec_committed q : q <> Commit -> keeps committed (exec q).
Proof.
  intros Hq tx r tx' H. unfold exec in H. inversion H; subst. simpl.
  destruct q; try congruence; apply orb_false_r.
Qed.

Lemma keeps_modify_faults change : keeps faults (modify change).
Proof. intros tx r tx' H. inversion H; subst. reflexivity. Qed.

Lemma keeps_modify_committed change : keeps committed (modify change).
Proof. intros tx r tx' H. inversion H; subst. reflexivity. Qed.

Lemma keeps_modify_issued change : keeps issued (modify change).
Proof. intros tx r tx' H. inversion H; subst. reflexivity. Qed.

End Runs.

(** ** The calls on the transaction, one by one *)

Section Calls.
Context `{UH : UserHandler}.

(** The transaction after the statement [q] was issued. *)
Definition after (q : Query) (tx : Tx UserModel) : Tx UserModel := snd (exec q tx).

(** Whether the database fails the next statement. *)
Definition failsNext (tx : Tx UserModel) : bool := faults tx (length (issued tx)).

Lemma exec_eq q tx :
  exec q tx = (if failsNext tx then Err ErrStorage else Ok tt, after q tx).
Proof. reflexivity. Qed.

Lemma SelectContext_eq {A} q (rows : DB -> list A) tx :
  SelectContext q rows tx
  = (if failsNext tx then Err ErrStorage else Ok (rows (view tx)), after q tx).
Proof.
  unfold SelectContext, bind. rewrite exec_eq. destruct (failsNext tx); reflexivity.
Qed.

Lemma GetContext_eq {A} q (rows : DB -> list A) tx :
  GetContext q rows tx
  = (if failsNext tx then Err ErrStorage
     else match rows (view tx) with
          | [] => Err ErrNoRows
          | r :: _ => Ok r
          end,
     after q tx).
Proof.
  unfold GetContext, bind. rewrite SelectContext_eq.
  destruct (failsNext tx); [reflexivity |].
  change (view (after q tx)) with (view tx).
  destruct (rows (view tx)); reflexivity.
Qed.

Lemma view_after q tx : view (after q tx) = view tx.
Proof. reflexivity. Qed.

Lemma issued_after q tx : issued (after q tx) = issued tx ++ [q].
Proof. reflexivity. Qed.

Lemma committed_after q tx : q <> Commit -> committed (after q tx) = committed tx.
Proof.
  intros Hq. unfold after, exec. simpl. destruct q; try congruence; apply orb_false_r.
Qed.

Lemma keeps_SelectContext_view {A} q (rows : DB -> list A) : keeps view (SelectContext q rows).
Proof. intros tx r tx'. rewrite SelectContext_eq. intros [= _ <-]. reflexivity. Qed.

Lemma keeps_GetContext_view {A} q (rows : DB -> list A) : keeps view (GetContext q rows).
Proof. intros tx r tx'. rewrite GetContext_eq. intros [= _ <-]. reflexivity. Qed.

Lemma keeps_SelectContext_faults {A} q (rows : DB -> list A) : keeps faults (SelectContext q rows).
Proof. intros tx r tx'. rewrite SelectContext_eq. intros [= _ <-]. reflexivity. Qed.

Lemma keeps_GetContext_faults {A} q (rows : DB -> list A) : keeps faults (GetContext q rows).
Proof. intros tx r tx'. rewrite GetContext_eq. intros [= _ <-]. reflexivity. Qed.

Lemma keeps_SelectContext_committed {A} q (rows : DB -> list A) :
  q <> Commit -> keeps committed (SelectContext q rows).
Proof.
  intros Hq tx r tx'. rewrite SelectContext_eq. intros [= _ <-].
  apply committed_after, Hq.
Qed.

Lemma keeps_GetContext_committed {A} q (rows : DB -> list A) :
  q <> Commit -> keeps committed (GetContext q rows).
Proof.
  intros Hq tx r tx'. rewrite GetContext_eq. intros [= _ <-].
  apply committed_after, Hq.
Qed.

(** A component of the rows is kept by whatever keeps the rows. *)
Lemma keeps_of_view {X E A} (g : DB -> X) (c : TxM E A) :
  keeps view c -> keeps (fun tx => g (view tx)) c.
Proof. intros Hc tx r tx' H. simpl. rewrite (Hc _ _ _ H). reflexivity. Qed.

End Calls.

Create HintDb keeps.

#[export] Hint Resolve keeps_ret keeps_fail keeps_lift keeps_bind keeps_mapErr keeps_if
  keeps_callFillUserResponse keeps_callFillUserResponseBulk
  keeps_exec_view keeps_exec_faults keeps_exec_committed
  keeps_modify_faults keeps_modify_committed keeps_modify_issued
  keeps_SelectContext_view keeps_GetContext_view
  keeps_SelectContext_faults keeps_GetContext_faults
  keeps_SelectContext_committed keeps_GetContext_committed : keeps.

#[export] Hint Extern 1 (_ <> Commit) => discriminate : keeps.

Ltac keeps_by_computation :=
  let H := fresh in intros ? ? ? H; inversion H; subst; reflexivity.

Section Frames.
Context `{UH : UserHandler}.

Lemma keeps_slots_of_view {E A} (c : TxM E A) : keeps view c -> keeps slotsOf c.
Proof. apply (keeps_of_view reservation_slots). Qed.

Lemma keeps_tags_of_view {E A} (c : TxM E A) : keeps view c -> keeps tagsOf c.
Proof. apply (keeps_of_view tags). Qed.

Lemma keeps_users_of_view {E A} (c : TxM E A) : keeps view c -> keeps usersOf c.
Proof. apply (keeps_of_view users). Qed.

Lemma keeps_nextLivestreamID_view : keeps view nextLivestreamID.
Proof. keeps_by_computation. Qed.
Lemma keeps_nextLivestreamID_faults : keeps faults nextLivestreamID.
Proof. keeps_by_computation. Qed.
Lemma keeps_nextLivestreamID_committed : keeps committed nextLivestreamID.
Proof. keeps_by_computation. Qed.
Lemma keeps_nextLivestreamTagID_view : keeps view nextLivestreamTagID.
Proof. keeps_by_computation. Qed.
Lemma keeps_nextLivestreamTagID_faults : keeps faults nextLivestreamTagID.
Proof. keeps_by_computation. Qed.
Lemma keeps_nextLivestreamTagID_committed : keeps committed nextLivestreamTagID.
Proof. keeps_by_computation. Qed.

Lemma keeps_insert_livestream_slots row : keeps slotsOf (modify (insert_livestream row)).
Proof. keeps_by_computation. Qed.
Lemma keeps_insert_livestream_tags row : keeps tagsOf (modify (insert_livestream row)).
Proof. keeps_by_computation. Qed.
Lemma keeps_insert_livestream_tag_slots row : keeps slotsOf (modify (insert_livestream_tag row)).
Proof. keeps_by_computation. Qed.
Lemma keeps_insert_livestream_tag_tags row : keeps tagsOf (modify (insert_livestream_tag row)).
Proof. keeps_by_computation. Qed.
Lemma keeps_update_slots_tags s e : keeps tagsOf (modify (update_slots s e)).
Proof. keeps_by_computation. Qed.

End Frames.

#[export] Hint Resolve keeps_slots_of_view keeps_tags_of_view keeps_users_of_view
  keeps_nextLivestreamID_view keeps_nextLivestreamID_faults keeps_nextLivestreamID_committed
  keeps_nextLivestreamTagID_view keeps_nextLivestreamTagID_faults
  keeps_nextLivestreamTagID_committed
  keeps_insert_livestream_slots keeps_insert_livestream_tags
  keeps_insert_livestream_tag_slots keeps_insert_livestream_tag_tags
  keeps_update_slots_tags : keeps.

Section CompositeFrames.
Context `{UH : UserHandler}.

Lemma keeps_httpError {X A} (f : Tx UserModel -> X) code message (c : TxM error A) :
  keeps f c -> keeps f (httpError code message c).
Proof. apply keeps_mapErr. Qed.

Lemma keeps_fetchTags_view lts : keeps view (fetchTags lts).
Proof. induction lts; simpl; auto 10 with keeps. Qed.

Lemma keeps_fetchTags_faults lts : keeps faults (fetchTags lts).
Proof. induction lts; simpl; auto 10 with keeps. Qed.

Lemma keeps_fetchTags_committed lts : keeps committed (fetchTags lts).
Proof. induction lts; simpl; auto 10 with keeps. Qed.

Lemma keeps_fillLivestreamResponse_view lm : keeps view (fillLivestreamResponse lm).
Proof. unfold fillLivestreamResponse. auto 20 using keeps_fetchTags_view with keeps. Qed.

Lemma keeps_fillLivestreamResponse_faults lm : keeps faults (fillLivestreamResponse lm).
Proof. unfold fillLivestreamResponse. auto 20 using keeps_fetchTags_faults with keeps. Qed.

Lemma keeps_fillLivestreamResponse_committed lm : keeps committed (fillLivestreamResponse lm).
Proof. unfold fillLivestreamResponse. auto 20 using keeps_fetchTags_committed with keeps. Qed.

Lemma keeps_checkSlots_view req slots : keeps view (checkSlots req slots).
Proof.
  induction slots; simpl; auto with keeps.
  apply keeps_bind; [auto using keeps_httpError with keeps |].
  intros count. destruct (count <? 1); auto with keeps.
Qed.

Lemma keeps_checkSlots_faults req slots : keeps faults (checkSlots req slots).
Proof.
  induction slots; simpl; auto with keeps.
  apply keeps_bind; [auto using keeps_httpError with keeps |].
  intros count. destruct (count <? 1); auto with keeps.
Qed.

Lemma keeps_checkSlots_committed req slots : keeps committed (checkSlots req slots).
Proof.
  induction slots; simpl; auto with keeps.
  apply keeps_bind; [auto using keeps_httpError with keeps |].
  intros count. destruct (count <? 1); auto with keeps.
Qed.

Lemma keeps_InsertLivestreamRow_slots row : keeps slotsOf (InsertLivestreamRow row).
Proof. unfold InsertLivestreamRow. auto 20 with keeps. Qed.

Lemma keeps_InsertLivestreamRow_tags row : keeps tagsOf (InsertLivestreamRow row).
Proof. unfold InsertLivestreamRow. auto 20 with keeps. Qed.

Lemma keeps_InsertLivestreamRow_faults row : keeps faults (InsertLivestreamRow row).
Proof. unfold InsertLivestreamRow. auto 20 with keeps. Qed.

Lemma keeps_InsertLivestreamRow_committed row : keeps committed (InsertLivestreamRow row).
Proof. unfold InsertLivestreamRow. auto 20 with keeps. Qed.

Lemma keeps_InsertLivestreamTagRow_slots l t : keeps slotsOf (InsertLivestreamTagRow l t).
Proof. unfold InsertLivestreamTagRow. auto 20 with keeps. Qed.

Lemma keeps_InsertLivestreamTagRow_tags l t : keeps tagsOf (InsertLivestreamTagRow l t).
Proof. unfold InsertLivestreamTagRow. auto 20 with keeps. Qed.

Lemma keeps_InsertLivestreamTagRow_faults l t : keeps faults (InsertLivestreamTagRow l t).
Proof. unfold InsertLivestreamTagRow. auto 20 with keeps. Qed.

Lemma keeps_InsertLivestreamTagRow_committed l t : keeps committed (InsertLivestreamTagRow l t).
Proof. unfold InsertLivestreamTagRow. auto 20 with keeps. Qed.

Lemma keeps_insertTags_slots l tagIDs : keeps slotsOf (insertTags l tagIDs).
Proof.
  induction tagIDs; simpl; auto 10 using keeps_httpError, keeps_InsertLivestreamTagRow_slots with keeps.
Qed.

Lemma keeps_insertTags_tags l tagIDs : keeps tagsOf (insertTags l tagIDs).
Proof.
  induction tagIDs; simpl; auto 10 using keeps_httpError, keeps_InsertLivestreamTagRow_tags with keeps.
Qed.

Lemma keeps_insertTags_faults l tagIDs : keeps faults (insertTags l tagIDs).
Proof.
  induction tagIDs; simpl; auto 10 using keeps_httpError, keeps_InsertLivestreamTagRow_faults with keeps.
Qed.

Lemma keeps_insertTags_committed l tagIDs : keeps committed (insertTags l tagIDs).
Proof.
  induction tagIDs; simpl;
    auto 10 using keeps_httpError, keeps_InsertLivestreamTagRow_committed with keeps.
Qed.

Lemma keeps_ExecContext_committed q change : q <> Commit -> keeps committed (ExecContext q change).
Proof. intros Hq. unfold ExecContext. auto 10 with keeps. Qed.

Lemma keeps_ExecContext_faults q change : keeps faults (ExecContext q change).
Proof. unfold ExecContext. auto 10 with keeps. Qed.

End CompositeFrames.

#[export] Hint Resolve keeps_httpError
  keeps_fetchTags_view keeps_fetchTags_faults keeps_fetchTags_committed
  keeps_fillLivestreamResponse_view keeps_fillLivestreamResponse_faults
  keeps_fillLivestreamResponse_committed
  keeps_checkSlots_view keeps_checkSlots_faults keeps_checkSlots_committed
  keeps_InsertLivestreamRow_slots keeps_InsertLivestreamRow_tags
  keeps_InsertLivestreamRow_faults keeps_InsertLivestreamRow_committed
  keeps_InsertLivestreamTagRow_slots keeps_InsertLivestreamTagRow_tags
  keeps_InsertLivestreamTagRow_faults keeps_InsertLivestreamTagRow_committed
  keeps_insertTags_slots keeps_insertTags_tags keeps_insertTags_faults
  keeps_insertTags_committed keeps_ExecContext_committed keeps_ExecContext_faults : keeps.

(** ** Successful runs issue no failed statement *)

Section Clean.
Context `{UH : UserHandler}.

(** From [tx] to [tx'] statements were issued, none of which the
    database failed. *)
Definition cleanly (tx tx' : Tx UserModel) : Prop :=
  faults tx' = faults tx
  /\ exists more, issued tx' = issued tx ++ more
     /\ forall n, (length (issued tx) <= n < length (issued tx'))%nat -> faults tx n = false.

Lemma cleanly_refl tx : cleanly tx tx.
Proof.
  split; [reflexivity |]. exists []. split; [symmetry; apply app_nil_r |]. intros n Hn. lia.
Qed.

Lemma cleanly_same tx tx' : faults tx' = faults tx -> issued tx' = issued tx -> cleanly tx tx'.
Proof.
  intros Hf Hi. split; [exact Hf |]. exists []. split.
  - rewrite Hi. symmetry. apply app_nil_r.
  - intros n Hn. rewrite Hi in Hn. lia.
Qed.

Lemma cleanly_trans tx1 tx2 tx3 : cleanly tx1 tx2 -> cleanly tx2 tx3 -> cleanly tx1 tx3.
Proof.
  intros (Hf1 & m1 & Hi1 & Hn1) (Hf2 & m2 & Hi2 & Hn2).
  split; [congruence |]. exists (m1 ++ m2). split.
  - rewrite Hi2, Hi1. symmetry. apply app_assoc.
  - intros n Hn. destruct (Nat.lt_ge_cases n (length (issued tx2))) as [Hlt | Hge].
    + apply Hn1. lia.
    + rewrite <- Hf1. apply Hn2. lia.
Qed.

Definition clean {E A} (c : TxM E A) : Prop :=
  forall tx a tx', c tx = (Ok a, tx') -> cleanly tx tx'.

Lemma clean_ret {E A} (a : A) : clean (ret (E := E) a).
Proof. intros tx b tx' [= _ <-]. apply cleanly_refl. Qed.

Lemma clean_fail {E A} (e : E) : clean (fail (A := A) e).
Proof. intros tx b tx' H. discriminate. Qed.

Lemma clean_lift {E A} (r : result E A) : clean (lift r).
Proof. intros tx b tx' [= _ <-]. apply cleanly_refl. Qed.

Lemma clean_bind {E A B} (c : TxM E A) (k : A -> TxM E B) :
  clean c -> (forall a, clean (k a)) -> clean (bind c k).
Proof.
  intros Hc Hk tx b tx' H. apply bind_run_ok in H as (a & tx1 & H1 & H2).
  eapply cleanly_trans; [exact (Hc _ _ _ H1) | exact (Hk _ _ _ _ H2)].
Qed.

Lemma clean_mapErr {E F A} (f : E -> F) (c : TxM E A) : clean c -> clean (mapErr f c).
Proof.
  intros Hc tx a tx' H.
  apply mapErr_run in H as [(b & H & [= <-]) | (e & _ & [=])]. exact (Hc _ _ _ H).
Qed.

Lemma clean_if {E A} (b : bool) (c d : TxM E A) : clean c -> clean d -> clean (if b then c else d).
Proof. destruct b; auto. Qed.

Lemma clean_exec q : clean (exec q).
Proof.
  intros tx a tx'. rewrite exec_eq. unfold failsNext.
  destruct (faults tx (length (issued tx))) eqn:Hf; intros H; inversion H; subst.
  split; [reflexivity |]. exists [q]. split; [reflexivity |].
  intros n. rewrite issued_after, length_app. simpl. intros Hn.
  replace n with (length (issued tx)) by lia. exact Hf.
Qed.

Lemma clean_modify change : clean (modify change).
Proof. intros tx a tx' [= _ <-]. apply cleanly_same; reflexivity. Qed.

Lemma clean_nextLivestreamID : clean nextLivestreamID.
Proof. intros tx a tx' [= _ <-]. apply cleanly_same; reflexivity. Qed.

Lemma clean_nextLivestreamTagID : clean nextLivestreamTagID.
Proof. intros tx a tx' [= _ <-]. apply cleanly_same; reflexivity. Qed.

Lemma clean_callFillUserResponse userModel : clean (callFillUserResponse userModel).
Proof. intros tx a tx' [= _ <-]. apply cleanly_refl. Qed.

Lemma clean_callFillUserResponseBulk userModels : clean (callFillUserResponseBulk userModels).
Proof. intros tx a tx' [= _ <-]. apply cleanly_refl. Qed.

End Clean.

Create HintDb clean.

#[export] Hint Resolve clean_ret clean_fail clean_lift clean_bind clean_mapErr clean_if
  clean_exec clean_modify clean_nextLivestreamID clean_nextLivestreamTagID
  clean_callFillUserResponse clean_callFillUserResponseBulk : clean.

Section CleanCalls.
Context `{UH : UserHandler}.

Lemma clean_SelectContext {A} q (rows : DB -> list A) : clean (SelectContext q rows).
Proof.
  unfold SelectContext. apply clean_bind; auto with clean.
  intros _ tx a tx' [= _ <-]. apply cleanly_refl.
Qed.

Lemma clean_GetContext {A} q (rows : DB -> list A) : clean (GetContext q rows).
Proof.
  unfold GetContext. apply clean_bind; [apply clean_SelectContext |].
  intros [| r rs]; auto with clean.
Qed.

Lemma clean_httpError {A} code message (c : TxM error A) :
  clean c -> clean (httpError code message c).
Proof. apply clean_mapErr. Qed.

Lemma clean_fetchTags lts : clean (fetchTags lts).
Proof. induction lts; simpl; auto 10 using clean_GetContext with clean. Qed.

Lemma clean_fillLivestreamResponse lm : clean (fillLivestreamResponse lm).
Proof.
  unfold fillLivestreamResponse.
  auto 20 using clean_GetContext, clean_SelectContext, clean_fetchTags with clean.
Qed.

Lemma clean_checkSlots req slots : clean (checkSlots req slots).
Proof.
  induction slots; simpl; auto with clean.
  apply clean_bind; [auto using clean_httpError, clean_GetContext |].
  intros count. destruct (count <? 1); auto with clean.
Qed.

Lemma clean_insertTags l tagIDs : clean (insertTags l tagIDs).
Proof.
  induction tagIDs; simpl; auto with clean.
  apply clean_bind; [| auto]. apply clean_httpError.
  unfold InsertLivestreamTagRow. auto 10 with clean.
Qed.

Lemma clean_reserveInTx userID req : clean (reserveInTx userID req).
Proof.
  unfold reserveInTx, ExecContext, InsertLivestreamRow.
  apply clean_if; [auto with clean |].
  auto 30 using clean_httpError, clean_SelectContext, clean_checkSlots, clean_insertTags,
    clean_fillLivestreamResponse with clean.
Qed.

End CleanCalls.

(** ** The reservation, step by step *)

(** The two rejections of a request (status 400) and the failures
    (status 500). *)
Definition slotUnavailable (e : HTTPError) : Prop :=
  exists a b c d, e = NewHTTPError StatusBadRequest (SlotUnavailable a b c d).

Definition serverError (e : HTTPError) : Prop := Code e = StatusInternalServerError.

(** The rows of a slot's interval hold exactly this slot. *)
Definition interval (slot : ReservationSlotModel.t) : Z * Z :=
  (ReservationSlotModel.StartAt slot, ReservationSlotModel.EndAt slot).

Definition decrementWindow (startAt endAt : Z) (slots : list ReservationSlotModel.t)
  : list ReservationSlotModel.t :=
  map (fun r => if slot_in_window startAt endAt r then decrement_slot r else r) slots.

Definition slotCountQuery (slot : ReservationSlotModel.t) : Query :=
  SelectSlotCount (ReservationSlotModel.StartAt slot) (ReservationSlotModel.EndAt slot).

Section ReserveSteps.
Context `{UH : UserHandler}.

Definition errs {A} (P : HTTPError -> Prop) (c : TxM HTTPError A) : Prop :=
  forall tx e tx', c tx = (Err e, tx') -> P e.

Lemma errs_ret {A} P (a : A) : errs P (ret a).
Proof. intros tx e tx' H. discriminate. Qed.

Lemma errs_fail {A} (P : HTTPError -> Prop) e : P e -> errs P (fail (A := A) e).
Proof. intros He tx e' tx' [= <- _]. exact He. Qed.

Lemma errs_bind {A B} P (c : TxM HTTPError A) (k : A -> TxM HTTPError B) :
  errs P c -> (forall a, errs P (k a)) -> errs P (bind c k).
Proof.
  intros Hc Hk tx e tx' H.
  apply bind_run in H as [(a & tx1 & _ & H) | (e' & H & Heq)].
  - exact (Hk _ _ _ _ H).
  - inversion Heq; subst. exact (Hc _ _ _ H).
Qed.

Lemma errs_weaken {A} (P Q : HTTPError -> Prop) (c : TxM HTTPError A) :
  (forall e, P e -> Q e) -> errs P c -> errs Q c.
Proof. intros HPQ Hc tx e tx' H. apply HPQ. exact (Hc _ _ _ H). Qed.

Lemma errs_httpError {A} (P : HTTPError -> Prop) code message (c : TxM error A) :
  (forall err, P (NewHTTPError code (TextErr message err))) -> errs P (httpError code message c).
Proof.
  intros HP tx e tx' H.
  apply mapErr_run in H as [(a & _ & [=]) | (err & _ & [= ->])]. apply HP.
Qed.

Lemma httpError_ok {A} code message (c : TxM error A) tx a tx' :
  httpError code message c tx = (Ok a, tx') -> c tx = (Ok a, tx').
Proof.
  intros H. apply mapErr_run in H as [(b & H & [= <-]) | (e & _ & [=])]. exact H.
Qed.

Lemma errs_checkSlots req slots :
  errs (fun e => serverError e \/ slotUnavailable e) (checkSlots req slots).
Proof.
  induction slots as [| slot slots IH]; simpl; [apply errs_ret |].
  apply errs_bind.
  - apply errs_httpError. intros err. left. reflexivity.
  - intros count. destruct (count <? 1); [| exact IH].
    apply errs_fail. right. unfold slotUnavailable. eauto.
Qed.

Lemma errs_insertTags l tagIDs : errs serverError (insertTags l tagIDs).
Proof.
  induction tagIDs as [| tagID tagIDs IH]; simpl; [apply errs_ret |].
  apply errs_bind; [| intros _; exact IH].
  apply errs_httpError. reflexivity.
Qed.

(** Past the time range check, an error is a failure or the rejection
    of the capacity check. *)
Lemma reserveInTx_errors userID req tx e tx' :
  reserveInTx userID req tx = (Err e, tx') ->
  let bad :=
    badTimeRange termStartAt termEndAt
      (time.Unix (ReserveLivestreamRequest.StartAt req) 0)
      (time.Unix (ReserveLivestreamRequest.EndAt req) 0) in
  (bad = true /\ e = badTimeRangeError)
  \/ (bad = false /\ (serverError e \/ slotUnavailable e)).
Proof.
  unfold reserveInTx. simpl. destruct (badTimeRange _ _ _ _).
  - intros [= <- _]. left. auto.
  - intros H. right. split; [reflexivity |]. revert tx e tx' H.
    match goal with
    | |- forall tx e tx', ?c tx = (Err e, tx') -> @?P e => change (errs P c)
    end.
    repeat first
      [ apply errs_ret
      | apply errs_checkSlots
      | apply errs_httpError; intros err; left; reflexivity
      | apply (errs_weaken serverError); [intros ? ?; left; assumption | apply errs_insertTags]
      | apply errs_bind; [| intros ?] ].
Qed.

End ReserveSteps.

Section Commit.
Context `{UH : UserHandler}.

(** [c] commits exactly when it succeeds. *)
Definition commits {A} (c : TxM HTTPError A) : Prop :=
  forall tx r tx', c tx = (r, tx') -> committed tx = false -> committed tx' = is_ok r.

Lemma commits_fail {A} e : commits (fail (A := A) e).
Proof. intros tx r tx' [= <- <-] H. exact H. Qed.

Lemma commits_bind {A B} (c : TxM HTTPError A) (k : A -> TxM HTTPError B) :
  keeps committed c -> (forall a, commits (k a)) -> commits (bind c k).
Proof.
  intros Hc Hk tx r tx' H Hnot.
  apply bind_run in H as [(a & tx1 & H1 & H) | (e & H & ->)].
  - apply (Hk _ _ _ _ H). rewrite (Hc _ _ _ H1). exact Hnot.
  - rewrite (Hc _ _ _ H). exact Hnot.
Qed.

Lemma commits_Commit {A} message (a : A) :
  commits (let* _ := exec Commit |> httpError StatusInternalServerError message in ret a).
Proof.
  intros tx r tx'. unfold bind, httpError, mapErr. rewrite exec_eq.
  unfold after, exec, failsNext. simpl.
  destruct (faults tx (length (issued tx))); intros [= <- <-] Hnot; simpl;
    rewrite Hnot; reflexivity.
Qed.

Lemma commits_reserveInTx userID req : commits (reserveInTx userID req).
Proof.
  unfold reserveInTx. simpl. destruct (badTimeRange _ _ _ _); [apply commits_fail |].
  repeat first
    [ apply commits_Commit
    | apply commits_bind; [solve [auto 20 with keeps] | intros ?] ].
Qed.

End Commit.

(** The capacity the handler reads again for a slot: the first row of
    the slot's interval. *)
Definition recount {UserModel : Type} (T : Tables UserModel) (slot : ReservationSlotModel.t)
  : option Z :=
  head (map ReservationSlotModel.Slot
          (List.filter (slot_at (ReservationSlotModel.StartAt slot) (ReservationSlotModel.EndAt slot))
             (reservation_slots T))).

Section Booking.
Context `{UH : UserHandler}.

Lemma checkSlots_ok req slots tx u tx' :
  checkSlots req slots tx = (Ok u, tx') ->
  view tx' = view tx
  /\ issued tx' = issued tx ++ map slotCountQuery slots
  /\ Forall (fun slot => exists count, recount (view tx) slot = Some count /\ 1 <= count) slots.
Proof.
  revert tx. induction slots as [| slot slots IH]; intros tx H; simpl in H.
  - inversion H; subst. rewrite app_nil_r. auto.
  - apply bind_run_ok in H as (count & tx1 & H1 & H).
    apply httpError_ok in H1. rewrite GetContext_eq in H1.
    destruct (failsNext tx); [discriminate |].
    unfold slot_counts_at in H1.
    destruct (map _ _) as [| c cs] eqn:Hrows in H1; [discriminate |].
    inversion H1; subst count tx1; clear H1.
    destruct (c <? 1) eqn:Hc; [discriminate |].
    apply IH in H as (Hview & Hissued & Hall).
    rewrite view_after in *. rewrite issued_after in Hissued.
    split; [exact Hview |]. split.
    + rewrite Hissued. simpl. rewrite <- app_assoc. reflexivity.
    + constructor; [| exact Hall].
      exists c. unfold recount. rewrite Hrows. split; [reflexivity |].
      apply Z.ltb_ge in Hc. exact Hc.
Qed.

(** A reservation that succeeds: the time range was good, every slot
    of the window was read again with a capacity of at least 1 after the
    locking read, and then the slots of the window were decremented. *)
Lemma reserveInTx_ok userID req tx livestream tx' :
  reserveInTx userID req tx = (Ok livestream, tx') ->
  let startAt := ReserveLivestreamRequest.StartAt req in
  let endAt := ReserveLivestreamRequest.EndAt req in
  let locked := slots_in_window startAt endAt (view tx) in
  badTimeRange termStartAt termEndAt (time.Unix startAt 0) (time.Unix endAt 0) = false
  /\ Forall (fun slot => exists count, recount (view tx) slot = Some count /\ 1 <= count) locked
  /\ slotsOf tx' = decrementWindow startAt endAt (slotsOf tx)
  /\ exists rest,
       issued tx' =
       issued tx ++ SelectSlotsForUpdate startAt endAt
                 :: map slotCountQuery locked ++ UpdateSlots startAt endAt :: rest.
Proof.
  unfold reserveInTx. simpl. intros H.
  destruct (badTimeRange _ _ _ _); [discriminate |]. split; [reflexivity |].
  apply bind_run_ok in H as (slots & tx1 & H1 & H).
  apply httpError_ok in H1. rewrite SelectContext_eq in H1.
  destruct (failsNext tx); [discriminate |]. inversion H1; subst slots tx1; clear H1.
  apply bind_run_ok in H as (u & tx2 & H2 & H).
  apply checkSlots_ok in H2 as (Hview2 & Hissued2 & Hall). rewrite view_after in *.
  split; [exact Hall |].
  apply bind_run_ok in H as (u' & tx3 & H3 & H).
  apply httpError_ok in H3. unfold ExecContext in H3.
  apply bind_run_ok in H3 as (u'' & tx3' & H3 & H3').
  rewrite exec_eq in H3. destruct (failsNext tx2); [discriminate |].
  inversion H3; subst tx3'; clear H3. inversion H3'; subst tx3; clear H3'.
  match type of H with
  | ?c _ = _ =>
      assert (Hslots : keeps slotsOf c) by auto 30 with keeps;
      assert (Hclean : clean c)
        by (unfold InsertLivestreamRow;
            auto 30 using clean_httpError, clean_insertTags, clean_fillLivestreamResponse
              with clean)
  end.
  apply Hslots in H as Hs. apply Hclean in H as (_ & rest & Hi & _).
  unfold slotsOf in *. simpl in Hs, Hi. rewrite Hview2 in Hs.
  split; [exact Hs |]. exists rest.
  rewrite Hi, Hissued2, issued_after. rewrite <- !app_assoc. reflexivity.
Qed.

(** When no two rows share an interval, the capacity read again for a
    slot is the slot's own. *)
Lemma recount_unique (T : DB) slot :
  NoDup (map interval (reservation_slots T)) ->
  In slot (reservation_slots T) ->
  recount T slot = Some (ReservationSlotModel.Slot slot).
Proof.
  unfold recount. generalize (reservation_slots T) as slots.
  induction slots as [| r slots IH]; intros Hnd Hin; [destruct Hin |].
  simpl in Hnd. inversion Hnd as [| ? ? Hnotin Hnd']; subst.
  simpl. unfold slot_at at 1.
  destruct Hin as [-> | Hin].
  - rewrite !Z.eqb_refl. reflexivity.
  - destruct ((ReservationSlotModel.StartAt r =? ReservationSlotModel.StartAt slot)
              && (ReservationSlotModel.EndAt r =? ReservationSlotModel.EndAt slot)) eqn:Heq.
    + exfalso. apply Hnotin. apply andb_true_iff in Heq as [H1 H2].
      apply Z.eqb_eq in H1, H2. apply list_elem_of_In, in_map_iff. exists slot. split; [| exact Hin].
      unfold interval. congruence.
    + apply IH; assumption.
Qed.

End Booking.

(** ** Runs that must fail *)

Section Failing.
Context `{UH : UserHandler}.

Definition fails {E A} (c : TxM E A) (tx : Tx UserModel) : Prop :=
  exists e tx', c tx = (Err e, tx').

Lemma fails_fail {E A} (e : E) tx : fails (fail (A := A) e) tx.
Proof. exists e, tx. reflexivity. Qed.

Lemma fails_bind {E A B} (c : TxM E A) (k : A -> TxM E B) tx :
  (forall a tx1, c tx = (Ok a, tx1) -> fails (k a) tx1) -> fails (bind c k) tx.
Proof.
  intros H. unfold fails, bind. destruct (c tx) as [[a | e] tx1].
  - exact (H a tx1 eq_refl).
  - eauto.
Qed.

Lemma keeps_run {X E A} (f : Tx UserModel -> X) (c : TxM E A) tx r tx' :
  keeps f c -> c tx = (r, tx') -> f tx' = f tx.
Proof. intros Hc H. exact (Hc _ _ _ H). Qed.

Lemma checkSlots_fails req slots tx :
  (exists slot, In slot slots
     /\ forall count, recount (view tx) slot = Some count -> count < 1) ->
  fails (checkSlots req slots) tx.
Proof.
  revert tx. induction slots as [| slot slots IH]; intros tx (bad & Hin & Hbad).
  - destruct Hin.
  - simpl. apply fails_bind. intros count tx1 H1.
    apply httpError_ok in H1. rewrite GetContext_eq in H1.
    destruct (failsNext tx); [discriminate |]. unfold slot_counts_at in H1.
    destruct (map _ _) as [| c cs] eqn:Hrows in H1; [discriminate |].
    inversion H1; subst count tx1; clear H1.
    destruct (c <? 1) eqn:Hc; [apply fails_fail |].
    apply IH. exists bad. rewrite view_after. split; [| exact Hbad].
    destruct Hin as [<- | Hin]; [| exact Hin].
    exfalso. apply Z.ltb_ge in Hc. specialize (Hbad c).
    unfold recount in Hbad. rewrite Hrows in Hbad. specialize (Hbad eq_refl). lia.
Qed.

(** A slot of the window that is read again with a capacity below 1
    makes the reservation fail. *)
Lemma reserveInTx_exhausted userID req tx :
  (exists slot,
     In slot (slots_in_window (ReserveLivestreamRequest.StartAt req)
                (ReserveLivestreamRequest.EndAt req) (view tx))
     /\ forall count, recount (view tx) slot = Some count -> count < 1) ->
  fails (reserveInTx userID req) tx.
Proof.
  intros Hbad. unfold reserveInTx. simpl.
  destruct (badTimeRange _ _ _ _); [apply fails_fail |].
  apply fails_bind. intros slots tx1 H1.
  apply httpError_ok in H1. rewrite SelectContext_eq in H1.
  destruct (failsNext tx); [discriminate |]. inversion H1; subst slots tx1; clear H1.
  apply fails_bind. intros u tx2 H2. exfalso.
  match type of H2 with
  | checkSlots _ ?slots ?tx1 = _ =>
      destruct (checkSlots_fails req slots tx1 Hbad) as (e & tx' & H)
  end.
  congruence.
Qed.

Lemma insertTags_ok livestreamID tagIDs tx u tx' :
  insertTags livestreamID tagIDs tx = (Ok u, tx') ->
  exists rows,
    livestream_tags (view tx') = livestream_tags (view tx) ++ rows
    /\ map LivestreamTagModel.TagID rows = tagIDs
    /\ Forall (fun row => LivestreamTagModel.LivestreamID row = livestreamID) rows.
Proof.
  revert tx. induction tagIDs as [| tagID tagIDs IH]; intros tx H; simpl in H.
  - inversion H; subst. exists []. rewrite app_nil_r. auto.
  - apply bind_run_ok in H as (u1 & tx1 & H1 & H).
    apply httpError_ok in H1. unfold InsertLivestreamTagRow in H1.
    apply bind_run_ok in H1 as (u2 & tx2 & H2 & H1).
    rewrite exec_eq in H2. destruct (failsNext tx); [discriminate |].
    inversion H2; subst u2 tx2; clear H2.
    cbv [bind nextLivestreamTagID modify] in H1. simpl in H1.
    inversion H1; subst u1 tx1; clear H1.
    apply IH in H as (rows & Hrows & Hids & Hall). simpl in Hrows.
    eexists (_ :: rows). split; [| split].
    + rewrite Hrows, <- app_assoc. reflexivity.
    + simpl. rewrite Hids. reflexivity.
    + constructor; [reflexivity | exact Hall].
Qed.

Lemma fetchTags_fails lts tx :
  (exists lt, In lt lts /\ tags_where_id (LivestreamTagModel.TagID lt) (view tx) = []) ->
  fails (fetchTags lts) tx.
Proof.
  revert tx. induction lts as [| lt lts IH]; intros tx (missing & Hin & Hnone).
  - destruct Hin.
  - simpl. apply fails_bind. intros tagModel tx1 H1.
    rewrite GetContext_eq in H1. destruct (failsNext tx); [discriminate |].
    destruct (tags_where_id (LivestreamTagModel.TagID lt) (view tx)) eqn:Hrows; [discriminate |].
    inversion H1; subst; clear H1.
    apply fails_bind. intros tags tx2 H2. exfalso.
    destruct Hin as [<- | Hin]; [congruence |].
    destruct (IH (after (SelectTagByID (LivestreamTagModel.TagID lt)) tx)) as (e & tx' & H).
    { exists missing. rewrite view_after. auto. }
    congruence.
Qed.

Lemma fillLivestreamResponse_fails livestreamModel tx :
  (exists lt, In lt (livestream_tags (view tx))
     /\ LivestreamTagModel.LivestreamID lt = LivestreamModel.ID livestreamModel
     /\ tags_where_id (LivestreamTagModel.TagID lt) (view tx) = []) ->
  fails (fillLivestreamResponse livestreamModel) tx.
Proof.
  intros (lt & Hin & Hid & Hnone). unfold fillLivestreamResponse.
  apply fails_bind. intros ownerModel tx1 H1.
  apply keeps_GetContext_view in H1 as Hv1.
  apply fails_bind. intros owner tx2 H2.
  apply (keeps_callFillUserResponse view) in H2 as Hv2.
  apply fails_bind. intros lts tx3 H3.
  rewrite SelectContext_eq in H3. destruct (failsNext tx2); [discriminate |].
  inversion H3; subst lts tx3; clear H3.
  apply fails_bind. intros tags tx4 H4. exfalso.
  destruct (fetchTags_fails
              (livestream_tags_where_livestream_id (LivestreamModel.ID livestreamModel) (view tx2))
              (after (SelectLivestreamTagsByLivestreamID (LivestreamModel.ID livestreamModel)) tx2))
    as (e & tx' & H).
  { exists lt. rewrite view_after, Hv2, Hv1. split; [| exact Hnone].
    unfold livestream_tags_where_livestream_id. apply filter_In. split; [exact Hin |].
    apply Z.eqb_eq. exact Hid. }
  congruence.
Qed.

(** A requested tag without a row in [tags] makes the reservation fail. *)
Lemma reserveInTx_missing_tag userID req tx :
  (exists tagID, In tagID (ReserveLivestreamRequest.Tags req)
     /\ tags_where_id tagID (view tx) = []) ->
  fails (reserveInTx userID req) tx.
Proof.
  intros (tagID & Hin & Hnone). unfold reserveInTx. simpl.
  destruct (badTimeRange _ _ _ _); [apply fails_fail |].
  apply fails_bind. intros slots tx1 H1.
  assert (Ht1 : tagsOf tx1 = tagsOf tx)
    by (eapply keeps_run; [| exact H1]; auto 20 with keeps).
  apply fails_bind. intros u2 tx2 H2.
  assert (Ht2 : tagsOf tx2 = tagsOf tx1)
    by (eapply keeps_run; [| exact H2]; auto 20 with keeps).
  apply fails_bind. intros u3 tx3 H3.
  assert (Ht3 : tagsOf tx3 = tagsOf tx2)
    by (eapply keeps_run; [| exact H3]; unfold ExecContext; auto 20 with keeps).
  apply fails_bind. intros livestreamID tx4 H4.
  assert (Ht4 : tagsOf tx4 = tagsOf tx3)
    by (eapply keeps_run; [| exact H4]; auto 20 with keeps).
  apply fails_bind. intros u5 tx5 H5.
  assert (Ht5 : tagsOf tx5 = tagsOf tx4)
    by (eapply keeps_run; [| exact H5]; auto 20 with keeps).
  apply insertTags_ok in H5 as (rows & Hrows & Hids & Hall).
  apply fails_bind. intros livestream tx6 H6. exfalso.
  apply httpError_ok in H6.
  assert (Hrow : exists row, In row rows /\ LivestreamTagModel.TagID row = tagID).
  { rewrite <- Hids in Hin. apply in_map_iff in Hin as (row & Hrow & Hin). eauto. }
  destruct Hrow as (row & Hrow & Htag).
  destruct (fillLivestreamResponse_fails
              (rowWithID livestreamID
                 (LivestreamModel.mk 0 userID (ReserveLivestreamRequest.Title req)
                    (ReserveLivestreamRequest.Description req)
                    (ReserveLivestreamRequest.PlaylistUrl req)
                    (ReserveLivestreamRequest.ThumbnailUrl req)
                    (ReserveLivestreamRequest.StartAt req)
                    (ReserveLivestreamRequest.EndAt req))) tx5) as (e & tx' & H).
  { exists row. split; [| split].
    - rewrite Hrows. apply in_or_app. right. exact Hrow.
    - simpl. rewrite Forall_forall in Hall. apply Hall. apply list_elem_of_In. exact Hrow.
    - rewrite Htag. unfold tags_where_id in *. unfold tagsOf in *. congruence. }
  congruence.
Qed.

End Failing.

(** ** The handler as a whole *)

Section Handler.
Context `{UH : UserHandler}.

(** The transaction right after [BeginTxx]. *)
Definition begun (faults : nat -> bool) (db : Database UserModel) : Tx UserModel :=
  after Begin (mkTx (tables db) (next_livestream_id db) (next_livestream_tag_id db) false [] faults).

Lemma reserveRun_begin userID req faults db :
  (faults 0%nat = true
   /\ exists e, reserveRun userID req faults db = (Err e, begun faults db) /\ serverError e)
  \/ (faults 0%nat = false
      /\ reserveRun userID req faults db = reserveInTx userID req (begun faults db)).
Proof.
  unfold reserveRun, bind, httpError, mapErr. rewrite exec_eq. unfold failsNext. simpl.
  destruct (faults 0%nat).
  - left. split; [reflexivity |]. eexists. split; reflexivity.
  - right. split; reflexivity.
Qed.

Lemma reserveRun_committed userID req faults db :
  committed (snd (reserveRun userID req faults db))
  = is_ok (fst (reserveRun userID req faults db)).
Proof.
  destruct (reserveRun_begin userID req faults db) as [(_ & e & -> & _) | (_ & ->)].
  - reflexivity.
  - destruct (reserveInTx userID req (begun faults db)) as [r tx'] eqn:H.
    exact (commits_reserveInTx userID req _ _ _ H eq_refl).
Qed.

Lemma handler_response userID req faults db :
  fst (reserveLivestreamHandler userID req faults db) = fst (reserveRun userID req faults db).
Proof. unfold reserveLivestreamHandler. destruct (reserveRun _ _ _ _). reflexivity. Qed.

Lemma handler_tables userID req faults db :
  tables (snd (reserveLivestreamHandler userID req faults db))
  = if is_ok (fst (reserveRun userID req faults db))
    then view (snd (reserveRun userID req faults db))
    else tables db.
Proof.
  rewrite <- reserveRun_committed. unfold reserveLivestreamHandler.
  destruct (reserveRun _ _ _ _). reflexivity.
Qed.

(** Whatever goes wrong, the rows stay as they were. *)
Lemma handler_error_rolls_back userID req faults db :
  is_ok (fst (reserveLivestreamHandler userID req faults db)) = false ->
  tables (snd (reserveLivestreamHandler userID req faults db)) = tables db.
Proof. rewrite handler_tables, handler_response. intros ->. reflexivity. Qed.

Lemma handler_errors userID req faults db e :
  fst (reserveLivestreamHandler userID req faults db) = Err e ->
  serverError e \/ e = badTimeRangeError \/ slotUnavailable e.
Proof.
  rewrite handler_response.
  destruct (reserveRun_begin userID req faults db) as [(_ & e' & -> & He) | (_ & ->)].
  - intros [= <-]. left. exact He.
  - destruct (reserveInTx userID req (begun faults db)) as [r tx'] eqn:H. simpl.
    intros ->. apply reserveInTx_errors in H as [(_ & ->) | (_ & [He | He])]; auto.
Qed.

End Handler.

(** * Theorems about [reserveLivestreamHandler] *)

Section ReserveClaims.
Context `{UH : UserHandler}.


End ReserveClaims.


Section CapacityClaims.
Context `{UH : UserHandler}.

Lemma decrementWindow_nonnegative startAt endAt slots :
  Forall (fun slot => 0 <= ReservationSlotModel.Slot slot) slots ->
  Forall (fun slot => 1 <= ReservationSlotModel.Slot slot)
    (List.filter (slot_in_window startAt endAt) slots) ->
  Forall (fun slot => 0 <= ReservationSlotModel.Slot slot) (decrementWindow startAt endAt slots).
Proof.
  unfold decrementWindow. induction slots as [| r slots IH]; intros Hall Hwin; simpl.
  - constructor.
  - inversion Hall; subst. simpl in Hwin.
    destruct (slot_in_window startAt endAt r).
    + inversion Hwin; subst. constructor; [simpl; lia | auto].
    + constructor; auto.
Qed.

(** With one row per interval, the capacities read again are the
    capacities of the locked rows. *)
Lemma recounts_unique (T : DB) startAt endAt :
  NoDup (map interval (reservation_slots T)) ->
  Forall (fun slot => exists count, recount T slot = Some count /\ 1 <= count)
    (slots_in_window startAt endAt T) ->
  Forall (fun slot => 1 <= ReservationSlotModel.Slot slot) (slots_in_window startAt endAt T).
Proof.
  intros Hnd Hall. rewrite Forall_forall in *. intros slot Hin.
  destruct (Hall slot Hin) as (count & Hcount & Hge).
  rewrite recount_unique in Hcount; [congruence | exact Hnd |].
  apply list_elem_of_In in Hin. apply filter_In in Hin. tauto.
Qed.

(** C1 (as amended). Capacities change only by the decrement of the
    slots of the window, and only after, in the same transaction, the
    locking read was issued and every slot of the window was read again
    with a capacity of at least 1. When no two slot rows share an
    interval and every capacity is at least 0, every capacity is at
    least 0 after the handler, whether it succeeds or fails. *)
Theorem reserve_keeps_capacity_nonnegative
    (userID : Z) (req : ReserveLivestreamRequest.t) (faults : nat -> bool)
    (db : Database UserModel) :
  let startAt := ReserveLivestreamRequest.StartAt req in
  let endAt := ReserveLivestreamRequest.EndAt req in
  let slots := reservation_slots (tables db) in
  let slots' := reservation_slots (tables (snd (reserveLivestreamHandler userID req faults db))) in
  let locked := List.filter (slot_in_window startAt endAt) slots in
  (slots' = slots
   \/ (slots' = decrementWindow startAt endAt slots
       /\ Forall (fun slot => exists count, recount (tables db) slot = Some count /\ 1 <= count)
            locked
       /\ exists rest,
            issued (snd (reserveRun userID req faults db))
            = Begin :: SelectSlotsForUpdate startAt endAt
                :: map slotCountQuery locked ++ UpdateSlots startAt endAt :: rest))
  /\ (NoDup (map interval slots) ->
      Forall (fun slot => 0 <= ReservationSlotModel.Slot slot) slots ->
      Forall (fun slot => 0 <= ReservationSlotModel.Slot slot) slots').
Proof.
  intros startAt endAt slots slots' locked.
  assert (Hcases :
    slots' = slots
    \/ (slots' = decrementWindow startAt endAt slots
        /\ Forall (fun slot => exists count, recount (tables db) slot = Some count /\ 1 <= count)
             locked
        /\ exists rest,
             issued (snd (reserveRun userID req faults db))
             = Begin :: SelectSlotsForUpdate startAt endAt
                 :: map slotCountQuery locked ++ UpdateSlots startAt endAt :: rest)).
  { subst slots'. rewrite handler_tables.
    destruct (reserveRun_begin userID req faults db) as [(_ & e & -> & _) | (_ & ->)];
      [left; reflexivity |].
    destruct (reserveInTx userID req (begun faults db)) as [[livestream | e] tx'] eqn:H; simpl;
      [| left; reflexivity].
    right. apply reserveInTx_ok in H as (_ & Hcounts & Hslots & rest & Hissued).
    split; [exact Hslots |]. split; [exact Hcounts |].
    exists rest. rewrite Hissued. reflexivity. }
  split; [exact Hcases |]. intros Hnd Hall.
  destruct Hcases as [-> | (-> & Hlocked & _)]; [exact Hall |].
  apply decrementWindow_nonnegative; [exact Hall |].
  apply (recounts_unique (tables db)); assumption.
Qed.

(** C2 (as amended). The handler is all or nothing: when it answers
    with an error the rows of the database are as before (no capacity
    decremented, no livestream and no join row inserted). It answers
    with an error when the database fails any statement of the
    transaction, a tag insert in particular, and, slot intervals being
    unique, when a slot of the window has a capacity below 1. Two slots
    with different intervals and capacities 1 and 0 in the window make
    the request fail and keep their capacities. *)
Theorem reserve_all_or_nothing
    (userID : Z) (req : ReserveLivestreamRequest.t) (faults : nat -> bool)
    (db : Database UserModel) :
  let startAt := ReserveLivestreamRequest.StartAt req in
  let endAt := ReserveLivestreamRequest.EndAt req in
  let slots := reservation_slots (tables db) in
  let response := fst (reserveLivestreamHandler userID req faults db) in
  let db' := snd (reserveLivestreamHandler userID req faults db) in
  (is_ok response = false -> tables db' = tables db)
  /\ (forall n, (n < length (issued (snd (reserveRun userID req faults db))))%nat ->
        faults n = true -> is_ok response = false)
  /\ (NoDup (map interval slots) ->
      (exists slot, In slot slots
         /\ slot_in_window startAt endAt slot = true
         /\ ReservationSlotModel.Slot slot < 1) ->
      is_ok response = false)
  /\ (forall slot1 slot2,
        slots = [slot1; slot2] ->
        interval slot1 <> interval slot2 ->
        slot_in_window startAt endAt slot1 = true ->
        slot_in_window startAt endAt slot2 = true ->
        ReservationSlotModel.Slot slot1 = 1 ->
        ReservationSlotModel.Slot slot2 = 0 ->
        is_ok response = false /\ reservation_slots (tables db') = [slot1; slot2]).
Proof.
  intros startAt endAt slots response db'.
  assert (Hexhausted :
    NoDup (map interval slots) ->
    (exists slot, In slot slots
       /\ slot_in_window startAt endAt slot = true
       /\ ReservationSlotModel.Slot slot < 1) ->
    is_ok response = false).
  { intros Hnd (slot & Hin & Hwin & Hlow). subst response. rewrite handler_response.
    destruct (reserveRun_begin userID req faults db) as [(_ & e & -> & _) | (_ & ->)];
      [reflexivity |].
    destruct (reserveInTx_exhausted userID req (begun faults db)) as (e & tx' & ->);
      [| reflexivity].
    exists slot. split.
    - apply filter_In. split; assumption.
    - intros count. change (view (begun faults db)) with (tables db).
      rewrite recount_unique by assumption. intros [= <-]. exact Hlow. }
  split; [apply handler_error_rolls_back |]. split; [| split; [exact Hexhausted |]].
  - intros n Hn Hfault. subst response. rewrite handler_response.
    destruct (reserveRun_begin userID req faults db) as [(_ & e & -> & _) | (Hbegin & Hrun)];
      [reflexivity |].
    rewrite Hrun in *.
    destruct (reserveInTx userID req (begun faults db)) as [[livestream | e] tx'] eqn:H;
      [| reflexivity].
    exfalso. apply clean_reserveInTx in H as (_ & more & Hissued & Hclean). simpl in Hn.
    destruct n as [| n]; [congruence |].
    specialize (Hclean (S n)). simpl in Hclean. rewrite Hclean in Hfault; [discriminate |].
    split; [lia | exact Hn].
  - intros slot1 slot2 Hslots Hdiff Hwin1 Hwin2 Hcap1 Hcap2.
    assert (Hfail : is_ok response = false).
    { apply Hexhausted.
      - rewrite Hslots. simpl. constructor; [| constructor; [| constructor]].
        + rewrite list_elem_of_In. intros [Heq | []]. congruence.
        + rewrite list_elem_of_In. intros [].
      - exists slot2. rewrite Hslots. simpl. split; [auto |].
        split; [exact Hwin2 | lia]. }
    split; [exact Hfail |]. subst db'.
    rewrite handler_error_rolls_back by exact Hfail. exact Hslots.
Qed.

(** C9 (as amended). When a requested tag id has no row in [tags], the
    handler answers with an error and the rows of the database are as
    before. The error is a failure with status 500, as for a failure of
    the database, unless the request is already rejected by the time
    range check or the capacity check; no other rejection exists. *)
Theorem reserve_unknown_tag_fails
    (userID : Z) (req : ReserveLivestreamRequest.t) (faults : nat -> bool)
    (db : Database UserModel) (tagID : Z) :
  In tagID (ReserveLivestreamRequest.Tags req) ->
  (forall tag, In tag (tags (tables db)) -> TagModel.ID tag <> tagID) ->
  exists e,
    fst (reserveLivestreamHandler userID req faults db) = Err e
    /\ (serverError e \/ e = badTimeRangeError \/ slotUnavailable e)
    /\ tables (snd (reserveLivestreamHandler userID req faults db)) = tables db.
Proof.
  intros Hin Hnone.
  assert (Herr : exists e, fst (reserveLivestreamHandler userID req faults db) = Err e).
  { rewrite handler_response.
    destruct (reserveRun_begin userID req faults db) as [(_ & e & -> & _) | (_ & ->)];
      [eauto |].
    destruct (reserveInTx_missing_tag userID req (begun faults db)) as (e & tx' & ->);
      [| simpl; eauto].
    exists tagID. split; [exact Hin |].
    change (view (begun faults db)) with (tables db). unfold tags_where_id.
    induction (tags (tables db)) as [| tag rest IH]; [reflexivity |]. simpl.
    destruct (Z.eqb_spec (TagModel.ID tag) tagID) as [Heq | _].
    - exfalso. apply (Hnone tag); [left; reflexivity | exact Heq].
    - apply IH. intros tag' Hin'. apply Hnone. right. exact Hin'. }
  destruct Herr as (e & He). exists e. split; [exact He |]. split.
  - exact (handler_errors userID req faults db e He).
  - apply handler_error_rolls_back. rewrite He. reflexivity.
Qed.

End CapacityClaims.

(** * The reservation on the sample database *)

(** A request for the first second of the term passes the time range
    check (and is booked); a request starting at the end of the term is
    rejected. *)
Example reserve_first_second_of_term :
  is_ok (fst (reserveLivestreamHandler (UH := Sample.handler) 1
                (Sample.request [] Sample.t0 (Sample.t0 + 1)) Sample.noFaults
                (Sample.database (Sample.twoSlots 1 1)))) = true.
Proof. vm_compute. reflexivity. Qed.

Example reserve_at_end_of_term :
  fst (reserveLivestreamHandler (UH := Sample.handler) 1
         (Sample.request [] Sample.t1 (Sample.t1 + 1)) Sample.noFaults
         (Sample.database (Sample.twoSlots 1 1)))
  = Err badTimeRangeError.
Proof. vm_compute. reflexivity. Qed.

(** C1, counterexample. Two rows for the same hour with capacities 1
    and 0: both are read again as 1, the request is booked, and the
    second row ends at -1. *)
Lemma reserve_overbooks_duplicated_interval :
  let db := Sample.database (Sample.sameHourTwice 1 0) in
  let db' :=
    snd (reserveLivestreamHandler (UH := Sample.handler) 1
           (Sample.request [] Sample.t0 (Sample.t0 + Sample.hour)) Sample.noFaults db) in
  Forall (fun slot => 0 <= ReservationSlotModel.Slot slot) (reservation_slots (tables db))
  /\ map ReservationSlotModel.Slot (reservation_slots (tables db')) = [0; -1].
Proof.
  split.
  - repeat constructor; simpl; lia.
  - vm_compute. reflexivity.
Qed.

Lemma twoSlots_intervals_unique c1 c2 : NoDup (map interval (Sample.twoSlots c1 c2)).
Proof.
  unfold Sample.twoSlots, interval. simpl. constructor; [| constructor; [| constructor]].
  - rewrite list_elem_of_In. intros [H | []]. inversion H.
  - rewrite list_elem_of_In. intros [].
Qed.

(** C1, witness: two slots with capacity 1 each, both booked. *)
Lemma reserve_keeps_capacity_nonnegative_witness :
  let db := Sample.database (Sample.twoSlots 1 1) in
  let db' :=
    snd (reserveLivestreamHandler (UH := Sample.handler) 1
           (Sample.request [1] Sample.t0 (Sample.t0 + 2 * Sample.hour)) Sample.noFaults db) in
  NoDup (map interval (reservation_slots (tables db)))
  /\ Forall (fun slot => 0 <= ReservationSlotModel.Slot slot) (reservation_slots (tables db))
  /\ Forall (fun slot => 0 <= ReservationSlotModel.Slot slot) (reservation_slots (tables db')).
Proof.
  assert (Hnd : NoDup (map interval (Sample.twoSlots 1 1))) by apply twoSlots_intervals_unique.
  assert (Hall : Forall (fun slot => 0 <= ReservationSlotModel.Slot slot) (Sample.twoSlots 1 1))
    by (repeat constructor; simpl; lia).
  split; [exact Hnd |]. split; [exact Hall |].
  exact (proj2 (reserve_keeps_capacity_nonnegative (UH := Sample.handler) 1
                  (Sample.request [1] Sample.t0 (Sample.t0 + 2 * Sample.hour)) Sample.noFaults
                  (Sample.database (Sample.twoSlots 1 1))) Hnd Hall).
Defined.

(** C2, counterexample. Of two rows for the same hour the second has
    capacity 0, yet the request is booked and both rows are decremented. *)
Lemma reserve_succeeds_over_exhausted_duplicate :
  let db := Sample.database (Sample.sameHourTwice 1 0) in
  let req := Sample.request [] Sample.t0 (Sample.t0 + Sample.hour) in
  let exhausted := ReservationSlotModel.mk 2 0 Sample.t0 (Sample.t0 + Sample.hour) in
  let answer := reserveLivestreamHandler (UH := Sample.handler) 1 req Sample.noFaults db in
  In exhausted (reservation_slots (tables db))
  /\ slot_in_window (ReserveLivestreamRequest.StartAt req) (ReserveLivestreamRequest.EndAt req)
       exhausted = true
  /\ ReservationSlotModel.Slot exhausted < 1
  /\ is_ok (fst answer) = true
  /\ map ReservationSlotModel.Slot (reservation_slots (tables (snd answer))) = [0; -1].
Proof.
  split; [right; left; reflexivity |]. split; [reflexivity |]. split; [simpl; lia |].
  split; vm_compute; reflexivity.
Qed.

(** C2, witness: two consecutive slots with capacities 1 and 0; the
    request for both hours fails and the first slot keeps its capacity. *)
Lemma reserve_all_or_nothing_witness :
  let db := Sample.database (Sample.twoSlots 1 0) in
  let answer :=
    reserveLivestreamHandler (UH := Sample.handler) 1
      (Sample.request [1] Sample.t0 (Sample.t0 + 2 * Sample.hour)) Sample.noFaults db in
  NoDup (map interval (reservation_slots (tables db)))
  /\ is_ok (fst answer) = false
  /\ reservation_slots (tables (snd answer)) = Sample.twoSlots 1 0.
Proof.
  split; [apply twoSlots_intervals_unique |].
  refine (proj2 (proj2 (proj2
    (reserve_all_or_nothing (UH := Sample.handler) 1
       (Sample.request [1] Sample.t0 (Sample.t0 + 2 * Sample.hour)) Sample.noFaults
       (Sample.database (Sample.twoSlots 1 0))))) _ _ eq_refl _ _ _ eq_refl eq_refl);
    [intros H; inversion H | vm_compute; reflexivity | vm_compute; reflexivity].
Defined.

(** C4. A window that starts one hour before the term and ends one hour
    into it is booked: the reservation begins before the term. *)
Theorem reserve_accepts_window_before_term :
  exists livestream,
    fst (reserveLivestreamHandler (UH := Sample.handler) 1
           (Sample.request [] (Sample.t0 - Sample.hour) (Sample.t0 + Sample.hour))
           Sample.noFaults (Sample.database (Sample.twoSlots 1 1)))
    = Ok livestream
    /\ Livestream.StartAt livestream = Sample.t0 - Sample.hour
    /\ Livestream.StartAt livestream < time.ToUnix termStartAt.
Proof.
  eexists. split; [vm_compute; reflexivity |]. split; vm_compute; reflexivity.
Qed.

(** C9, counterexample. Tag 999 does not exist; the answer is status
    500, the failure of composing the response, not a rejection. *)
Lemma reserve_unknown_tag_is_server_error :
  let db := Sample.database (Sample.twoSlots 1 1) in
  let req := Sample.request [999] Sample.t0 (Sample.t0 + Sample.hour) in
  Forall (fun tag => TagModel.ID tag <> 999) (tags (tables db))
  /\ fst (reserveLivestreamHandler (UH := Sample.handler) 1 req Sample.noFaults db)
     = Err (NewHTTPError StatusInternalServerError
              (TextErr "failed to fill livestream: " ErrNoRows)).
Proof.
  split.
  - repeat constructor; simpl; lia.
  - vm_compute. reflexivity.
Qed.

(** C9, witness: the same request. *)
Lemma reserve_unknown_tag_fails_witness :
  let db := Sample.database (Sample.twoSlots 1 1) in
  let req := Sample.request [999] Sample.t0 (Sample.t0 + Sample.hour) in
  In 999 (ReserveLivestreamRequest.Tags req)
  /\ exists e,
       fst (reserveLivestreamHandler (UH := Sample.handler) 1 req Sample.noFaults db) = Err e
       /\ (serverError e \/ e = badTimeRangeError \/ slotUnavailable e)
       /\ tables (snd (reserveLivestreamHandler (UH := Sample.handler) 1 req Sample.noFaults db))
          = tables db.
Proof.
  split; [left; reflexivity |].
  apply (reserve_unknown_tag_fails (UH := Sample.handler) 1
           (Sample.request [999] Sample.t0 (Sample.t0 + Sample.hour)) Sample.noFaults
           (Sample.database (Sample.twoSlots 1 1)) 999).
  - left. reflexivity.
  - intros tag [<- | [<- | []]]; simpl; lia.
Defined.

(** * The bulk composers *)

Section Bulk.
Context `{UH : UserHandler}.

(** The join rows of a batch of livestreams. *)
Definition joinsOf (livestreamModels : list LivestreamModel.t) (T : DB)
  : list LivestreamTagModel.t :=
  livestream_tags_where_livestream_id_in (map LivestreamModel.ID livestreamModels) T.

(** The statements [fillLivestreamResponseBulk] issues when nothing fails. *)
Definition livestreamBulkQueries (livestreamModels : list LivestreamModel.t) (T : DB)
  : list Query :=
  [SelectUsersIn (map LivestreamModel.UserID livestreamModels);
   SelectLivestreamTagsIn (map LivestreamModel.ID livestreamModels);
   SelectTagsIn (map LivestreamTagModel.TagID (joinsOf livestreamModels T))].

(** [fillLivestreamResponseBulk] on a batch that is not empty, step by
    step. *)
Lemma fillLivestreamResponseBulk_eq livestreamModel rest tx :
  let livestreamModels := livestreamModel :: rest in
  let userIDs := map LivestreamModel.UserID livestreamModels in
  let livestreamIDs := map LivestreamModel.ID livestreamModels in
  let joins := joinsOf livestreamModels (view tx) in
  let tagIDs := map LivestreamTagModel.TagID joins in
  let tx1 := after (SelectUsersIn userIDs) tx in
  let tx2 := after (SelectLivestreamTagsIn livestreamIDs) tx1 in
  let tx3 := after (SelectTagsIn tagIDs) tx2 in
  fillLivestreamResponseBulk livestreamModels tx
  = if failsNext tx then (Err (Wrap "failed to fetch owners: %w" ErrStorage), tx1)
    else
      match fillUserResponseBulk (view tx) (users_where_id_in userIDs (view tx)) with
      | Err e => (Err (Wrap "failed to process owner responses: %w" e), tx1)
      | Ok ownerMap =>
          if failsNext tx1 then (Err (Wrap "failed to fetch livestream tags: %w" ErrStorage), tx2)
          else
            match tagIDs with
            | [] => (Err (Wrap "failed to build tag query: %w" ErrEmptySlice), tx2)
            | _ :: _ =>
                if failsNext tx2 then (Err (Wrap "failed to fetch tags: %w" ErrStorage), tx3)
                else
                  (buildLivestreams ownerMap (groupByLivestreamID joins)
                     (tagMapOf (tags_where_id_in tagIDs (view tx))) livestreamModels ∅,
                   tx3)
            end
      end.
Proof.
  intros. subst livestreamModels userIDs livestreamIDs tx3 tx2 tx1 tagIDs joins.
  unfold fillLivestreamResponseBulk, joinsOf, bind, mapErr, lift, SelectContext,
    callFillUserResponseBulk, after, failsNext, exec, bind.
  simpl.
  destruct (faults tx (length (issued tx))); [reflexivity |]. simpl.
  destruct (fillUserResponseBulk (view tx) _) as [ownerMap | e]; [| reflexivity]. simpl.
  destruct (faults tx (length (issued tx ++ _))); [reflexivity |]. simpl.
  destruct (map LivestreamTagModel.TagID _) as [| tagID tagIDs]; [reflexivity |]. simpl.
  destruct (faults tx (length ((issued tx ++ _) ++ _))); reflexivity.
Qed.

End Bulk.

Section BulkQueries.
Context `{UH : UserHandler}.

(** The statements of a run of [fillLivestreamResponseBulk]: the first
    [k] of the three, all three when it succeeds. *)
Lemma fillLivestreamResponseBulk_issued livestreamModels tx :
  let run := fillLivestreamResponseBulk livestreamModels tx in
  view (snd run) = view tx
  /\ faults (snd run) = faults tx
  /\ exists k,
       (k <= 3)%nat
       /\ issued (snd run) = issued tx ++ firstn k (livestreamBulkQueries livestreamModels (view tx))
       /\ (livestreamModels <> [] -> is_ok (fst run) = true -> k = 3%nat).
Proof.
  destruct livestreamModels as [| livestreamModel rest].
  - simpl. split; [reflexivity |]. split; [reflexivity |].
    exists 0%nat. rewrite app_nil_r. split; [lia |]. split; [reflexivity | congruence].
  - cbv zeta. rewrite fillLivestreamResponseBulk_eq. cbv zeta.
    unfold livestreamBulkQueries.
    set (q1 := SelectUsersIn _). set (q2 := SelectLivestreamTagsIn _).
    set (joins := joinsOf _ _).
    destruct (failsNext tx).
    { simpl. split; [reflexivity |]. split; [reflexivity |].
      exists 1%nat. split; [lia |]. split; [reflexivity | discriminate]. }
    destruct (fillUserResponseBulk _ _) as [ownerMap | e].
    2: { simpl. split; [reflexivity |]. split; [reflexivity |].
         exists 1%nat. split; [lia |]. split; [reflexivity | discriminate]. }
    destruct (failsNext (after q1 tx)).
    { simpl. split; [reflexivity |]. split; [reflexivity |].
      exists 2%nat. split; [lia |]. split; [| discriminate].
      rewrite <- app_assoc. reflexivity. }
    destruct (map LivestreamTagModel.TagID joins) as [| tagID tagIDs].
    { simpl. split; [reflexivity |]. split; [reflexivity |].
      exists 2%nat. split; [lia |]. split; [| discriminate].
      rewrite <- app_assoc. reflexivity. }
    assert (Hthree : forall r : result error (gmap Z (Livestream.t User)),
      let run := (r, after (SelectTagsIn (tagID :: tagIDs)) (after q2 (after q1 tx))) in
      view (snd run) = view tx /\ faults (snd run) = faults tx
      /\ exists k, (k <= 3)%nat
           /\ issued (snd run) = issued tx ++ firstn k [q1; q2; SelectTagsIn (tagID :: tagIDs)]
           /\ (livestreamModel :: rest <> [] -> is_ok (fst run) = true -> k = 3%nat)).
    { intros r. simpl. split; [reflexivity |]. split; [reflexivity |].
      exists 3%nat. split; [lia |]. split; [| reflexivity].
      rewrite <- !app_assoc. reflexivity. }
    destruct (failsNext _); apply Hthree.
Qed.

(** The statements [fillReactionResponseBulk] issues when nothing fails:
    its own two, and the three of the livestreams it composes. *)
Definition reactionBulkQueries (reactionModels : list ReactionModel.t) (T : DB) : list Query :=
  let livestreamModels :=
    livestreams_where_id_in (map ReactionModel.LivestreamID reactionModels) T in
  [SelectUsersIn (map ReactionModel.UserID reactionModels);
   SelectLivestreamsIn (map ReactionModel.LivestreamID reactionModels)]
  ++ livestreamBulkQueries livestreamModels T.

Lemma reactionLookups_eq reactionModel rest tx :
  let reactionModels := reactionModel :: rest in
  let userIDs := map ReactionModel.UserID reactionModels in
  let livestreamIDs := map ReactionModel.LivestreamID reactionModels in
  let tx1 := after (SelectUsersIn userIDs) tx in
  let tx2 := after (SelectLivestreamsIn livestreamIDs) tx1 in
  reactionLookups reactionModels tx
  = if failsNext tx then (Err (Wrap "failed to fetch users: %w" ErrStorage), tx1)
    else
      match fillUserResponseBulk (view tx) (users_where_id_in userIDs (view tx)) with
      | Err e => (Err (Wrap "failed to process user responses: %w" e), tx1)
      | Ok userMap =>
          if failsNext tx1 then (Err (Wrap "failed to fetch livestreams: %w" ErrStorage), tx2)
          else
            match fillLivestreamResponseBulk (livestreams_where_id_in livestreamIDs (view tx)) tx2
            with
            | (Ok livestreamMap, tx') => (Ok (userMap, livestreamMap), tx')
            | (Err e, tx') => (Err (Wrap "failed to process livestream responses: %w" e), tx')
            end
      end.
Proof.
  intros. subst reactionModels userIDs livestreamIDs tx2 tx1.
  unfold reactionLookups, bind, mapErr, lift, SelectContext, callFillUserResponseBulk, after,
    failsNext, exec, bind.
  simpl.
  destruct (faults tx (length (issued tx))); [reflexivity |]. simpl.
  destruct (fillUserResponseBulk (view tx) _) as [userMap | e]; [| reflexivity]. simpl.
  destruct (faults tx (length (issued tx ++ _))); [reflexivity |]. simpl.
  destruct (fillLivestreamResponseBulk _ _) as [[livestreamMap | e] tx']; reflexivity.
Qed.

End BulkQueries.

Section Reactions.
Context `{UH : UserHandler}.

Lemma fillReactionResponseBulk_eq reactionModel rest tx :
  let reactionModels := reactionModel :: rest in
  fillReactionResponseBulk reactionModels tx
  = match reactionLookups reactionModels tx with
    | (Ok maps, tx') =>
        (match buildReactions (fst maps) (snd maps) reactionModels with
         | Ok reactions => Ok (make_slice reactions)
         | Err e => Err e
         end, tx')
    | (Err e, tx') => (Err e, tx')
    end.
Proof.
  intros. unfold fillReactionResponseBulk, reactionModels, bind, lift, ret.
  destruct (reactionLookups _ _) as [[maps | e] tx']; [| reflexivity].
  destruct (buildReactions _ _ _); reflexivity.
Qed.

(** Every entry of the map the bulk composer builds sits under its own id. *)
Lemma buildLivestreams_ids ownerMap livestreamTagMap tagMap livestreamModels acc m :
  (forall k l, acc !! k = Some l -> Livestream.ID l = k) ->
  buildLivestreams ownerMap livestreamTagMap tagMap livestreamModels acc = Ok m ->
  forall k l, m !! k = Some l -> Livestream.ID l = k.
Proof.
  revert acc. induction livestreamModels as [| lm rest IH]; intros acc Hacc H; simpl in H.
  - inversion H; subst. exact Hacc.
  - destruct (ownerMap !! LivestreamModel.UserID lm) as [owner |]; [| discriminate].
    destruct (lookupTags tagMap _) as [tags |]; [| discriminate].
    refine (IH _ _ H). intros k l.
    destruct (decide (LivestreamModel.ID lm = k)) as [<- | Hne].
    + rewrite lookup_insert_eq. intros [= <-]. reflexivity.
    + rewrite lookup_insert_ne by exact Hne. apply Hacc.
Qed.

Lemma fillLivestreamResponseBulk_ids livestreamModels tx m tx' :
  fillLivestreamResponseBulk livestreamModels tx = (Ok m, tx') ->
  forall k l, m !! k = Some l -> Livestream.ID l = k.
Proof.
  destruct livestreamModels as [| lm rest].
  - intros [= <- _] k l. rewrite lookup_empty. discriminate.
  - rewrite fillLivestreamResponseBulk_eq. cbv zeta.
    destruct (failsNext tx); [discriminate |].
    destruct (fillUserResponseBulk _ _); [| discriminate].
    destruct (failsNext _); [discriminate |].
    destruct (map LivestreamTagModel.TagID _); [discriminate |].
    destruct (failsNext _); [discriminate |].
    intros H. apply (f_equal fst) in H. cbn [fst] in H.
    refine (buildLivestreams_ids _ _ _ _ _ _ _ H).
    intros k entry. rewrite lookup_empty. discriminate.
Qed.

Lemma reactionLookups_ids reactionModels tx userMap livestreamMap tx' :
  reactionLookups reactionModels tx = (Ok (userMap, livestreamMap), tx') ->
  forall k l, livestreamMap !! k = Some l -> Livestream.ID l = k.
Proof.
  destruct reactionModels as [| rm rest].
  - discriminate.
  - rewrite reactionLookups_eq. cbv zeta.
    destruct (failsNext tx); [discriminate |].
    destruct (fillUserResponseBulk _ _); [| discriminate].
    destruct (failsNext _); [discriminate |].
    destruct (fillLivestreamResponseBulk _ _) as [[m | e] tx''] eqn:H; [| discriminate].
    intros [= _ <- _]. exact (fillLivestreamResponseBulk_ids _ _ _ _ H).
Qed.

(** Step 4 on maps that hold every key: one reaction per row, in the
    order of the rows. *)
Lemma buildReactions_ok userMap livestreamMap reactionModels :
  (forall rm, In rm reactionModels ->
     is_Some (userMap !! ReactionModel.UserID rm)
     /\ is_Some (livestreamMap !! ReactionModel.LivestreamID rm)) ->
  exists reactions,
    buildReactions userMap livestreamMap reactionModels = Ok reactions
    /\ Forall2
         (fun rm reaction =>
            exists user livestream,
              userMap !! ReactionModel.UserID rm = Some user
              /\ livestreamMap !! ReactionModel.LivestreamID rm = Some livestream
              /\ reaction = reactionOf rm user livestream)
         reactionModels reactions.
Proof.
  induction reactionModels as [| rm rest IH]; intros Hkeys; simpl.
  - exists []. split; [reflexivity | constructor].
  - destruct (Hkeys rm (or_introl eq_refl)) as [[user Hu] [livestream Hl]].
    rewrite Hu, Hl.
    destruct IH as (reactions & -> & Hall).
    { intros rm' Hin. apply Hkeys. right. exact Hin. }
    eexists. split; [reflexivity |]. constructor; [| exact Hall].
    exists user, livestream. auto.
Qed.

Lemma buildReactions_nonempty userMap livestreamMap reactionModel rest reactions :
  buildReactions userMap livestreamMap (reactionModel :: rest) = Ok reactions ->
  livestreamMap <> ∅.
Proof.
  simpl. destruct (userMap !! _); [| discriminate].
  destruct (livestreamMap !! ReactionModel.LivestreamID reactionModel) eqn:H; [| discriminate].
  intros _ ->. rewrite lookup_empty in H. discriminate.
Qed.

(** The statements of a run of [fillReactionResponseBulk]: the first
    [k] of the five, all five when it succeeds. *)
Lemma fillReactionResponseBulk_issued reactionModels tx :
  let run := fillReactionResponseBulk reactionModels tx in
  exists k,
    (k <= 5)%nat
    /\ issued (snd run) = issued tx ++ firstn k (reactionBulkQueries reactionModels (view tx))
    /\ (reactionModels <> [] -> is_ok (fst run) = true -> k = 5%nat).
Proof.
  destruct reactionModels as [| rm rest].
  - simpl. exists 0%nat. rewrite app_nil_r. split; [lia |]. split; [reflexivity | congruence].
  - cbv zeta. rewrite fillReactionResponseBulk_eq. cbv zeta. rewrite reactionLookups_eq. cbv zeta.
    unfold reactionBulkQueries.
    set (q1 := SelectUsersIn _). set (q2 := SelectLivestreamsIn _).
    set (livestreamModels := livestreams_where_id_in _ _).
    destruct (failsNext tx).
    { exists 1%nat. simpl. split; [lia |]. split; [reflexivity | discriminate]. }
    destruct (fillUserResponseBulk _ _) as [userMap | e].
    2: { exists 1%nat. simpl. split; [lia |]. split; [reflexivity | discriminate]. }
    destruct (failsNext (after q1 tx)).
    { exists 2%nat. simpl. split; [lia |]. split; [| discriminate].
      rewrite <- app_assoc. reflexivity. }
    pose proof (fillLivestreamResponseBulk_issued livestreamModels (after q2 (after q1 tx)))
      as (_ & _ & k & Hk & Hissued & Hall).
    destruct (fillLivestreamResponseBulk _ _) as [[livestreamMap | e] tx'] eqn:Hinner;
      simpl in Hissued, Hall; cbn [fst snd].
    + exists (2 + k)%nat. split; [lia |]. split.
      * rewrite Hissued, <- !app_assoc. reflexivity.
      * intros _ Hok. rewrite Hall; [reflexivity | | reflexivity].
        intros Hnone. rewrite Hnone in Hinner. injection Hinner as <- _.
        destruct (buildReactions userMap ∅ (rm :: rest)) as [reactions |] eqn:Hbuild;
          [| discriminate].
        apply buildReactions_nonempty in Hbuild. congruence.
    + exists (2 + k)%nat. split; [lia |]. split; [| discriminate].
      rewrite Hissued, <- !app_assoc. reflexivity.
Qed.

End Reactions.

(** * Theorems about the bulk composers *)

Section BulkClaims.
Context `{UH : UserHandler}.


(** C7 (as amended). The key list of each [IN] statement holds one key
    per row, in the order of the rows, duplicates included: the user
    ids and the livestream ids of the livestream rows, the user ids and
    the livestream ids of the reaction rows. No key is dropped or
    merged. *)
Theorem bulk_keys_one_per_row
    (livestreamModels : list LivestreamModel.t) (reactionModels : list ReactionModel.t)
    (tx : Tx UserModel) :
  (exists k,
     issued (snd (fillLivestreamResponseBulk livestreamModels tx))
     = issued tx
       ++ firstn k
            [SelectUsersIn (map LivestreamModel.UserID livestreamModels);
             SelectLivestreamTagsIn (map LivestreamModel.ID livestreamModels);
             SelectTagsIn
               (map LivestreamTagModel.TagID (joinsOf livestreamModels (view tx)))])
  /\ (exists k,
        issued (snd (fillReactionResponseBulk reactionModels tx))
        = issued tx
          ++ firstn k
               (SelectUsersIn (map ReactionModel.UserID reactionModels)
                :: SelectLivestreamsIn (map ReactionModel.LivestreamID reactionModels)
                :: livestreamBulkQueries
                     (livestreams_where_id_in
                        (map ReactionModel.LivestreamID reactionModels) (view tx))
                     (view tx)))
  /\ length (map LivestreamModel.UserID livestreamModels) = length livestreamModels
  /\ length (map LivestreamModel.ID livestreamModels) = length livestreamModels
  /\ length (map ReactionModel.UserID reactionModels) = length reactionModels
  /\ length (map ReactionModel.LivestreamID reactionModels) = length reactionModels.
Proof.
  split; [| split].
  - destruct (fillLivestreamResponseBulk_issued livestreamModels tx)
      as (_ & _ & k & _ & Hissued & _).
    exists k. exact Hissued.
  - destruct (fillReactionResponseBulk_issued reactionModels tx) as (k & _ & Hissued & _).
    exists k. exact Hissued.
  - rewrite !length_map. auto.
Qed.

(** X27. When steps 1 to 3 of [fillReactionResponseBulk] have built the
    two maps and every row finds its user and its livestream in them,
    the function returns as many reactions as there are rows, the i-th
    built from the i-th row: its id, emoji name and creation time, the
    user found under its user id and the livestream found under (and
    carrying) its livestream id. An empty list of rows gives an empty
    result. *)
Theorem reactions_follow_rows
    (reactionModels : list ReactionModel.t) (tx tx' : Tx UserModel)
    (userMap : gmap Z User) (livestreamMap : gmap Z (Livestream.t User)) :
  (reactionModels <> [] ->
   reactionLookups reactionModels tx = (Ok (userMap, livestreamMap), tx')) ->
  (forall rm, In rm reactionModels ->
     is_Some (userMap !! ReactionModel.UserID rm)
     /\ is_Some (livestreamMap !! ReactionModel.LivestreamID rm)) ->
  exists reactions,
    fst (fillReactionResponseBulk reactionModels tx) = Ok reactions
    /\ len reactions = length reactionModels
    /\ forall (i : nat) rm, reactionModels !! i = Some rm ->
         exists reaction,
           elems reactions !! i = Some reaction
           /\ Reaction.ID reaction = ReactionModel.ID rm
           /\ Reaction.EmojiName reaction = ReactionModel.EmojiName rm
           /\ Reaction.CreatedAt reaction = ReactionModel.CreatedAt rm
           /\ userMap !! ReactionModel.UserID rm = Some (Reaction.User_ reaction)
           /\ livestreamMap !! ReactionModel.LivestreamID rm
              = Some (Reaction.Livestream_ reaction)
           /\ Livestream.ID (Reaction.Livestream_ reaction) = ReactionModel.LivestreamID rm.
Proof.
  intros Hlookups Hkeys. destruct reactionModels as [| rm0 rest].
  - exists nil_slice. split; [reflexivity |]. split; [reflexivity |].
    intros i rm Hi. rewrite lookup_nil in Hi. discriminate.
  - specialize (Hlookups ltac:(discriminate)).
    pose proof (reactionLookups_ids _ _ _ _ _ Hlookups) as Hids.
    destruct (buildReactions_ok userMap livestreamMap (rm0 :: rest) Hkeys)
      as (reactions & Hbuild & Hall).
    exists (make_slice reactions).
    rewrite fillReactionResponseBulk_eq. cbv zeta. rewrite Hlookups. cbn [fst snd].
    rewrite Hbuild. split; [reflexivity |]. split.
    + unfold len. cbn [elems]. symmetry. exact (Forall2_length _ _ _ Hall).
    + intros i rm Hi. cbn [elems].
      destruct (Forall2_lookup_l _ _ _ _ _ Hall Hi)
        as (reaction & Hreaction & user & livestream & Hu & Hl & ->).
      exists (reactionOf rm user livestream). split; [exact Hreaction |].
      repeat split; try assumption. simpl. exact (Hids _ _ Hl).
Qed.

End BulkClaims.

(** * The bulk composers on the sample database *)

(** In a batch where another livestream carries tags, the livestream
    without tags gets an empty, non-nil tag list. *)
Example bulk_mixed_batch :
  exists livestreamMap livestream,
    fst (fillLivestreamResponseBulk (UH := Sample.handler)
           [Sample.stream 8 1; Sample.stream 9 2] (Sample.transaction Sample.catalogue))
    = Ok livestreamMap
    /\ livestreamMap !! 9 = Some livestream
    /\ Livestream.Tags livestream = make_slice [].
Proof.
  eexists. eexists. split; [vm_compute; reflexivity |]. split; vm_compute; reflexivity.
Qed.

(** C5. For livestream 9, whose owner exists and which carries no tag,
    the single-row composer returns the livestream with an empty tag
    list, while the bulk composer applied to this row returns the error
    of [sqlx.In] on an empty slice: the two paths disagree. *)
Theorem bulk_and_single_disagree_without_tags :
  let tx := Sample.transaction Sample.catalogue in
  let row := Sample.stream 9 2 in
  users_where_id (UH := Sample.handler) (LivestreamModel.UserID row) (view tx) = [Sample.bob]
  /\ fst (fillLivestreamResponse (UH := Sample.handler) row tx)
     = Ok (livestreamOf (UH := Sample.handler) row Sample.bob [])
  /\ fst (fillLivestreamResponseBulk (UH := Sample.handler) [row] tx)
     = Err (Wrap "failed to build tag query: %w" ErrEmptySlice).
Proof. split; [| split]; vm_compute; reflexivity. Qed.

(** C8. A batch holding only livestream 9, which has no join row: the
    bulk composer returns an error instead of a map with an entry for 9. *)
Theorem bulk_fails_without_tags :
  let tx := Sample.transaction Sample.catalogue in
  livestream_tags_where_livestream_id (UH := Sample.handler) 9 (view tx) = []
  /\ is_ok (fst (fillLivestreamResponseBulk (UH := Sample.handler) [Sample.stream 9 2] tx))
     = false
  /\ issued (snd (fillLivestreamResponseBulk (UH := Sample.handler) [Sample.stream 9 2] tx))
     = [SelectUsersIn [2]; SelectLivestreamTagsIn [9]].
Proof. split; [| split]; vm_compute; reflexivity. Qed.


(** C7, counterexample. Livestreams 7 and 8 share their owner: the key
    list of the users statement holds the owner's id twice. *)
Lemma bulk_keys_repeat_shared_owner :
  issued (snd (fillLivestreamResponseBulk (UH := Sample.handler)
                 [Sample.stream 7 1; Sample.stream 8 1]
                 (Sample.transaction Sample.catalogue)))
  = [SelectUsersIn [1; 1]; SelectLivestreamTagsIn [7; 8]; SelectTagsIn [1; 2; 2]]
  /\ ~ NoDup [1; 1].
Proof.
  split; [vm_compute; reflexivity |].
  intros H. inversion H as [| ? ? Hnotin _]; subst. apply Hnotin. left.
Qed.

(** X27, witness: two reactions on the livestreams 7 and 8. *)
Lemma reactions_follow_rows_witness :
  let tx := Sample.transaction Sample.catalogue in
  let reactionModels := [Sample.reaction 1 2 7; Sample.reaction 2 1 8] in
  is_ok (fst (reactionLookups (UH := Sample.handler) reactionModels tx)) = true
  /\ exists reactions,
       fst (fillReactionResponseBulk (UH := Sample.handler) reactionModels tx) = Ok reactions
       /\ len reactions = 2%nat.
Proof.
  cbv zeta. split; [vm_compute; reflexivity |].
  destruct (reactionLookups (UH := Sample.handler)
              [Sample.reaction 1 2 7; Sample.reaction 2 1 8]
              (Sample.transaction Sample.catalogue))
    as [[[userMap livestreamMap] | e] tx'] eqn:Hlookups.
  - destruct (reactions_follow_rows (UH := Sample.handler) _ _ tx' userMap livestreamMap
                (fun _ => Hlookups)) as (reactions & Hrun & Hlen & _).
    + vm_compute in Hlookups. inversion Hlookups; subst.
      intros rm [<- | [<- | []]]; split; vm_compute; eexists; reflexivity.
    + exists reactions. split; [exact Hrun | exact Hlen].
  - vm_compute in Hlookups. discriminate.
Defined.

(** * Where the bulk and the single-row composer agree *)

(** The assumption on the user composers: what the bulk composer files
    under an id is what the single-row composer returns for the row
    with that id. *)
Definition userComposersAgree `{UH : UserHandler} (T : DB) : Prop :=
  forall ids m id user,
    fillUserResponseBulk T (users_where_id_in ids T) = Ok m ->
    m !! id = Some user ->
    exists userModel rest,
      users_where_id id T = userModel :: rest /\ fillUserResponse T userModel = Ok user.

Section Agreement.
Context `{UH : UserHandler}.

Lemma inb_In key ids : inb key ids = true <-> In key ids.
Proof.
  unfold inb. rewrite existsb_exists. split.
  - intros (x & Hin & Heq). apply Z.eqb_eq in Heq. subst. exact Hin.
  - intros Hin. exists key. split; [exact Hin | apply Z.eqb_refl].
Qed.

Lemma groupByLivestreamID_from (acc : gmap Z (list LivestreamTagModel.t)) livestreamTagModels k :
  default []
    (fold_left
       (fun m livestreamTag =>
          <[LivestreamTagModel.LivestreamID livestreamTag :=
              default [] (m !! LivestreamTagModel.LivestreamID livestreamTag)
              ++ [livestreamTag]]> m)
       livestreamTagModels acc !! k)
  = default [] (acc !! k)
    ++ List.filter (fun lt => LivestreamTagModel.LivestreamID lt =? k) livestreamTagModels.
Proof.
  revert acc. induction livestreamTagModels as [| lt lts IH]; intros acc; simpl.
  - rewrite app_nil_r. reflexivity.
  - rewrite IH. destruct (Z.eqb_spec (LivestreamTagModel.LivestreamID lt) k) as [-> | Hne].
    + rewrite lookup_insert_eq. simpl. rewrite <- app_assoc. reflexivity.
    + rewrite lookup_insert_ne by exact Hne. reflexivity.
Qed.

(** The group of a livestream holds its join rows in table order. *)
Lemma groupByLivestreamID_lookup livestreamTagModels k :
  default [] (groupByLivestreamID livestreamTagModels !! k)
  = List.filter (fun lt => LivestreamTagModel.LivestreamID lt =? k) livestreamTagModels.
Proof.
  unfold groupByLivestreamID. rewrite groupByLivestreamID_from, lookup_empty. reflexivity.
Qed.

Lemma joins_of_member (ids : list Z) (T : DB) k :
  In k ids ->
  List.filter (fun lt => LivestreamTagModel.LivestreamID lt =? k)
    (livestream_tags_where_livestream_id_in ids T)
  = livestream_tags_where_livestream_id k T.
Proof.
  intros Hin. unfold livestream_tags_where_livestream_id_in, livestream_tags_where_livestream_id.
  induction (livestream_tags T) as [| lt lts IH]; simpl; [reflexivity |].
  destruct (Z.eqb_spec (LivestreamTagModel.LivestreamID lt) k) as [Heq | Hne].
  - replace (inb (LivestreamTagModel.LivestreamID lt) ids) with true
      by (symmetry; apply inb_In; congruence).
    simpl. rewrite IH. destruct (Z.eqb_spec (LivestreamTagModel.LivestreamID lt) k); congruence.
  - destruct (inb (LivestreamTagModel.LivestreamID lt) ids); simpl; [| exact IH].
    destruct (Z.eqb_spec (LivestreamTagModel.LivestreamID lt) k); congruence.
Qed.

Lemma tagMapOf_from (acc : gmap Z Tag.t) tagModels t tag :
  fold_left (fun m tagModel => <[TagModel.ID tagModel := tagOf tagModel]> m) tagModels acc !! t
  = Some tag ->
  (exists tagModel, In tagModel tagModels /\ TagModel.ID tagModel = t /\ tag = tagOf tagModel)
  \/ acc !! t = Some tag.
Proof.
  revert acc. induction tagModels as [| tm tms IH]; intros acc H; simpl in H.
  - right. exact H.
  - apply IH in H as [(tagModel & Hin & Hid & Htag) | H].
    + left. exists tagModel. simpl. auto.
    + destruct (Z.eqb_spec (TagModel.ID tm) t) as [Heq | Hne].
      * rewrite Heq, lookup_insert_eq in H. inversion H; subst.
        left. exists tm. simpl. auto.
      * rewrite lookup_insert_ne in H by exact Hne. right. exact H.
Qed.

Lemma tag_row_unique (T : DB) tagModel :
  NoDup (map TagModel.ID (tags T)) ->
  In tagModel (tags T) ->
  tags_where_id (TagModel.ID tagModel) T = [tagModel].
Proof.
  unfold tags_where_id. generalize (tags T) as rows.
  induction rows as [| r rows IH]; intros Hnd Hin; [destruct Hin |].
  simpl in Hnd. inversion Hnd as [| ? ? Hnotin Hnd']; subst. simpl.
  assert (Hnone : forall l, ~ In (TagModel.ID tagModel) (map TagModel.ID l) ->
            List.filter (fun t => TagModel.ID t =? TagModel.ID tagModel) l = []).
  { induction l as [| x l IHl]; intros Hx; simpl; [reflexivity |].
    destruct (Z.eqb_spec (TagModel.ID x) (TagModel.ID tagModel)) as [Heq | _].
    - exfalso. apply Hx. left. exact Heq.
    - apply IHl. intros Hl. apply Hx. right. exact Hl. }
  destruct Hin as [-> | Hin].
  - rewrite Z.eqb_refl. f_equal. apply Hnone. rewrite <- list_elem_of_In. exact Hnotin.
  - destruct (Z.eqb_spec (TagModel.ID r) (TagModel.ID tagModel)) as [Heq | _].
    + exfalso. apply Hnotin. rewrite Heq. apply list_elem_of_In, in_map. exact Hin.
    + apply IH; assumption.
Qed.

(** A tag found in the map of the bulk composer is the tag of the one
    row the single-row composer fetches. *)
Lemma tagMapOf_single (T : DB) ids t tag :
  NoDup (map TagModel.ID (tags T)) ->
  tagMapOf (tags_where_id_in ids T) !! t = Some tag ->
  exists tagModel, tags_where_id t T = [tagModel] /\ tag = tagOf tagModel.
Proof.
  intros Hnd H. unfold tagMapOf in H.
  apply tagMapOf_from in H as [(tagModel & Hin & <- & ->) | H].
  - exists tagModel. split; [| reflexivity].
    apply tag_row_unique; [exact Hnd |].
    unfold tags_where_id_in in Hin. apply filter_In in Hin. tauto.
  - rewrite lookup_empty in H. discriminate.
Qed.

End Agreement.

Section AgreementOfPaths.
Context `{UH : UserHandler}.

(** The database fails no statement of the transaction. *)
Definition neverFails (tx : Tx UserModel) : Prop := forall n, faults tx n = false.

Lemma neverFails_next tx : neverFails tx -> failsNext tx = false.
Proof. intros H. apply H. Qed.

Lemma neverFails_after q tx : neverFails tx -> neverFails (after q tx).
Proof. intros H n. apply H. Qed.

Lemma fetchTags_of_lookupTags ids livestreamTags found tx :
  neverFails tx ->
  NoDup (map TagModel.ID (tags (view tx))) ->
  lookupTags (tagMapOf (tags_where_id_in ids (view tx))) livestreamTags = Ok found ->
  exists tx', fetchTags livestreamTags tx = (Ok found, tx').
Proof.
  revert found tx. induction livestreamTags as [| lt lts IH]; intros found tx Hnever Hnd H;
    simpl in H |- *.
  - inversion H; subst. eexists. reflexivity.
  - destruct (tagMapOf _ !! LivestreamTagModel.TagID lt) as [tag |] eqn:Htag; [| discriminate].
    destruct (lookupTags _ lts) as [found' |] eqn:Hrest; [| discriminate].
    inversion H; subst found; clear H.
    apply tagMapOf_single in Htag as (tagModel & Hrow & ->); [| exact Hnd].
    unfold bind at 1. rewrite GetContext_eq, (neverFails_next tx Hnever), Hrow.
    destruct (IH found' (after (SelectTagByID (LivestreamTagModel.TagID lt)) tx))
      as (tx' & Hfetch); [apply neverFails_after, Hnever | exact Hnd | exact Hrest |].
    unfold bind. rewrite Hfetch. eexists. reflexivity.
Qed.

Lemma buildLivestreams_outside ownerMap livestreamTagMap tagMap livestreamModels
    (acc m : gmap Z (Livestream.t User)) k :
  buildLivestreams ownerMap livestreamTagMap tagMap livestreamModels acc = Ok m ->
  ~ In k (map LivestreamModel.ID livestreamModels) ->
  m !! k = acc !! k.
Proof.
  revert acc. induction livestreamModels as [| lm rest IH]; intros acc H Hk; simpl in H.
  - inversion H; subst. reflexivity.
  - destruct (ownerMap !! LivestreamModel.UserID lm) as [owner |]; [| discriminate].
    destruct (lookupTags tagMap _) as [tags |]; [| discriminate].
    rewrite (IH _ H).
    + apply lookup_insert_ne. intros Heq. apply Hk. left. exact Heq.
    + intros Hin. apply Hk. right. exact Hin.
Qed.

(** The entry of a row of the batch, when the rows of the batch with
    its id are all this row. *)
Lemma buildLivestreams_member ownerMap livestreamTagMap tagMap livestreamModels
    (acc m : gmap Z (Livestream.t User)) lm :
  buildLivestreams ownerMap livestreamTagMap tagMap livestreamModels acc = Ok m ->
  In lm livestreamModels ->
  (forall lm', In lm' livestreamModels ->
     LivestreamModel.ID lm' = LivestreamModel.ID lm -> lm' = lm) ->
  exists owner tags,
    ownerMap !! LivestreamModel.UserID lm = Some owner
    /\ lookupTags tagMap (default [] (livestreamTagMap !! LivestreamModel.ID lm)) = Ok tags
    /\ m !! LivestreamModel.ID lm = Some (livestreamOf lm owner tags).
Proof.
  revert acc. induction livestreamModels as [| x rest IH]; intros acc H Hin Hsame;
    [destruct Hin |].
  simpl in H.
  destruct (ownerMap !! LivestreamModel.UserID x) as [owner |] eqn:Howner; [| discriminate].
  destruct (lookupTags tagMap (default [] (livestreamTagMap !! LivestreamModel.ID x)))
    as [tags |] eqn:Htags; [| discriminate].
  destruct (in_dec Z.eq_dec (LivestreamModel.ID lm) (map LivestreamModel.ID rest))
    as [Hlater | Hlast].
  - apply in_map_iff in Hlater as (lm' & Hid & Hin').
    assert (lm' = lm) by (apply Hsame; [right; exact Hin' | exact Hid]). subst lm'.
    apply (IH _ H Hin'). intros lm' Hin'' Hid'. apply Hsame; [right; exact Hin'' | exact Hid'].
  - destruct Hin as [-> | Hin]; [| exfalso; apply Hlast, in_map, Hin].
    exists owner, tags. split; [exact Howner |]. split; [exact Htags |].
    rewrite (buildLivestreams_outside _ _ _ _ _ _ _ H Hlast). apply lookup_insert_eq.
Qed.

(** When no livestream of the batch carries a tag, the bulk composer
    fails: [sqlx.In] rejects the empty list of tag ids. *)
Lemma fillLivestreamResponseBulk_without_joins livestreamModels tx :
  livestreamModels <> [] ->
  joinsOf livestreamModels (view tx) = [] ->
  is_ok (fst (fillLivestreamResponseBulk livestreamModels tx)) = false.
Proof.
  intros Hrows Hjoins. destruct livestreamModels as [| lm rest]; [congruence |].
  rewrite fillLivestreamResponseBulk_eq. cbv zeta. rewrite Hjoins. cbn [map].
  destruct (failsNext tx); [reflexivity |].
  destruct (fillUserResponseBulk _ _); [| reflexivity].
  destruct (failsNext (after _ tx)); reflexivity.
Qed.

(** When the bulk composer succeeds, on a database that fails no
    statement, with one row per tag id and user composers that agree,
    the entry it files under the id of a row is the livestream the
    single-row composer returns for that row. *)
Lemma bulk_agrees_with_single livestreamModels tx m tx' lm :
  neverFails tx ->
  NoDup (map TagModel.ID (tags (view tx))) ->
  userComposersAgree (view tx) ->
  fillLivestreamResponseBulk livestreamModels tx = (Ok m, tx') ->
  In lm livestreamModels ->
  (forall lm', In lm' livestreamModels ->
     LivestreamModel.ID lm' = LivestreamModel.ID lm -> lm' = lm) ->
  exists livestream,
    m !! LivestreamModel.ID lm = Some livestream
    /\ fst (fillLivestreamResponse lm tx) = Ok livestream.
Proof.
  intros Hnever Hnd Hagree Hbulk Hin Hsame.
  destruct livestreamModels as [| lm0 rest]; [destruct Hin |].
  rewrite fillLivestreamResponseBulk_eq in Hbulk. cbv zeta in Hbulk.
  destruct (failsNext tx); [discriminate |].
  destruct (fillUserResponseBulk _ _) as [ownerMap |] eqn:Howners; [| discriminate].
  destruct (failsNext _); [discriminate |].
  destruct (map LivestreamTagModel.TagID _) as [| tagID tagIDs] eqn:HtagIDs; [discriminate |].
  destruct (failsNext _); [discriminate |].
  apply (f_equal fst) in Hbulk. cbn [fst] in Hbulk.
  destruct (buildLivestreams_member _ _ _ _ _ _ lm Hbulk Hin Hsame)
    as (owner & tags & Howner & Htags & Hentry).
  exists (livestreamOf lm owner tags). split; [exact Hentry |].
  destruct (Hagree _ _ _ _ Howners Howner) as (ownerModel & others & Hrow & Hfill).
  rewrite groupByLivestreamID_lookup in Htags. unfold joinsOf in Htags.
  rewrite joins_of_member in Htags by (apply in_map, Hin).
  unfold fillLivestreamResponse.
  unfold bind at 1. rewrite GetContext_eq, (neverFails_next tx Hnever), Hrow.
  unfold bind at 1. unfold callFillUserResponse at 1. rewrite view_after, Hfill.
  unfold bind at 1. rewrite SelectContext_eq, neverFails_next, view_after
    by (apply neverFails_after, Hnever).
  match goal with
  | |- context [bind (fetchTags ?lts) _ ?tx2] =>
      destruct (fetchTags_of_lookupTags (tagID :: tagIDs) lts tags tx2) as (tx3 & Hfetch)
  end.
  - repeat apply neverFails_after. exact Hnever.
  - exact Hnd.
  - exact Htags.
  - unfold bind. rewrite Hfetch. reflexivity.
Qed.

End AgreementOfPaths.

(** The user composer of the sample agrees with itself on the sample
    database. *)
Lemma sample_userComposersAgree : userComposersAgree (UH := Sample.handler) Sample.catalogue.
Proof.
  intros ids m id user Hm Hlookup. unfold users_where_id_in in Hm. simpl in Hm.
  destruct (inb 1 ids), (inb 2 ids); simpl in Hm; inversion Hm; subst m; clear Hm.
  all: destruct (decide (id = 1)) as [-> | Hne1];
    [| destruct (decide (id = 2)) as [-> | Hne2]].
  all: repeat first
         [ rewrite lookup_insert_eq in Hlookup
         | rewrite lookup_insert_ne in Hlookup by congruence
         | rewrite lookup_empty in Hlookup ].
  all: try discriminate.
  all: inversion Hlookup; subst user; eexists; eexists; split; reflexivity.
Qed.

(** In a batch with a tagged livestream, the bulk composer's entry for
    the untagged livestream 9 is what the single-row composer returns. *)
Example bulk_agrees_on_mixed_batch :
  let tx := Sample.transaction Sample.catalogue in
  let batch := [Sample.stream 7 1; Sample.stream 8 1; Sample.stream 9 2] in
  exists m livestream,
    fst (fillLivestreamResponseBulk (UH := Sample.handler) batch tx) = Ok m
    /\ m !! 9 = Some livestream
    /\ fst (fillLivestreamResponse (UH := Sample.handler) (Sample.stream 9 2) tx) = Ok livestream.
Proof.
  cbv zeta.
  destruct (fillLivestreamResponseBulk (UH := Sample.handler)
              [Sample.stream 7 1; Sample.stream 8 1; Sample.stream 9 2]
              (Sample.transaction Sample.catalogue)) as [[m | e] tx'] eqn:Hbulk.
  - destruct (bulk_agrees_with_single (UH := Sample.handler)
                [Sample.stream 7 1; Sample.stream 8 1; Sample.stream 9 2]
                (Sample.transaction Sample.catalogue) m tx' (Sample.stream 9 2)
                (fun _ => eq_refl)) as (livestream & Hentry & Hsingle).
    + simpl. repeat constructor; rewrite list_elem_of_In; simpl; intuition discriminate.
    + exact sample_userComposersAgree.
    + exact Hbulk.
    + simpl. auto.
    + intros lm' [<- | [<- | [<- | []]]]; simpl; intros H; try discriminate H; reflexivity.
    + exists m, livestream. auto.
  - vm_compute in Hbulk. discriminate.
Qed.

(** * What a successful reservation does *)

(** The join rows the tag loop inserts: one per requested tag, with
    consecutive ids. *)
Fixpoint joinRows (firstID livestreamID : Z) (tagIDs : list Z) : list LivestreamTagModel.t :=
  match tagIDs with
  | [] => []
  | tagID :: rest =>
      LivestreamTagModel.mk firstID livestreamID tagID :: joinRows (firstID + 1) livestreamID rest
  end.

(** The row the handler inserts for a request. *)
Definition reservedRow (id userID : Z) (req : ReserveLivestreamRequest.t) : LivestreamModel.t :=
  LivestreamModel.mk id userID (ReserveLivestreamRequest.Title req)
    (ReserveLivestreamRequest.Description req) (ReserveLivestreamRequest.PlaylistUrl req)
    (ReserveLivestreamRequest.ThumbnailUrl req) (ReserveLivestreamRequest.StartAt req)
    (ReserveLivestreamRequest.EndAt req).

Section ReserveEffect.
Context `{UH : UserHandler}.

Lemma InsertLivestreamRow_ok row tx id tx' :
  InsertLivestreamRow row tx = (Ok id, tx') ->
  id = livestreams_seq tx
  /\ view tx' = insert_livestream (rowWithID id row) (view tx)
  /\ livestreams_seq tx' = id + 1
  /\ livestream_tags_seq tx' = livestream_tags_seq tx.
Proof.
  unfold InsertLivestreamRow. intros H.
  apply bind_run_ok in H as (u & tx1 & H1 & H).
  rewrite exec_eq in H1. destruct (failsNext tx); [discriminate |].
  inversion H1; subst u tx1; clear H1.
  cbv [bind nextLivestreamID modify ret] in H. simpl in H.
  inversion H; subst. simpl. auto.
Qed.

Lemma insertTags_effect livestreamID tagIDs tx u tx' :
  insertTags livestreamID tagIDs tx = (Ok u, tx') ->
  view tx'
  = mkTables (users (view tx)) (tags (view tx)) (livestreams (view tx))
      (livestream_tags (view tx) ++ joinRows (livestream_tags_seq tx) livestreamID tagIDs)
      (reservation_slots (view tx))
  /\ livestreams_seq tx' = livestreams_seq tx
  /\ livestream_tags_seq tx' = livestream_tags_seq tx + Z.of_nat (length tagIDs).
Proof.
  revert tx. induction tagIDs as [| tagID tagIDs IH]; intros tx H; simpl in H.
  - inversion H; subst. simpl. rewrite app_nil_r, Z.add_0_r. destruct (view tx'). auto.
  - apply bind_run_ok in H as (u1 & tx1 & H1 & H).
    apply httpError_ok in H1. unfold InsertLivestreamTagRow in H1.
    apply bind_run_ok in H1 as (u2 & tx2 & H2 & H1).
    rewrite exec_eq in H2. destruct (failsNext tx); [discriminate |].
    inversion H2; subst u2 tx2; clear H2.
    cbv [bind nextLivestreamTagID modify] in H1. simpl in H1.
    inversion H1; subst u1 tx1; clear H1.
    apply IH in H as (Hview & Hseq & Htseq). simpl in Hview, Hseq, Htseq.
    rewrite Hview, Hseq, Htseq. simpl. rewrite <- app_assoc. simpl.
    split; [reflexivity |]. split; [reflexivity | lia].
Qed.

(** The tags the single-row composer fetches: for every join row the
    first row of [tags] with the join row's tag id. *)
Lemma fetchTags_ok livestreamTagModels tx found tx' :
  fetchTags livestreamTagModels tx = (Ok found, tx') ->
  Forall2
    (fun livestreamTag tag =>
       exists tagModel others,
         tags_where_id (LivestreamTagModel.TagID livestreamTag) (view tx) = tagModel :: others
         /\ tag = tagOf tagModel)
    livestreamTagModels found
  /\ issued tx'
     = issued tx
       ++ map (fun livestreamTag => SelectTagByID (LivestreamTagModel.TagID livestreamTag))
            livestreamTagModels.
Proof.
  revert tx found. induction livestreamTagModels as [| lt lts IH]; intros tx found H; simpl in H.
  - inversion H; subst. rewrite app_nil_r. split; [constructor | reflexivity].
  - apply bind_run_ok in H as (tagModel & tx1 & H1 & H).
    rewrite GetContext_eq in H1. destruct (failsNext tx); [discriminate |].
    destruct (tags_where_id (LivestreamTagModel.TagID lt) (view tx)) as [| tm others] eqn:Hrow;
      [discriminate |].
    inversion H1; subst tagModel tx1; clear H1.
    apply bind_run_ok in H as (rest & tx2 & H2 & H).
    inversion H; subst found tx2; clear H.
    apply IH in H2 as (Hall & Hissued). rewrite view_after in Hall.
    split.
    + constructor; [| exact Hall]. exists tm, others. auto.
    + rewrite Hissued, issued_after. simpl. rewrite <- app_assoc. reflexivity.
Qed.

Lemma tagOf_ids livestreamTagModels (T : DB) found :
  Forall2
    (fun livestreamTag tag =>
       exists tagModel others,
         tags_where_id (LivestreamTagModel.TagID livestreamTag) T = tagModel :: others
         /\ tag = tagOf tagModel)
    livestreamTagModels found ->
  map Tag.ID found = map LivestreamTagModel.TagID livestreamTagModels.
Proof.
  induction 1 as [| lt tag lts found' (tm & others & Hrow & ->) _ IH]; simpl; [reflexivity |].
  f_equal; [| exact IH].
  assert (Hin : In tm (tags_where_id (LivestreamTagModel.TagID lt) T))
    by (rewrite Hrow; left; reflexivity).
  unfold tags_where_id in Hin. apply filter_In in Hin as [_ Hid].
  apply Z.eqb_eq in Hid. exact Hid.
Qed.

(** A successful run of [fillLivestreamResponse]. *)
Lemma fillLivestreamResponse_ok livestreamModel tx livestream tx' :
  fillLivestreamResponse livestreamModel tx = (Ok livestream, tx') ->
  let joins :=
    livestream_tags_where_livestream_id (LivestreamModel.ID livestreamModel) (view tx) in
  view tx' = view tx
  /\ livestreams_seq tx' = livestreams_seq tx
  /\ livestream_tags_seq tx' = livestream_tags_seq tx
  /\ issued tx'
     = issued tx
       ++ SelectUserByID (LivestreamModel.UserID livestreamModel)
          :: SelectLivestreamTagsByLivestreamID (LivestreamModel.ID livestreamModel)
          :: map (fun lt => SelectTagByID (LivestreamTagModel.TagID lt)) joins
  /\ exists ownerModel others owner found,
       users_where_id (LivestreamModel.UserID livestreamModel) (view tx) = ownerModel :: others
       /\ fillUserResponse (view tx) ownerModel = Ok owner
       /\ Forall2
            (fun livestreamTag tag =>
               exists tagModel rest,
                 tags_where_id (LivestreamTagModel.TagID livestreamTag) (view tx)
                 = tagModel :: rest
                 /\ tag = tagOf tagModel)
            joins found
       /\ livestream = livestreamOf livestreamModel owner found.
Proof.
  intros H joins.
  assert (Hseq : livestreams_seq tx' = livestreams_seq tx
                 /\ livestream_tags_seq tx' = livestream_tags_seq tx).
  { assert (Hk : forall lts, keeps (fun t => (livestreams_seq t, livestream_tags_seq t))
                               (fetchTags lts)).
    { induction lts as [| lt lts IHlts]; simpl; [apply keeps_ret |].
      apply keeps_bind.
      - intros t r t'. rewrite GetContext_eq. intros [= _ <-]. reflexivity.
      - intros tm. apply keeps_bind; [exact IHlts |]. intros rest. apply keeps_ret. }
    assert (Hkeep : keeps (fun t => (livestreams_seq t, livestream_tags_seq t))
                      (fillLivestreamResponse livestreamModel)).
    { unfold fillLivestreamResponse. apply keeps_bind.
      - intros t r t'. rewrite GetContext_eq. intros [= _ <-]. reflexivity.
      - intros um. apply keeps_bind; [apply keeps_callFillUserResponse |].
        intros o. apply keeps_bind.
        + intros t r t'. rewrite SelectContext_eq. intros [= _ <-]. reflexivity.
        + intros lts. apply keeps_bind; [apply Hk |]. intros found. apply keeps_ret. }
    apply Hkeep in H. inversion H. auto. }
  pose proof (keeps_fillLivestreamResponse_view _ _ _ _ H) as Hview.
  unfold fillLivestreamResponse in H.
  apply bind_run_ok in H as (ownerModel & tx1 & H1 & H).
  rewrite GetContext_eq in H1. destruct (failsNext tx); [discriminate |].
  destruct (users_where_id _ (view tx)) as [| um others] eqn:Hrow; [discriminate |].
  inversion H1; subst ownerModel tx1; clear H1.
  apply bind_run_ok in H as (owner & tx2 & H2 & H).
  unfold callFillUserResponse in H2. rewrite view_after in H2.
  destruct (fillUserResponse (view tx) um) as [o |] eqn:Hfill; [| discriminate].
  inversion H2; subst owner tx2; clear H2.
  apply bind_run_ok in H as (lts & tx3 & H3 & H).
  rewrite SelectContext_eq in H3. destruct (failsNext _); [discriminate |].
  rewrite view_after in H3. inversion H3; subst lts tx3; clear H3.
  apply bind_run_ok in H as (found & tx4 & H4 & H).
  inversion H; subst livestream tx4; clear H.
  apply fetchTags_ok in H4 as (Hall & Hissued). rewrite !view_after in Hall.
  split; [exact Hview |]. split; [tauto |]. split; [tauto |]. split.
  - rewrite Hissued, !issued_after, <- !app_assoc. reflexivity.
  - exists um, others, o, found. auto.
Qed.

End ReserveEffect.

(** The tables a reservation leaves behind: the new livestream row at
    the end of [livestreams], one join row per requested tag at the end
    of [livestream_tags], and each slot of the window one lower. *)
Definition reservedTables {UserModel : Type} (userID : Z) (req : ReserveLivestreamRequest.t)
    (livestreamID livestreamTagID : Z) (T : Tables UserModel) : Tables UserModel :=
  mkTables (users T) (tags T)
    (livestreams T ++ [reservedRow livestreamID userID req])
    (livestream_tags T
     ++ joinRows livestreamTagID livestreamID (ReserveLivestreamRequest.Tags req))
    (decrementWindow (ReserveLivestreamRequest.StartAt req) (ReserveLivestreamRequest.EndAt req)
       (reservation_slots T)).

Section ReserveSuccess.
Context `{UH : UserHandler}.

Lemma keeps_checkSlots_seqs req slots :
  keeps (fun t => (livestreams_seq t, livestream_tags_seq t)) (checkSlots req slots).
Proof.
  induction slots as [| slot slots IH]; simpl; [apply keeps_ret |].
  apply keeps_bind.
  - apply keeps_httpError. intros t r t'. rewrite GetContext_eq. intros [= _ <-]. reflexivity.
  - intros count. destruct (count <? 1); [apply keeps_fail | exact IH].
Qed.

Lemma reserveInTx_effect userID req tx livestream tx' :
  reserveInTx userID req tx = (Ok livestream, tx') ->
  let id := livestreams_seq tx in
  let T' := reservedTables userID req id (livestream_tags_seq tx) (view tx) in
  view tx' = T'
  /\ livestreams_seq tx' = id + 1
  /\ livestream_tags_seq tx'
     = livestream_tags_seq tx + Z.of_nat (length (ReserveLivestreamRequest.Tags req))
  /\ exists ownerModel others owner found,
       users_where_id userID T' = ownerModel :: others
       /\ fillUserResponse T' ownerModel = Ok owner
       /\ Forall2
            (fun livestreamTag tag =>
               exists tagModel rest,
                 tags_where_id (LivestreamTagModel.TagID livestreamTag) T' = tagModel :: rest
                 /\ tag = tagOf tagModel)
            (livestream_tags_where_livestream_id id T') found
       /\ livestream = livestreamOf (reservedRow id userID req) owner found.
Proof.
  unfold reserveInTx. simpl. intros H.
  destruct (badTimeRange _ _ _ _); [discriminate |].
  apply bind_run_ok in H as (slots & tx1 & H1 & H).
  apply httpError_ok in H1. rewrite SelectContext_eq in H1.
  destruct (failsNext tx); [discriminate |]. inversion H1; subst slots tx1; clear H1.
  apply bind_run_ok in H as (u & tx2 & H2 & H).
  assert (Hseq2 : (livestreams_seq tx2, livestream_tags_seq tx2)
                  = (livestreams_seq tx, livestream_tags_seq tx))
    by exact (keeps_checkSlots_seqs _ _ _ _ _ H2).
  apply checkSlots_ok in H2 as (Hview2 & _ & _). rewrite view_after in Hview2.
  apply bind_run_ok in H as (u' & tx3 & H3 & H).
  apply httpError_ok in H3. unfold ExecContext in H3.
  apply bind_run_ok in H3 as (u'' & tx3' & H3 & H3').
  rewrite exec_eq in H3. destruct (failsNext tx2); [discriminate |].
  inversion H3; subst u'' tx3'; clear H3. inversion H3'; subst u' tx3; clear H3'.
  apply bind_run_ok in H as (id & tx4 & H4 & H).
  apply httpError_ok in H4. apply InsertLivestreamRow_ok in H4 as (Hid & Hview4 & Hseq4 & Htseq4).
  simpl in Hid, Hview4, Htseq4.
  apply bind_run_ok in H as (u4 & tx5 & H5 & H).
  apply insertTags_effect in H5 as (Hview5 & Hseq5 & Htseq5).
  apply bind_run_ok in H as (l & tx6 & H6 & H).
  apply httpError_ok in H6. apply fillLivestreamResponse_ok in H6.
  cbv zeta in H6. destruct H6 as (Hview6 & Hseq6 & Htseq6 & _ & um & others & o & found & Hrest).
  apply bind_run_ok in H as (u7 & tx7 & H7 & H).
  apply httpError_ok in H7. rewrite exec_eq in H7. destruct (failsNext tx6); [discriminate |].
  inversion H7; subst u7 tx7; clear H7. inversion H; subst l tx'; clear H.
  injection Hseq2 as Hl2 Ht2.
  assert (Hfinal : view tx5
                   = reservedTables userID req (livestreams_seq tx) (livestream_tags_seq tx)
                       (view tx)).
  { rewrite Hview5, Hview4, Htseq4, Hview2, Hid, Hl2, Ht2. reflexivity. }
  rewrite view_after, Hview6, Hfinal.
  split; [reflexivity |].
  split; [change (livestreams_seq (after Commit tx6)) with (livestreams_seq tx6); lia |].
  split; [change (livestream_tags_seq (after Commit tx6)) with (livestream_tags_seq tx6); lia |].
  rewrite Hfinal in Hrest. simpl in Hrest. rewrite Hid, Hl2 in Hrest.
  exists um, others, o, found. exact Hrest.
Qed.

End ReserveSuccess.

(** ** When a reservation succeeds *)

Section ReserveSucceeds.
Context `{UH : UserHandler}.

Lemma neverFails_keeps {E A} (c : TxM E A) tx r tx' :
  keeps faults c -> c tx = (r, tx') -> neverFails tx -> neverFails tx'.
Proof. intros Hc H Hnever n. rewrite (Hc _ _ _ H). apply Hnever. Qed.

Lemma checkSlots_succeeds req slots tx :
  neverFails tx ->
  Forall (fun slot => exists count, recount (view tx) slot = Some count /\ 1 <= count) slots ->
  exists tx', checkSlots req slots tx = (Ok tt, tx').
Proof.
  revert tx. induction slots as [| slot slots IH]; intros tx Hnever Hall; simpl.
  - eexists. reflexivity.
  - inversion Hall as [| ? ? (count & Hcount & Hle) Hrest]; subst.
    unfold bind at 1, httpError, mapErr.
    rewrite GetContext_eq, (neverFails_next tx Hnever).
    unfold recount in Hcount. unfold slot_counts_at.
    destruct (map ReservationSlotModel.Slot _) as [| c cs]; [discriminate |].
    simpl in Hcount. inversion Hcount; subst c.
    replace (count <? 1) with false by (symmetry; apply Z.ltb_ge; exact Hle).
    apply IH; [apply neverFails_after, Hnever | exact Hrest].
Qed.

Lemma insertTags_succeeds livestreamID tagIDs tx :
  neverFails tx -> exists tx', insertTags livestreamID tagIDs tx = (Ok tt, tx').
Proof.
  revert tx. induction tagIDs as [| tagID tagIDs IH]; intros tx Hnever; simpl.
  - eexists. reflexivity.
  - unfold bind at 1, httpError, mapErr, InsertLivestreamTagRow.
    unfold bind at 1. rewrite exec_eq, (neverFails_next tx Hnever).
    cbv [bind nextLivestreamTagID modify]. apply IH.
    intros n. apply Hnever.
Qed.

Lemma fetchTags_succeeds livestreamTagModels tx :
  neverFails tx ->
  Forall (fun lt => tags_where_id (LivestreamTagModel.TagID lt) (view tx) <> [])
    livestreamTagModels ->
  exists found tx', fetchTags livestreamTagModels tx = (Ok found, tx').
Proof.
  revert tx. induction livestreamTagModels as [| lt lts IH]; intros tx Hnever Hall; simpl.
  - eexists. eexists. reflexivity.
  - inversion Hall as [| ? ? Hrow Hrest]; subst.
    unfold bind at 1. rewrite GetContext_eq, (neverFails_next tx Hnever).
    destruct (tags_where_id (LivestreamTagModel.TagID lt) (view tx)) as [| tm others];
      [congruence |].
    destruct (IH (after (SelectTagByID (LivestreamTagModel.TagID lt)) tx))
      as (found & tx' & Hfetch); [apply neverFails_after, Hnever | exact Hrest |].
    unfold bind. rewrite Hfetch. eexists. eexists. reflexivity.
Qed.

Lemma fillLivestreamResponse_succeeds livestreamModel tx ownerModel others owner :
  neverFails tx ->
  users_where_id (LivestreamModel.UserID livestreamModel) (view tx) = ownerModel :: others ->
  fillUserResponse (view tx) ownerModel = Ok owner ->
  Forall (fun lt => tags_where_id (LivestreamTagModel.TagID lt) (view tx) <> [])
    (livestream_tags_where_livestream_id (LivestreamModel.ID livestreamModel) (view tx)) ->
  exists livestream tx', fillLivestreamResponse livestreamModel tx = (Ok livestream, tx').
Proof.
  intros Hnever Hrow Hfill Htags. unfold fillLivestreamResponse.
  unfold bind at 1. rewrite GetContext_eq, (neverFails_next tx Hnever), Hrow.
  unfold bind at 1. unfold callFillUserResponse at 1. rewrite view_after, Hfill.
  unfold bind at 1. rewrite SelectContext_eq, neverFails_next, view_after
    by (apply neverFails_after, Hnever).
  match goal with
  | |- context [bind (fetchTags ?lts) _ ?tx2] =>
      destruct (fetchTags_succeeds lts tx2) as (found & tx3 & Hfetch)
  end.
  - repeat apply neverFails_after. exact Hnever.
  - exact Htags.
  - unfold bind. rewrite Hfetch. eexists. eexists. reflexivity.
Qed.

Lemma reserveInTx_succeeds userID req tx ownerModel others owner :
  let startAt := ReserveLivestreamRequest.StartAt req in
  let endAt := ReserveLivestreamRequest.EndAt req in
  let id := livestreams_seq tx in
  let T' := reservedTables userID req id (livestream_tags_seq tx) (view tx) in
  neverFails tx ->
  badTimeRange termStartAt termEndAt (time.Unix startAt 0) (time.Unix endAt 0) = false ->
  Forall (fun slot => exists count, recount (view tx) slot = Some count /\ 1 <= count)
    (slots_in_window startAt endAt (view tx)) ->
  users_where_id userID T' = ownerModel :: others ->
  fillUserResponse T' ownerModel = Ok owner ->
  Forall (fun lt => tags_where_id (LivestreamTagModel.TagID lt) T' <> [])
    (livestream_tags_where_livestream_id id T') ->
  exists livestream tx', reserveInTx userID req tx = (Ok livestream, tx').
Proof.
  intros startAt endAt id T' Hnever Hgood Hslots Howner Hfill Htags.
  unfold reserveInTx. cbv zeta. fold startAt endAt. rewrite Hgood.
  unfold bind at 1, httpError at 1, mapErr.
  rewrite SelectContext_eq, (neverFails_next tx Hnever).
  set (tx1 := after (SelectSlotsForUpdate startAt endAt) tx).
  assert (Hnever1 : neverFails tx1) by (apply neverFails_after, Hnever).
  destruct (checkSlots_succeeds req (slots_in_window startAt endAt (view tx)) tx1 Hnever1 Hslots)
    as (tx2 & H2).
  unfold bind at 1. rewrite H2.
  assert (Hnever2 : neverFails tx2)
    by exact (neverFails_keeps _ _ _ _ (keeps_checkSlots_faults _ _) H2 Hnever1).
  assert (Hview2 : view tx2 = view tx) by exact (keeps_checkSlots_view _ _ _ _ _ H2).
  pose proof (keeps_checkSlots_seqs _ _ _ _ _ H2) as Hseq2. injection Hseq2 as Hl2 Ht2.
  change (livestreams_seq tx1) with (livestreams_seq tx) in Hl2.
  change (livestream_tags_seq tx1) with (livestream_tags_seq tx) in Ht2.
  unfold bind at 1, httpError at 1, mapErr, ExecContext.
  unfold bind at 1. rewrite exec_eq, (neverFails_next tx2 Hnever2).
  unfold modify at 1.
  set (tx3 := mkTx _ _ _ _ _ _).
  assert (Hnever3 : neverFails tx3) by (intros n; apply Hnever2).
  unfold bind at 1, httpError at 1, mapErr, InsertLivestreamRow.
  unfold bind at 1. rewrite exec_eq, (neverFails_next tx3 Hnever3).
  cbv [bind nextLivestreamID modify ret].
  set (tx4 := mkTx _ _ _ _ _ _).
  assert (Hnever4 : neverFails tx4) by (intros n; apply Hnever2).
  destruct (insertTags_succeeds (livestreams_seq (after (InsertLivestream
              (LivestreamModel.mk 0 userID (ReserveLivestreamRequest.Title req)
                 (ReserveLivestreamRequest.Description req)
                 (ReserveLivestreamRequest.PlaylistUrl req)
                 (ReserveLivestreamRequest.ThumbnailUrl req) startAt endAt)) tx3))
              (ReserveLivestreamRequest.Tags req) tx4 Hnever4) as (tx5 & H5).
  rewrite H5.
  assert (Hnever5 : neverFails tx5)
    by exact (neverFails_keeps _ _ _ _ (keeps_insertTags_faults _ _) H5 Hnever4).
  apply insertTags_effect in H5 as (Hview5 & _ & _).
  assert (Hfinal : view tx5 = T').
  { rewrite Hview5. subst tx4 tx3 T' id. simpl. rewrite Hview2, Hl2, Ht2. reflexivity. }
  match goal with
  | |- context [httpError _ _ (fillLivestreamResponse ?lm) tx5] =>
      destruct (fillLivestreamResponse_succeeds lm tx5 ownerModel others owner Hnever5)
        as (livestream & tx6 & H6)
  end.
  - rewrite Hfinal. exact Howner.
  - rewrite Hfinal. exact Hfill.
  - rewrite Hfinal. simpl. change (livestreams_seq (after _ tx3)) with (livestreams_seq tx2).
    rewrite Hl2. exact Htags.
  - unfold httpError at 1, mapErr. rewrite H6.
    assert (Hnever6 : neverFails tx6)
      by exact (neverFails_keeps _ _ _ _ (keeps_fillLivestreamResponse_faults _) H6 Hnever5).
    unfold httpError, mapErr. rewrite exec_eq, (neverFails_next tx6 Hnever6).
    eexists. eexists. reflexivity.
Qed.

End ReserveSucceeds.

(** * Further properties of [reserveLivestreamHandler] *)

Lemma filter_none {A} (f : A -> bool) (l : list A) :
  (forall x, In x l -> f x = false) -> List.filter f l = [].
Proof.
  induction l as [| a l IH]; intros H; [reflexivity |].
  simpl. rewrite (H a) by (left; reflexivity). apply IH. intros x Hx. apply H. right. exact Hx.
Qed.

Lemma decrementWindow_outside startAt endAt slots :
  (forall slot, In slot slots -> slot_in_window startAt endAt slot = false) ->
  decrementWindow startAt endAt slots = slots.
Proof.
  unfold decrementWindow. induction slots as [| a l IH]; intros H; [reflexivity |].
  simpl. rewrite (H a) by (left; reflexivity). f_equal.
  apply IH. intros x Hx. apply H. right. exact Hx.
Qed.

Section ReserveFurther.
Context `{UH : UserHandler}.

(** X1. A reservation that is answered [201 Created] leaves exactly
    this behind: the users and the tags as they were, the new row at the
    end of [livestreams] with the next id of the table, the session's
    user and the fields of the request, one join row per requested tag
    (in the order of the request, repeated tags included) at the end of
    [livestream_tags], every slot of the window one lower, and the two
    counters advanced by one and by the number of tags. The body of the
    answer is the new row with its owner and, in the order of the join
    rows, one tag per join row that carries the new id. *)
Theorem reserve_success_effect
    (userID : Z) (req : ReserveLivestreamRequest.t) (faults : nat -> bool)
    (db db' : Database UserModel) (livestream : Livestream.t User) :
  reserveLivestreamHandler userID req faults db = (Ok livestream, db') ->
  let id := next_livestream_id db in
  let T' := reservedTables userID req id (next_livestream_tag_id db) (tables db) in
  db' = mkDatabase T' (id + 1)
          (next_livestream_tag_id db
           + Z.of_nat (length (ReserveLivestreamRequest.Tags req)))
  /\ exists ownerModel others owner found,
       users_where_id userID (tables db) = ownerModel :: others
       /\ fillUserResponse T' ownerModel = Ok owner
       /\ livestream = livestreamOf (reservedRow id userID req) owner found
       /\ map Tag.ID found
          = map LivestreamTagModel.TagID (livestream_tags_where_livestream_id id T').
Proof.
  intros H id T'. unfold reserveLivestreamHandler in H.
  pose proof (reserveRun_committed userID req faults db) as Hcommitted.
  destruct (reserveRun_begin userID req faults db) as [(_ & e & Hrun & _) | (_ & Hrun)].
  - rewrite Hrun in H. discriminate.
  - rewrite Hrun in H, Hcommitted.
    destruct (reserveInTx userID req (begun faults db)) as [r tx'] eqn:Hin.
    simpl in Hcommitted. injection H as -> <-. simpl in Hcommitted.
    apply reserveInTx_effect in Hin. cbv zeta in Hin.
    change (livestreams_seq (begun faults db)) with (next_livestream_id db) in Hin.
    change (livestream_tags_seq (begun faults db)) with (next_livestream_tag_id db) in Hin.
    change (view (begun faults db)) with (tables db) in Hin.
    destruct Hin as (Hview & Hseq & Htseq & um & others & owner & found & Hrow & Hfill
                     & Hall & ->).
    rewrite Hcommitted, Hview, Hseq, Htseq. split; [reflexivity |].
    exists um, others, owner, found. split; [exact Hrow |]. split; [exact Hfill |].
    split; [reflexivity |]. exact (tagOf_ids _ _ _ Hall).
Qed.

(** X2. With a database that fails no statement, a window that passes
    the check against the term, every slot of the window read again
    with a capacity of at least 1, a row for the session's user that
    the user composer accepts, and a tag row for every join row that
    carries the new id once the request's are inserted, the handler
    answers [201 Created] and commits. *)
Theorem reserve_succeeds
    (userID : Z) (req : ReserveLivestreamRequest.t) (faults : nat -> bool)
    (db : Database UserModel) (ownerModel : UserModel) (others : list UserModel)
    (owner : User) :
  let startAt := ReserveLivestreamRequest.StartAt req in
  let endAt := ReserveLivestreamRequest.EndAt req in
  let id := next_livestream_id db in
  let T' := reservedTables userID req id (next_livestream_tag_id db) (tables db) in
  (forall n, faults n = false) ->
  badTimeRange termStartAt termEndAt (time.Unix startAt 0) (time.Unix endAt 0) = false ->
  Forall (fun slot => exists count, recount (tables db) slot = Some count /\ 1 <= count)
    (slots_in_window startAt endAt (tables db)) ->
  users_where_id userID (tables db) = ownerModel :: others ->
  fillUserResponse T' ownerModel = Ok owner ->
  Forall (fun lt => tags_where_id (LivestreamTagModel.TagID lt) (tables db) <> [])
    (livestream_tags_where_livestream_id id T') ->
  exists found,
    fst (reserveLivestreamHandler userID req faults db)
    = Ok (livestreamOf (reservedRow id userID req) owner found)
    /\ tables (snd (reserveLivestreamHandler userID req faults db)) = T'.
Proof.
  intros startAt endAt id T' Hfaults Hgood Hslots Howner Hfill Htags.
  assert (Hnever : neverFails (begun faults db)) by (intros n; apply Hfaults).
  destruct (reserveInTx_succeeds userID req (begun faults db) ownerModel others owner
              Hnever Hgood Hslots Howner Hfill Htags) as (livestream & tx' & Hin).
  pose proof (reserveRun_committed userID req faults db) as Hcommitted.
  assert (Hrun : reserveRun userID req faults db = (Ok livestream, tx')).
  { destruct (reserveRun_begin userID req faults db) as [(Hf & _) | (_ & ->)].
    - rewrite Hfaults in Hf. discriminate.
    - exact Hin. }
  rewrite Hrun in Hcommitted. simpl in Hcommitted.
  unfold reserveLivestreamHandler. rewrite Hrun. cbn [fst snd tables]. rewrite Hcommitted.
  apply reserveInTx_effect in Hin. cbv zeta in Hin.
  change (livestreams_seq (begun faults db)) with (next_livestream_id db) in Hin.
  change (livestream_tags_seq (begun faults db)) with (next_livestream_tag_id db) in Hin.
  change (view (begun faults db)) with (tables db) in Hin.
  destruct Hin as (Hview & _ & _ & um & others' & owner' & found & Hrow & Hfill' & _ & ->).
  fold id T' in Hrow, Hfill', Hview |- *.
  assert (um = ownerModel) by (change (users_where_id userID T') with
    (users_where_id userID (tables db)) in Hrow; congruence). subst um.
  assert (owner' = owner) by congruence. subst owner'.
  exists found. split; [reflexivity | exact Hview].
Qed.

(** X3. The handler never compares the start of the window with its
    end. When every slot row starts before it ends, a request whose
    end lies before its start contains no slot: if it passes the check
    against the term it is booked like any other, on a database that
    fails no statement, and no capacity is used up. *)
Theorem reserve_books_reversed_window
    (userID : Z) (req : ReserveLivestreamRequest.t) (faults : nat -> bool)
    (db : Database UserModel) (ownerModel : UserModel) (others : list UserModel)
    (owner : User) :
  let startAt := ReserveLivestreamRequest.StartAt req in
  let endAt := ReserveLivestreamRequest.EndAt req in
  let id := next_livestream_id db in
  let T' := reservedTables userID req id (next_livestream_tag_id db) (tables db) in
  (forall n, faults n = false) ->
  Forall (fun slot => ReservationSlotModel.StartAt slot < ReservationSlotModel.EndAt slot)
    (reservation_slots (tables db)) ->
  endAt < startAt ->
  badTimeRange termStartAt termEndAt (time.Unix startAt 0) (time.Unix endAt 0) = false ->
  users_where_id userID (tables db) = ownerModel :: others ->
  fillUserResponse T' ownerModel = Ok owner ->
  Forall (fun lt => tags_where_id (LivestreamTagModel.TagID lt) (tables db) <> [])
    (livestream_tags_where_livestream_id id T') ->
  exists livestream,
    fst (reserveLivestreamHandler userID req faults db) = Ok livestream
    /\ Livestream.StartAt livestream = startAt
    /\ Livestream.EndAt livestream = endAt
    /\ reservation_slots (tables (snd (reserveLivestreamHandler userID req faults db)))
       = reservation_slots (tables db).
Proof.
  intros startAt endAt id T' Hfaults Hrows Hreversed Hgood Howner Hfill Htags.
  assert (Hnone : forall slot, In slot (reservation_slots (tables db)) ->
            slot_in_window startAt endAt slot = false).
  { intros slot Hin. rewrite Forall_forall in Hrows.
    pose proof (Hrows slot (proj2 (list_elem_of_In _ _) Hin)) as Hslot.
    unfold slot_in_window. apply andb_false_iff.
    destruct (Z.geb_spec (ReservationSlotModel.StartAt slot) startAt); [| left; reflexivity].
    right. apply Z.leb_gt. lia. }
  assert (Hlocked : slots_in_window startAt endAt (tables db) = [])
    by (apply filter_none, Hnone).
  assert (Hnever : neverFails (begun faults db)) by (intros n; apply Hfaults).
  assert (Hslots : Forall (fun slot => exists count,
                      recount (tables db) slot = Some count /\ 1 <= count)
                     (slots_in_window startAt endAt (tables db)))
    by (rewrite Hlocked; constructor).
  destruct (reserveInTx_succeeds userID req (begun faults db) ownerModel others owner
              Hnever Hgood Hslots Howner Hfill Htags) as (livestream & tx' & Hin).
  pose proof (reserveRun_committed userID req faults db) as Hcommitted.
  assert (Hrun : reserveRun userID req faults db = (Ok livestream, tx')).
  { destruct (reserveRun_begin userID req faults db) as [(Hf & _) | (_ & ->)].
    - rewrite Hfaults in Hf. discriminate.
    - exact Hin. }
  rewrite Hrun in Hcommitted. simpl in Hcommitted.
  unfold reserveLivestreamHandler. rewrite Hrun. cbn [fst snd tables]. rewrite Hcommitted.
  apply reserveInTx_effect in Hin. cbv zeta in Hin.
  change (view (begun faults db)) with (tables db) in Hin.
  destruct Hin as (Hview & _ & _ & um & others' & owner' & found & _ & _ & _ & ->).
  exists (livestreamOf (reservedRow (livestreams_seq (begun faults db)) userID req) owner' found).
  split; [reflexivity |]. split; [reflexivity |]. split; [reflexivity |].
  rewrite Hview. simpl. apply decrementWindow_outside, Hnone.
Qed.

End ReserveFurther.

(** X1, witness: two hours for alice with the tags 2 and 1. *)
Lemma reserve_success_effect_witness :
  let db := Sample.database (Sample.twoSlots 1 1) in
  let req := Sample.request [2; 1] Sample.t0 (Sample.t0 + 2 * Sample.hour) in
  exists livestream db',
    reserveLivestreamHandler (UH := Sample.handler) 1 req Sample.noFaults db
    = (Ok livestream, db')
    /\ db' = mkDatabase (reservedTables 1 req 1 1 (tables db)) 2 3.
Proof.
  cbv zeta.
  destruct (reserveLivestreamHandler (UH := Sample.handler) 1
              (Sample.request [2; 1] Sample.t0 (Sample.t0 + 2 * Sample.hour)) Sample.noFaults
              (Sample.database (Sample.twoSlots 1 1))) as [[livestream | e] db'] eqn:H.
  - exists livestream, db'. split; [reflexivity |].
    exact (proj1 (reserve_success_effect (UH := Sample.handler) 1
                    (Sample.request [2; 1] Sample.t0 (Sample.t0 + 2 * Sample.hour))
                    Sample.noFaults (Sample.database (Sample.twoSlots 1 1)) db' livestream H)).
  - vm_compute in H. discriminate.
Defined.

(** X2, witness: the same request. *)
Lemma reserve_succeeds_witness :
  let db := Sample.database (Sample.twoSlots 1 1) in
  let req := Sample.request [2; 1] Sample.t0 (Sample.t0 + 2 * Sample.hour) in
  exists found,
    fst (reserveLivestreamHandler (UH := Sample.handler) 1 req Sample.noFaults db)
    = Ok (livestreamOf (UH := Sample.handler) (reservedRow 1 1 req) Sample.alice found).
Proof.
  cbv zeta.
  destruct (reserve_succeeds (UH := Sample.handler) 1
              (Sample.request [2; 1] Sample.t0 (Sample.t0 + 2 * Sample.hour)) Sample.noFaults
              (Sample.database (Sample.twoSlots 1 1)) Sample.alice [] Sample.alice)
    as (found & H & _).
  - intros n. reflexivity.
  - vm_compute. reflexivity.
  - repeat constructor; eexists; (split; [vm_compute; reflexivity | lia]).
  - reflexivity.
  - reflexivity.
  - repeat constructor; vm_compute; discriminate.
  - exists found. exact H.
Defined.

(** X3, witness: a window from the end of the second hour back to the
    end of the first. *)
Lemma reserve_books_reversed_window_witness :
  let db := Sample.database (Sample.twoSlots 1 1) in
  let req := Sample.request [] (Sample.t0 + 2 * Sample.hour) (Sample.t0 + Sample.hour) in
  ReserveLivestreamRequest.EndAt req < ReserveLivestreamRequest.StartAt req
  /\ is_ok (fst (reserveLivestreamHandler (UH := Sample.handler) 1 req Sample.noFaults db))
     = true
  /\ reservation_slots
       (tables (snd (reserveLivestreamHandler (UH := Sample.handler) 1 req Sample.noFaults db)))
     = Sample.twoSlots 1 1.
Proof.
  cbv zeta.
  assert (Hreversed : Sample.t0 + Sample.hour < Sample.t0 + 2 * Sample.hour)
    by (vm_compute; reflexivity).
  split; [exact Hreversed |].
  destruct (reserve_books_reversed_window (UH := Sample.handler) 1
              (Sample.request [] (Sample.t0 + 2 * Sample.hour) (Sample.t0 + Sample.hour))
              Sample.noFaults (Sample.database (Sample.twoSlots 1 1))
              Sample.alice [] Sample.alice)
    as (livestream & H & _ & _ & Hslots).
  - intros n. reflexivity.
  - repeat constructor; vm_compute; reflexivity.
  - exact Hreversed.
  - vm_compute. reflexivity.
  - reflexivity.
  - reflexivity.
  - constructor.
  - rewrite H. split; [reflexivity | exact Hslots].
Defined.

(** * Further properties of the response composers *)

Section ComposersFurther.
Context `{UH : UserHandler}.

(** The entries of the map of step 5: one per id of the batch, each
    built from a row of the batch with that id. *)
Lemma buildLivestreams_entries ownerMap livestreamTagMap tagMap livestreamModels
    (acc m : gmap Z (Livestream.t User)) :
  buildLivestreams ownerMap livestreamTagMap tagMap livestreamModels acc = Ok m ->
  (forall lm, In lm livestreamModels -> is_Some (m !! LivestreamModel.ID lm))
  /\ (forall k entry, m !! k = Some entry ->
        acc !! k = Some entry
        \/ exists lm owner tags,
             In lm livestreamModels /\ LivestreamModel.ID lm = k
             /\ entry = livestreamOf lm owner tags)
  /\ (forall k, is_Some (acc !! k) -> is_Some (m !! k)).
Proof.
  revert acc. induction livestreamModels as [| x rest IH]; intros acc H; simpl in H.
  - inversion H; subst. split; [intros lm [] |]. split; [auto | auto].
  - destruct (ownerMap !! LivestreamModel.UserID x) as [owner |]; [| discriminate].
    destruct (lookupTags tagMap _) as [tags |]; [| discriminate].
    apply IH in H as (Hin & Hfrom & Hkeep). split; [| split].
    + intros lm [<- | Hlm]; [| exact (Hin lm Hlm)].
      apply Hkeep. rewrite lookup_insert_eq. eexists. reflexivity.
    + intros k entry Hentry. apply Hfrom in Hentry as [Hentry | (lm & o & t & Hlm & Hid & ->)].
      * destruct (decide (LivestreamModel.ID x = k)) as [Heq | Hne].
        -- rewrite <- Heq, lookup_insert_eq in Hentry. inversion Hentry; subst entry.
           right. exists x, owner, tags. split; [left; reflexivity | auto].
        -- rewrite lookup_insert_ne in Hentry by exact Hne. left. exact Hentry.
      * right. exists lm, o, t. split; [right; exact Hlm | auto].
    + intros k Hk. apply Hkeep.
      destruct (decide (LivestreamModel.ID x = k)) as [<- | Hne].
      * rewrite lookup_insert_eq. eexists. reflexivity.
      * rewrite lookup_insert_ne by exact Hne. exact Hk.
Qed.

Lemma fillLivestreamResponseBulk_entries livestreamModels tx m tx' :
  fillLivestreamResponseBulk livestreamModels tx = (Ok m, tx') ->
  (forall lm, In lm livestreamModels -> is_Some (m !! LivestreamModel.ID lm))
  /\ (forall k entry, m !! k = Some entry ->
        exists lm owner tags,
          In lm livestreamModels /\ LivestreamModel.ID lm = k
          /\ entry = livestreamOf lm owner tags).
Proof.
  destruct livestreamModels as [| lm0 rest].
  - intros [= <- _]. split; [intros lm [] |].
    intros k entry. rewrite lookup_empty. discriminate.
  - rewrite fillLivestreamResponseBulk_eq. cbv zeta.
    destruct (failsNext tx); [discriminate |].
    destruct (fillUserResponseBulk _ _); [| discriminate].
    destruct (failsNext _); [discriminate |].
    destruct (map LivestreamTagModel.TagID _); [discriminate |].
    destruct (failsNext _); [discriminate |].
    intros H. apply (f_equal fst) in H. cbn [fst] in H.
    apply buildLivestreams_entries in H as (Hin & Hfrom & _).
    split; [exact Hin |]. intros k entry Hentry.
    apply Hfrom in Hentry as [Hentry | Hentry]; [| exact Hentry].
    rewrite lookup_empty in Hentry. discriminate.
Qed.

(** X4. A successful call of [fillLivestreamResponse] reads and never
    writes: it issues the statement for the owner, the one for the join
    rows of the livestream, and then one statement per join row, that
    is two statements and one more for every tag of the livestream. The
    tags of the result are those of the join rows, in their order and
    with their repetitions; the other fields are the row's. *)
Theorem single_composer_statements
    (livestreamModel : LivestreamModel.t) (tx tx' : Tx UserModel)
    (livestream : Livestream.t User) :
  fillLivestreamResponse livestreamModel tx = (Ok livestream, tx') ->
  let joins :=
    livestream_tags_where_livestream_id (LivestreamModel.ID livestreamModel) (view tx) in
  issued tx'
  = issued tx
    ++ SelectUserByID (LivestreamModel.UserID livestreamModel)
       :: SelectLivestreamTagsByLivestreamID (LivestreamModel.ID livestreamModel)
       :: map (fun lt => SelectTagByID (LivestreamTagModel.TagID lt)) joins
  /\ length (issued tx') = (length (issued tx) + 2 + length joins)%nat
  /\ view tx' = view tx
  /\ committed tx' = committed tx
  /\ map Tag.ID (elems (Livestream.Tags livestream)) = map LivestreamTagModel.TagID joins
  /\ exists owner tags, livestream = livestreamOf livestreamModel owner tags.
Proof.
  intros H joins.
  pose proof (keeps_fillLivestreamResponse_committed _ _ _ _ H) as Hcommitted.
  apply fillLivestreamResponse_ok in H. cbv zeta in H. fold joins in H.
  destruct H as (Hview & _ & _ & Hissued & um & others & owner & found & _ & _ & Hall & ->).
  split; [exact Hissued |]. split.
  - rewrite Hissued, length_app. simpl. rewrite length_map. lia.
  - split; [exact Hview |]. split; [exact Hcommitted |]. split.
    + simpl. exact (tagOf_ids _ _ _ Hall).
    + exists owner, found. reflexivity.
Qed.

(** X5. Where the bulk composer succeeds, its map is the map of the
    results of the single-row composer: on a database that fails no
    statement, with one row per tag id, user composers that agree with
    each other and a batch without repeated ids, the entry filed under
    the id of a row of the batch is the livestream
    [fillLivestreamResponse] returns for that row in the same
    transaction, and the map has no other entries. *)
Theorem bulk_entry_is_single_result
    (livestreamModels : list LivestreamModel.t) (tx tx' : Tx UserModel)
    (m : gmap Z (Livestream.t User)) :
  neverFails tx ->
  NoDup (map TagModel.ID (tags (view tx))) ->
  userComposersAgree (view tx) ->
  NoDup (map LivestreamModel.ID livestreamModels) ->
  fillLivestreamResponseBulk livestreamModels tx = (Ok m, tx') ->
  (forall livestreamModel, In livestreamModel livestreamModels ->
     exists livestream,
       m !! LivestreamModel.ID livestreamModel = Some livestream
       /\ fst (fillLivestreamResponse livestreamModel tx) = Ok livestream)
  /\ (forall k livestream, m !! k = Some livestream ->
        exists livestreamModel,
          In livestreamModel livestreamModels
          /\ LivestreamModel.ID livestreamModel = k
          /\ fst (fillLivestreamResponse livestreamModel tx) = Ok livestream).
Proof.
  intros Hnever Htags Hagree Hbatch Hbulk.
  assert (Hsame : forall a b, In a livestreamModels -> In b livestreamModels ->
            LivestreamModel.ID b = LivestreamModel.ID a -> b = a).
  { clear - Hbatch. induction livestreamModels as [| x rest IH]; intros a b Ha Hb Hid;
      [destruct Ha |].
    simpl in Hbatch. inversion Hbatch as [| ? ? Hnotin Hrest]; subst.
    destruct Ha as [-> | Ha], Hb as [-> | Hb].
    - reflexivity.
    - exfalso. apply Hnotin. rewrite <- Hid. apply list_elem_of_In, in_map, Hb.
    - exfalso. apply Hnotin. rewrite Hid. apply list_elem_of_In, in_map, Ha.
    - exact (IH Hrest a b Ha Hb Hid). }
  assert (Hrows : forall livestreamModel, In livestreamModel livestreamModels ->
            exists livestream,
              m !! LivestreamModel.ID livestreamModel = Some livestream
              /\ fst (fillLivestreamResponse livestreamModel tx) = Ok livestream).
  { intros row Hrow.
    apply (bulk_agrees_with_single livestreamModels tx m tx' row Hnever Htags Hagree Hbulk Hrow).
    intros other Hother Hid. exact (Hsame row other Hrow Hother Hid). }
  split; [exact Hrows |].
  intros k livestream Hentry.
  destruct (fillLivestreamResponseBulk_entries _ _ _ _ Hbulk) as (_ & Hfrom).
  destruct (Hfrom _ _ Hentry) as (row & _ & _ & Hrow & Hid & _).
  destruct (Hrows row Hrow) as (found & Hfound & Hsingle).
  exists row. split; [exact Hrow |]. split; [exact Hid |].
  rewrite Hid, Hentry in Hfound. injection Hfound as <-. exact Hsingle.
Qed.

(** X6. A batch that is not empty and none of whose livestreams has a
    join row is never composed: the bulk composer fails, having issued
    at most the statements for the owners and for the join rows, and in
    no case the one for the tags. *)
Theorem bulk_fails_on_batch_without_tags
    (livestreamModels : list LivestreamModel.t) (tx : Tx UserModel) :
  livestreamModels <> [] ->
  joinsOf livestreamModels (view tx) = [] ->
  let run := fillLivestreamResponseBulk livestreamModels tx in
  is_ok (fst run) = false
  /\ (exists k,
        (k <= 2)%nat
        /\ issued (snd run)
           = issued tx
             ++ firstn k
                  [SelectUsersIn (map LivestreamModel.UserID livestreamModels);
                   SelectLivestreamTagsIn (map LivestreamModel.ID livestreamModels)])
  /\ (failsNext tx = false ->
      failsNext (after (SelectUsersIn (map LivestreamModel.UserID livestreamModels)) tx)
      = false ->
      is_ok (fillUserResponseBulk (view tx)
               (users_where_id_in (map LivestreamModel.UserID livestreamModels) (view tx)))
      = true ->
      fst run = Err (Wrap "failed to build tag query: %w" ErrEmptySlice)).
Proof.
  intros Hrows Hjoins run. subst run.
  destruct livestreamModels as [| lm rest]; [congruence |].
  rewrite fillLivestreamResponseBulk_eq. cbv zeta. rewrite Hjoins. cbn [map].
  destruct (failsNext tx).
  { split; [reflexivity |]. split; [| discriminate].
    exists 1%nat. split; [lia | reflexivity]. }
  destruct (fillUserResponseBulk _ _).
  2: { split; [reflexivity |]. split; [| discriminate].
       exists 1%nat. split; [lia | reflexivity]. }
  destruct (failsNext (after _ tx)).
  { split; [reflexivity |]. split; [| discriminate].
    exists 2%nat. split; [lia |]. simpl. rewrite <- app_assoc. reflexivity. }
  split; [reflexivity |]. split; [| reflexivity].
  exists 2%nat. split; [lia |]. simpl. rewrite <- app_assoc. reflexivity.
Qed.

(** X7. The map the bulk composer returns has an entry for every row
    of the batch and for nothing else, and the entry under an id is
    built from a row of the batch with that id; so that rows sharing an
    id share one entry, and the map has at most as many entries as the
    batch has rows. *)
Theorem bulk_map_keys
    (livestreamModels : list LivestreamModel.t) (tx tx' : Tx UserModel)
    (m : gmap Z (Livestream.t User)) :
  fillLivestreamResponseBulk livestreamModels tx = (Ok m, tx') ->
  (forall k, is_Some (m !! k) <-> In k (map LivestreamModel.ID livestreamModels))
  /\ (forall k livestream, m !! k = Some livestream ->
        Livestream.ID livestream = k
        /\ exists livestreamModel owner tags,
             In livestreamModel livestreamModels
             /\ LivestreamModel.ID livestreamModel = k
             /\ livestream = livestreamOf livestreamModel owner tags)
  /\ (size m <= length livestreamModels)%nat.
Proof.
  intros H. apply fillLivestreamResponseBulk_entries in H as (Hin & Hfrom).
  assert (Hkeys : forall k, is_Some (m !! k) <-> In k (map LivestreamModel.ID livestreamModels)).
  { intros k. split.
    - intros (entry & Hentry). apply Hfrom in Hentry as (lm & _ & _ & Hlm & <- & _).
      apply in_map. exact Hlm.
    - intros Hk. apply in_map_iff in Hk as (lm & <- & Hlm). exact (Hin lm Hlm). }
  split; [exact Hkeys |]. split.
  - intros k entry Hentry. apply Hfrom in Hentry as (lm & owner & tags & Hlm & Hid & ->).
    split; [exact Hid |]. exists lm, owner, tags. auto.
  - rewrite <- (length_map LivestreamModel.ID livestreamModels).
    assert (Hsub : dom m ⊆ list_to_set (C := gset Z) (map LivestreamModel.ID livestreamModels)).
    { intros k Hk. apply elem_of_dom in Hk. apply Hkeys in Hk.
      apply elem_of_list_to_set, list_elem_of_In. exact Hk. }
    rewrite <- size_dom. etransitivity; [apply subseteq_size, Hsub |].
    generalize (map LivestreamModel.ID livestreamModels) as ids.
    induction ids as [| k ids IH].
    + rewrite list_to_set_nil, size_empty. simpl. lia.
    + rewrite list_to_set_cons, size_union_alt, size_singleton.
      assert (Hdiff : list_to_set (C := gset Z) ids ∖ {[k]} ⊆ list_to_set ids)
        by (apply subseteq_difference_l; reflexivity).
      apply subseteq_size in Hdiff. simpl. lia.
Qed.

(** What step 4 of [fillReactionResponseBulk] needs: every row finds
    its livestream in the map. *)
Lemma buildReactions_found userMap livestreamMap reactionModels reactions rm :
  buildReactions userMap livestreamMap reactionModels = Ok reactions ->
  In rm reactionModels ->
  is_Some (userMap !! ReactionModel.UserID rm)
  /\ is_Some (livestreamMap !! ReactionModel.LivestreamID rm).
Proof.
  revert reactions. induction reactionModels as [| x rest IH]; intros reactions H Hin;
    [destruct Hin |].
  simpl in H.
  destruct (userMap !! ReactionModel.UserID x) as [user |] eqn:Hu; [| discriminate].
  destruct (livestreamMap !! ReactionModel.LivestreamID x) as [entry |] eqn:Hentry; [| discriminate].
  destruct (buildReactions userMap livestreamMap rest) as [rs |] eqn:Hrest; [| discriminate].
  destruct Hin as [<- | Hin].
  - rewrite Hu, Hentry. split; eexists; reflexivity.
  - exact (IH rs eq_refl Hin).
Qed.

(** X8. The bulk composer of reactions returns no partial list: when a
    row of the batch refers to a livestream of which the table has no
    row, the call as a whole fails. *)
Theorem reactions_fail_on_missing_livestream
    (reactionModels : list ReactionModel.t) (tx : Tx UserModel) (reactionModel : ReactionModel.t) :
  In reactionModel reactionModels ->
  (forall row, In row (livestreams (view tx)) ->
     LivestreamModel.ID row <> ReactionModel.LivestreamID reactionModel) ->
  is_ok (fst (fillReactionResponseBulk reactionModels tx)) = false.
Proof.
  intros Hin Hnone. destruct reactionModels as [| rm0 rest]; [destruct Hin |].
  rewrite fillReactionResponseBulk_eq. cbv zeta.
  destruct (reactionLookups (rm0 :: rest) tx) as [[[userMap livestreamMap] | e] tx'] eqn:Hlookups;
    [| reflexivity].
  cbn [fst snd].
  destruct (buildReactions userMap livestreamMap (rm0 :: rest)) as [reactions |] eqn:Hbuild;
    [| reflexivity].
  exfalso.
  destruct (buildReactions_found _ _ _ _ _ Hbuild Hin) as (_ & entry & Hentry).
  rewrite reactionLookups_eq in Hlookups. cbv zeta in Hlookups.
  destruct (failsNext tx); [discriminate |].
  destruct (fillUserResponseBulk _ _); [| discriminate].
  destruct (failsNext _); [discriminate |].
  destruct (fillLivestreamResponseBulk _ _) as [[m | e] tx''] eqn:Hbulk; [| discriminate].
  injection Hlookups as _ <- _.
  apply fillLivestreamResponseBulk_entries in Hbulk as (_ & Hfrom).
  apply Hfrom in Hentry as (lm & _ & _ & Hlm & Hid & _).
  unfold livestreams_where_id_in in Hlm. apply filter_In in Hlm as [Hrow _].
  exact (Hnone lm Hrow Hid).
Qed.

End ComposersFurther.

(** X4, witness: livestream 7 carries two tags, four statements. *)
Lemma single_composer_statements_witness :
  let tx := Sample.transaction Sample.catalogue in
  exists livestream tx',
    fillLivestreamResponse (UH := Sample.handler) (Sample.stream 7 1) tx = (Ok livestream, tx')
    /\ issued tx'
       = [SelectUserByID 1; SelectLivestreamTagsByLivestreamID 7; SelectTagByID 1;
          SelectTagByID 2].
Proof.
  cbv zeta.
  destruct (fillLivestreamResponse (UH := Sample.handler) (Sample.stream 7 1)
              (Sample.transaction Sample.catalogue)) as [[livestream | e] tx'] eqn:H.
  - exists livestream, tx'. split; [reflexivity |].
    exact (proj1 (single_composer_statements (UH := Sample.handler) (Sample.stream 7 1)
                    (Sample.transaction Sample.catalogue) tx' livestream H)).
  - vm_compute in H. discriminate.
Defined.

(** X5, witness: the untagged livestream 9 in a batch with tagged ones. *)
Lemma bulk_entry_is_single_result_witness :
  let tx := Sample.transaction Sample.catalogue in
  let batch := [Sample.stream 7 1; Sample.stream 8 1; Sample.stream 9 2] in
  exists m livestream,
    fst (fillLivestreamResponseBulk (UH := Sample.handler) batch tx) = Ok m
    /\ m !! 9 = Some livestream
    /\ fst (fillLivestreamResponse (UH := Sample.handler) (Sample.stream 9 2) tx) = Ok livestream.
Proof.
  cbv zeta.
  destruct (fillLivestreamResponseBulk (UH := Sample.handler)
              [Sample.stream 7 1; Sample.stream 8 1; Sample.stream 9 2]
              (Sample.transaction Sample.catalogue)) as [[m | e] tx'] eqn:Hbulk.
  - destruct (bulk_entry_is_single_result (UH := Sample.handler)
                [Sample.stream 7 1; Sample.stream 8 1; Sample.stream 9 2]
                (Sample.transaction Sample.catalogue) tx' m
                (fun _ => eq_refl)) as (Hrows & _).
    + simpl. repeat constructor; rewrite list_elem_of_In; simpl; intuition discriminate.
    + exact sample_userComposersAgree.
    + simpl. repeat constructor; rewrite list_elem_of_In; simpl; intuition discriminate.
    + exact Hbulk.
    + destruct (Hrows (Sample.stream 9 2)) as (livestream & Hentry & Hsingle);
        [simpl; auto |].
      exists m, livestream. auto.
  - vm_compute in Hbulk. discriminate.
Defined.

(** X6, witness: the batch of livestream 9 alone. *)
Lemma bulk_fails_on_batch_without_tags_witness :
  fst (fillLivestreamResponseBulk (UH := Sample.handler) [Sample.stream 9 2]
         (Sample.transaction Sample.catalogue))
  = Err (Wrap "failed to build tag query: %w" ErrEmptySlice).
Proof.
  refine (proj2 (proj2 (bulk_fails_on_batch_without_tags (UH := Sample.handler)
                          [Sample.stream 9 2] (Sample.transaction Sample.catalogue) _ _))
            _ _ _);
    [discriminate | reflexivity | reflexivity | reflexivity | reflexivity].
Defined.

(** X7, witness: livestream 7 twice and livestream 8 give two entries. *)
Lemma bulk_map_keys_witness :
  let batch := [Sample.stream 7 1; Sample.stream 8 1; Sample.stream 7 1] in
  exists m,
    fst (fillLivestreamResponseBulk (UH := Sample.handler) batch
           (Sample.transaction Sample.catalogue)) = Ok m
    /\ (size m <= 3)%nat
    /\ is_Some (m !! 7) /\ is_Some (m !! 8).
Proof.
  cbv zeta.
  destruct (fillLivestreamResponseBulk (UH := Sample.handler)
              [Sample.stream 7 1; Sample.stream 8 1; Sample.stream 7 1]
              (Sample.transaction Sample.catalogue)) as [[m | e] tx'] eqn:Hbulk.
  - destruct (bulk_map_keys (UH := Sample.handler) _ _ _ _ Hbulk) as (Hkeys & _ & Hsize).
    exists m. split; [reflexivity |]. split; [exact Hsize |].
    split; apply Hkeys; simpl; auto.
  - vm_compute in Hbulk. discriminate.
Defined.

(** X8, witness: a reaction on livestream 7 and one on livestream 42,
    of which there is no row. *)
Lemma reactions_fail_on_missing_livestream_witness :
  is_ok (fst (fillReactionResponseBulk (UH := Sample.handler)
                [Sample.reaction 1 2 7; Sample.reaction 2 1 42]
                (Sample.transaction Sample.catalogue)))
  = false.
Proof.
  apply (reactions_fail_on_missing_livestream (UH := Sample.handler) _ _
           (Sample.reaction 2 1 42)).
  - right. left. reflexivity.
  - intros row [<- | [<- | [<- | []]]]; discriminate.
Defined.

(** * The other handlers: runs in a session *)

Section MonadRuns.
Context {S E : Type}.

Lemma bind_ok {A B} (c : M S E A) (k : A -> M S E B) s a s' :
  c s = (Ok a, s') -> bind c k s = k a s'.
Proof. unfold bind. intros ->. reflexivity. Qed.

Lemma bind_cases {A B} (c : M S E A) (k : A -> M S E B) s r s' :
  bind c k s = (r, s') ->
  (exists a s1, c s = (Ok a, s1) /\ k a s1 = (r, s'))
  \/ (exists e, c s = (Err e, s') /\ r = Err e).
Proof.
  unfold bind. destruct (c s) as [[a | e] s1]; intros H.
  - left. eauto.
  - right. inversion H; subst. eauto.
Qed.

Lemma mapErr_cases {F A} (f : E -> F) (c : M S E A) s r s' :
  mapErr f c s = (r, s') ->
  (exists a, c s = (Ok a, s') /\ r = Ok a) \/ (exists e, c s = (Err e, s') /\ r = Err (f e)).
Proof.
  unfold mapErr. destruct (c s) as [[a | e] s1]; intros H; inversion H; subst; eauto.
Qed.

End MonadRuns.

Section SessionRuns.
Context `{P : Package}.

Definition fresh (plan : nat -> bool) (site : SITE) : Session UserModel LivecommentReportModel :=
  mkSession site false [] plan.

(** Whether the database fails the next statement of the session. *)
Definition nextFails (s : Session UserModel LivecommentReportModel) : bool :=
  plan s (length (statements s)).

(** The session once one more statement is issued. *)
Definition next (q : Statement) (s : Session UserModel LivecommentReportModel)
  : Session UserModel LivecommentReportModel :=
  mkSession (current s) (finished s) (statements s ++ [q]) (plan s).

Lemma site_eta (S : SITE) :
  mkSite
    (mkDatabase (tables (database S)) (next_livestream_id (database S))
       (next_livestream_tag_id (database S)))
    (reactions S) (next_reaction_id S) (livestream_viewers_history S) (livecomment_reports S)
  = S.
Proof. destruct S as [[T a b] r n v l]. reflexivity. Qed.

Lemma session_eta (s : Session UserModel LivecommentReportModel) :
  mkSession (current s) (finished s) (statements s) (plan s) = s.
Proof. destruct s. reflexivity. Qed.

Lemma failsNext_txOf s : failsNext (txOf s) = nextFails s.
Proof. unfold failsNext, nextFails, txOf. simpl. rewrite Nat.add_0_r. reflexivity. Qed.

Lemma issue_eq q s : issue q s = (if nextFails s then Err ErrStorage else Ok tt, next q s).
Proof. reflexivity. Qed.

Lemma SelectRows_eq {A} q (rows : SITE -> result error (list A)) s :
  SelectRows q rows s
  = (if nextFails s then Err ErrStorage else rows (current s), next q s).
Proof. unfold SelectRows, bind. rewrite issue_eq. destruct (nextFails s); reflexivity. Qed.

Lemma GetRow_eq {A} q (rows : SITE -> list A) s :
  GetRow q rows s
  = (if nextFails s then Err ErrStorage
     else match rows (current s) with
          | [] => Err ErrNoRows
          | r :: _ => Ok r
          end,
     next q s).
Proof.
  unfold GetRow, bind. rewrite SelectRows_eq.
  destruct (nextFails s); [reflexivity |]. destruct (rows (current s)); reflexivity.
Qed.

Lemma ExecStatement_eq q change s :
  ExecStatement q change s
  = if nextFails s then (Err ErrStorage, next q s)
    else (Ok tt, mkSession (change (current s)) (finished s) (statements s ++ [q]) (plan s)).
Proof. unfold ExecStatement, bind. rewrite issue_eq. destruct (nextFails s); reflexivity. Qed.

Lemma BeginTxx_eq s :
  BeginTxx s
  = (if nextFails s
     then Err (NewHTTPError StatusInternalServerError
                 (TextErr "failed to begin transaction: " ErrStorage))
     else Ok tt,
     next (Issued Begin) s).
Proof.
  unfold BeginTxx, withStatus, mapErr, inTx. rewrite exec_eq, failsNext_txOf.
  unfold sessionOf, next. simpl. rewrite site_eta, orb_false_r.
  destruct (nextFails s); reflexivity.
Qed.

Lemma CommitTx_eq s :
  CommitTx s
  = if nextFails s
    then (Err (NewHTTPError StatusInternalServerError (TextErr "failed to commit: " ErrStorage)),
          next (Issued Commit) s)
    else (Ok tt, mkSession (current s) true (statements s ++ [Issued Commit]) (plan s)).
Proof.
  unfold CommitTx, withStatus, mapErr, inTx. rewrite exec_eq, failsNext_txOf.
  unfold sessionOf, next, after, exec. simpl. rewrite site_eta, Nat.add_0_r.
  fold (nextFails s). destruct (nextFails s); simpl.
  - rewrite orb_false_r. reflexivity.
  - rewrite orb_true_r. reflexivity.
Qed.

(** The rows and the counters of a transaction. *)
Definition stored (tx : Tx UserModel) : DB * Z * Z :=
  (view tx, livestreams_seq tx, livestream_tags_seq tx).

(** A call that leaves rows, counters and the commit state alone only
    adds its statements to the session. *)
Lemma inTx_reading {E A} (c : TxM E A) s r tx' :
  c (txOf s) = (r, tx') ->
  stored tx' = stored (txOf s) ->
  committed tx' = committed (txOf s) ->
  inTx c s
  = (r, mkSession (current s) (finished s) (statements s ++ map Issued (issued tx')) (plan s)).
Proof.
  intros H Hstored Hcommitted. unfold inTx. rewrite H. unfold sessionOf.
  injection Hstored as -> -> ->. rewrite Hcommitted. simpl. rewrite site_eta. reflexivity.
Qed.

Lemma keeps_stored_SelectContext {A} q (rows : DB -> list A) : keeps stored (SelectContext q rows).
Proof. intros tx r tx'. rewrite SelectContext_eq. intros [= _ <-]. reflexivity. Qed.

Lemma keeps_stored_GetContext {A} q (rows : DB -> list A) : keeps stored (GetContext q rows).
Proof. intros tx r tx'. rewrite GetContext_eq. intros [= _ <-]. reflexivity. Qed.

Lemma keeps_stored_fetchTags lts : keeps stored (fetchTags lts).
Proof.
  induction lts as [| lt lts IH]; simpl; [apply keeps_ret |].
  apply keeps_bind; [apply keeps_stored_GetContext |].
  intros tm. apply keeps_bind; [exact IH |]. intros found. apply keeps_ret.
Qed.

Lemma keeps_stored_fillLivestreamResponse lm : keeps stored (fillLivestreamResponse lm).
Proof.
  unfold fillLivestreamResponse.
  repeat first
    [ apply keeps_ret
    | apply keeps_stored_GetContext
    | apply keeps_stored_SelectContext
    | apply keeps_callFillUserResponse
    | apply keeps_stored_fetchTags
    | apply keeps_bind; [| intros ?] ].
Qed.

Lemma keeps_stored_fillLivestreamResponseBulk lms : keeps stored (fillLivestreamResponseBulk lms).
Proof.
  unfold fillLivestreamResponseBulk. destruct lms as [| lm rest]; [apply keeps_ret |].
  repeat first
    [ apply keeps_ret
    | apply keeps_lift
    | apply keeps_stored_SelectContext
    | apply keeps_callFillUserResponseBulk
    | apply keeps_mapErr
    | apply keeps_bind; [| intros ?] ].
Qed.

Lemma keeps_stored_fillReactionResponseBulk rms : keeps stored (fillReactionResponseBulk rms).
Proof.
  unfold fillReactionResponseBulk, reactionLookups. destruct rms as [| rm rest];
    [apply keeps_ret |].
  repeat first
    [ apply keeps_ret
    | apply keeps_lift
    | apply keeps_stored_SelectContext
    | apply keeps_callFillUserResponseBulk
    | apply keeps_stored_fillLivestreamResponseBulk
    | apply keeps_mapErr
    | apply keeps_bind; [| intros ?] ].
Qed.

(** ** Handlers that only read *)

(** A computation that leaves the rows and counters of the session as
    they are. *)
Definition steady {E A} (c : SessM E A) : Prop :=
  forall s r s', c s = (r, s') -> current s' = current s.

Lemma steady_ret {E A} (a : A) : steady (ret (E := E) a).
Proof. intros s r s' H. inversion H; subst. reflexivity. Qed.

Lemma steady_fail {E A} (e : E) : steady (fail (A := A) e).
Proof. intros s r s' H. inversion H; subst. reflexivity. Qed.

Lemma steady_lift {E A} (r : result E A) : steady (lift r).
Proof. intros s r' s' H. inversion H; subst. reflexivity. Qed.

Lemma steady_bind {E A B} (c : SessM E A) (k : A -> SessM E B) :
  steady c -> (forall a, steady (k a)) -> steady (bind c k).
Proof.
  intros Hc Hk s r s' H.
  apply bind_cases in H as [(a & s1 & H1 & H2) | (e & H1 & _)].
  - rewrite (Hk _ _ _ _ H2). exact (Hc _ _ _ H1).
  - exact (Hc _ _ _ H1).
Qed.

Lemma steady_mapErr {E F A} (f : E -> F) (c : SessM E A) : steady c -> steady (mapErr f c).
Proof.
  intros Hc s r s' H.
  apply mapErr_cases in H as [(a & H & _) | (e & H & _)]; exact (Hc _ _ _ H).
Qed.

Lemma steady_withStatus {A} code message (c : SessM error A) :
  steady c -> steady (withStatus code message c).
Proof. apply steady_mapErr. Qed.

Lemma steady_if {E A} (b : bool) (c d : SessM E A) :
  steady c -> steady d -> steady (if b then c else d).
Proof. destruct b; auto. Qed.

Lemma steady_inTx {E A} (c : TxM E A) : keeps stored c -> steady (inTx c).
Proof.
  intros Hc s r s' H. unfold inTx in H.
  destruct (c (txOf s)) as [r' tx'] eqn:Hrun. inversion H; subst r' s'; clear H.
  apply Hc in Hrun. injection Hrun as Hv Hl Ht. unfold sessionOf. simpl.
  rewrite Hv, Hl, Ht. simpl. apply site_eta.
Qed.

Lemma steady_SelectRows {A} q (rows : SITE -> result error (list A)) : steady (SelectRows q rows).
Proof. intros s r s'. rewrite SelectRows_eq. intros [= _ <-]. reflexivity. Qed.

Lemma steady_GetRow {A} q (rows : SITE -> list A) : steady (GetRow q rows).
Proof. intros s r s'. rewrite GetRow_eq. intros [= _ <-]. reflexivity. Qed.

Lemma steady_BeginTxx : steady BeginTxx.
Proof. intros s r s'. rewrite BeginTxx_eq. intros [= _ <-]. reflexivity. Qed.

Lemma steady_CommitTx : steady CommitTx.
Proof.
  intros s r s'. rewrite CommitTx_eq. destruct (nextFails s); intros [= _ <-]; reflexivity.
Qed.

Lemma steady_callFillLivecommentReportResponse reportModel :
  steady (callFillLivecommentReportResponse reportModel).
Proof. intros s r s' H. inversion H; subst. reflexivity. Qed.

Ltac steadily :=
  repeat first
    [ apply steady_ret
    | apply steady_fail
    | apply steady_lift
    | apply steady_BeginTxx
    | apply steady_CommitTx
    | apply steady_SelectRows
    | apply steady_GetRow
    | apply steady_callFillLivecommentReportResponse
    | apply steady_inTx;
      first [ apply keeps_stored_fillLivestreamResponse
            | apply keeps_stored_fillLivestreamResponseBulk
            | apply keeps_stored_fillReactionResponseBulk ]
    | apply steady_withStatus
    | apply steady_mapErr
    | assumption
    | apply steady_if
    | apply steady_bind; [| intros ?] ].

Lemma steady_fetchLivestreams rows : steady (fetchLivestreams rows).
Proof. induction rows as [| row rows IH]; simpl; steadily. Qed.

Lemma steady_fillLivestreams rows : steady (fillLivestreams rows).
Proof. induction rows as [| row rows IH]; simpl; steadily. Qed.

Lemma steady_fillReports rows : steady (fillReports rows).
Proof. induction rows as [| row rows IH]; simpl; steadily. Qed.

Lemma steady_serve {A} (handler : SessM HTTPError A) plan site :
  steady handler -> snd (serve handler plan site) = site.
Proof.
  intros Hsteady. unfold serve.
  destruct (handler (mkSession site false [] plan)) as [r s] eqn:H.
  apply Hsteady in H. simpl in H. simpl.
  destruct (finished s); [exact H |].
  unfold restored. rewrite H. apply site_eta.
Qed.

Lemma serve_eq {A} (handler : SessM HTTPError A) plan site r s :
  handler (fresh plan site) = (r, s) ->
  serve handler plan site = (r, if finished s then current s else restored site s).
Proof. unfold serve, fresh. intros ->. reflexivity. Qed.

(** X9. The handlers that answer GET requests leave every table and
    every counter as they found them, whatever their arguments and
    whichever statements the database fails: the one livestream, the
    search, the livestreams of the session's user and of a named user,
    the livecomment reports and the reactions. *)
Theorem reading_handlers_change_nothing
    (userID : Z) (livestream_id tag limit username : string) (plan : nat -> bool) (site : SITE) :
  snd (serve (getLivestreamHandler livestream_id) plan site) = site
  /\ snd (serve (searchLivestreamsHandler tag limit) plan site) = site
  /\ snd (serve (getMyLivestreamsHandler userID) plan site) = site
  /\ snd (serve (getUserLivestreamsHandler username) plan site) = site
  /\ snd (serve (getLivecommentReportsHandler userID livestream_id) plan site) = site
  /\ snd (serve (getReactionsHandler livestream_id limit) plan site) = site.
Proof.
  repeat split; apply steady_serve.
  - unfold getLivestreamHandler. destruct (strconv.Atoi livestream_id); steadily.
  - unfold searchLivestreamsHandler. steadily. apply steady_fetchLivestreams.
  - unfold getMyLivestreamsHandler. steadily. apply steady_fillLivestreams.
  - unfold getUserLivestreamsHandler. steadily. apply steady_fillLivestreams.
  - unfold getLivecommentReportsHandler. destruct (strconv.Atoi livestream_id); steadily.
    apply steady_fillReports.
  - unfold getReactionsHandler. destruct (strconv.Atoi livestream_id); steadily.
Qed.

End SessionRuns.

(** * Properties of the other handlers *)

Section OtherHandlers.
Context `{P : Package}.

Lemma begun_session plan site :
  plan 0%nat = false ->
  BeginTxx (fresh plan site) = (Ok tt, next (Issued Begin) (fresh plan site)).
Proof. intros H. rewrite BeginTxx_eq. unfold nextFails. simpl. rewrite H. reflexivity. Qed.

(** The run of the single-row composer inside a session. *)
Lemma inTx_fillLivestreamResponse livestreamModel s :
  exists r tx',
    fillLivestreamResponse livestreamModel (txOf s) = (r, tx')
    /\ inTx (fillLivestreamResponse livestreamModel) s
       = (r, mkSession (current s) (finished s) (statements s ++ map Issued (issued tx'))
               (plan s)).
Proof.
  destruct (fillLivestreamResponse livestreamModel (txOf s)) as [r tx'] eqn:H.
  exists r, tx'. split; [reflexivity |].
  apply (inTx_reading _ _ _ _ H).
  - exact (keeps_stored_fillLivestreamResponse _ _ _ _ H).
  - exact (keeps_fillLivestreamResponse_committed _ _ _ _ H).
Qed.

(** X10. [getLivestreamHandler], for a path parameter that is a number
    and once the transaction has begun and the livestream is looked up
    without a failure of the database: the answer is 404 exactly when
    no livestream has the id; and an answer 200 carries the first row
    with that id, composed with its owner and with one tag per join row
    of the livestream, in the order of the join rows. *)
Theorem get_livestream_answers
    (livestream_id : string) (livestreamID : Z) (plan : nat -> bool) (site : SITE) :
  strconv.Atoi livestream_id = Some livestreamID ->
  plan 0%nat = false ->
  plan 1%nat = false ->
  let response := fst (serve (getLivestreamHandler livestream_id) plan site) in
  (response
   = Err (NewHTTPError StatusNotFound (Text "not found livestream that has the given id"))
   <-> livestreams_where_id livestreamID site = [])
  /\ (forall livestream, response = Ok livestream ->
        exists row others owner tags,
          livestreams_where_id livestreamID site = row :: others
          /\ livestream = livestreamOf row owner tags
          /\ Livestream.ID livestream = livestreamID
          /\ map Tag.ID tags
             = map LivestreamTagModel.TagID
                 (livestream_tags_where_livestream_id livestreamID (rowsOf site))).
Proof.
  intros Hatoi Hbegin Hselect response. subst response.
  destruct (getLivestreamHandler livestream_id (fresh plan site)) as [r s] eqn:Hrun.
  rewrite (serve_eq _ _ _ _ _ Hrun). cbn [fst].
  unfold getLivestreamHandler in Hrun. rewrite Hatoi in Hrun.
  rewrite (bind_ok _ _ _ _ _ (begun_session plan site Hbegin)) in Hrun.
  unfold bind at 1, mapErr at 1 in Hrun. rewrite GetRow_eq in Hrun.
  replace (nextFails (next (Issued Begin) (fresh plan site))) with false in Hrun
    by (symmetry; exact Hselect).
  change (current (next (Issued Begin) (fresh plan site))) with site in Hrun.
  destruct (livestreams_where_id livestreamID site) as [| row others] eqn:Hrows.
  - injection Hrun as <- _. split; [tauto |]. intros livestream H. discriminate.
  - assert (Hid : LivestreamModel.ID row = livestreamID).
    { assert (Hin : In row (livestreams_where_id livestreamID site))
        by (rewrite Hrows; left; reflexivity).
      unfold livestreams_where_id in Hin. apply filter_In in Hin as [_ Hid].
      apply Z.eqb_eq in Hid. exact Hid. }
    set (s2 := next (SelectLivestreamByID livestreamID) _) in Hrun.
    destruct (inTx_fillLivestreamResponse row s2) as (r' & tx' & Hfill & Hin).
    unfold bind at 1, withStatus at 1, mapErr at 1 in Hrun. rewrite Hin in Hrun.
    destruct r' as [livestream | e].
    + apply fillLivestreamResponse_ok in Hfill. cbv zeta in Hfill.
      destruct Hfill as (_ & _ & _ & _ & um & us & owner & found & _ & _ & Hall & ->).
      unfold bind at 1 in Hrun. rewrite CommitTx_eq in Hrun.
      match type of Hrun with context [nextFails ?s0] => destruct (nextFails s0) end;
        injection Hrun as <- _.
      * split; [split; discriminate |]. intros livestream H. discriminate.
      * split; [split; discriminate |]. intros livestream [= <-].
        exists row, others, owner, found. split; [reflexivity |]. split; [reflexivity |].
        split; [exact Hid |]. rewrite <- Hid. exact (tagOf_ids _ _ _ Hall).
    + injection Hrun as <- _. split; [split; discriminate |].
      intros livestream H. discriminate.
Qed.

(** The statements of one call of [fillLivestreamResponse] that
    succeeds. *)
Definition composerStatements (T : DB) (row : LivestreamModel.t) : list Statement :=
  map Issued
    (SelectUserByID (LivestreamModel.UserID row)
     :: SelectLivestreamTagsByLivestreamID (LivestreamModel.ID row)
     :: map (fun lt => SelectTagByID (LivestreamTagModel.TagID lt))
          (livestream_tags_where_livestream_id (LivestreamModel.ID row) T)).

(** A row composed by [fillLivestreamResponse]. *)
Definition composedFrom (T : DB) (row : LivestreamModel.t) (livestream : Livestream.t User)
  : Prop :=
  exists owner tags,
    livestream = livestreamOf row owner tags
    /\ map Tag.ID tags
       = map LivestreamTagModel.TagID
           (livestream_tags_where_livestream_id (LivestreamModel.ID row) T).

Lemma inTx_fillLivestreamResponse_ok row s livestream s' :
  inTx (fillLivestreamResponse row) s = (Ok livestream, s') ->
  s' = mkSession (current s) (finished s)
         (statements s ++ composerStatements (rowsOf (current s)) row) (plan s)
  /\ composedFrom (rowsOf (current s)) row livestream.
Proof.
  intros H. destruct (inTx_fillLivestreamResponse row s) as (r & tx' & Hfill & Hin).
  rewrite Hin in H. injection H as -> <-.
  apply fillLivestreamResponse_ok in Hfill. cbv zeta in Hfill.
  destruct Hfill as (_ & _ & _ & Hissued & um & us & owner & found & _ & _ & Hall & ->).
  split.
  - rewrite Hissued. reflexivity.
  - exists owner, found. split; [reflexivity |]. exact (tagOf_ids _ _ _ Hall).
Qed.

Lemma fillLivestreams_ok rows s livestreams s' :
  fillLivestreams rows s = (Ok livestreams, s') ->
  s' = mkSession (current s) (finished s)
         (statements s ++ concat (map (composerStatements (rowsOf (current s))) rows)) (plan s)
  /\ Forall2 (composedFrom (rowsOf (current s))) rows livestreams.
Proof.
  revert s livestreams. induction rows as [| row rows IH]; intros s livestreams H; simpl in H.
  - injection H as <- <-. simpl. rewrite app_nil_r, session_eta. split; [reflexivity | constructor].
  - apply bind_cases in H as [(livestream & s1 & H1 & H) | (e & _ & [=])].
    apply mapErr_cases in H1 as [(a & H1 & [= <-]) | (e & _ & [=])].
    apply inTx_fillLivestreamResponse_ok in H1 as (-> & Hrow).
    apply bind_cases in H as [(rest & s2 & H2 & H) | (e & _ & [=])].
    injection H as <- <-.
    apply IH in H2 as (-> & Hrest). simpl. rewrite <- app_assoc.
    split; [reflexivity |]. constructor; assumption.
Qed.

(** Computations whose every error is an answer 500. *)
Definition serverErrors {A} (c : SessM HTTPError A) : Prop :=
  forall s e s', c s = (Err e, s') -> Code e = StatusInternalServerError.

Lemma serverErrors_ret {A} (a : A) : serverErrors (ret a).
Proof. intros s e s' H. discriminate. Qed.

Lemma serverErrors_bind {A B} (c : SessM HTTPError A) (k : A -> SessM HTTPError B) :
  serverErrors c -> (forall a, serverErrors (k a)) -> serverErrors (bind c k).
Proof.
  intros Hc Hk s e s' H.
  apply bind_cases in H as [(a & s1 & _ & H2) | (e' & H1 & [= <-])].
  - exact (Hk _ _ _ _ H2).
  - exact (Hc _ _ _ H1).
Qed.

Lemma serverErrors_withStatus {A} message (c : SessM error A) :
  serverErrors (withStatus StatusInternalServerError message c).
Proof.
  intros s e s' H. apply mapErr_cases in H as [(a & _ & [=]) | (e' & _ & [= ->])].
  reflexivity.
Qed.

Lemma serverErrors_CommitTx : serverErrors CommitTx.
Proof. apply serverErrors_withStatus. Qed.

Lemma serverErrors_fillLivestreams rows : serverErrors (fillLivestreams rows).
Proof.
  induction rows as [| row rows IH]; simpl; [apply serverErrors_ret |].
  apply serverErrors_bind; [apply serverErrors_withStatus |].
  intros livestream. apply serverErrors_bind; [exact IH |]. intros rest. apply serverErrors_ret.
Qed.

Lemma served {A} (handler : SessM HTTPError A) plan site r s :
  handler (fresh plan site) = (r, s) ->
  fst (serve handler plan site) = r /\ trace handler plan site = statements s.
Proof. unfold serve, trace, fresh. intros ->. split; reflexivity. Qed.

(** X11. An answer 200 of [getMyLivestreamsHandler] lists the
    livestreams of the session's user, one per row and in the order of
    the table, each composed by [fillLivestreamResponse]; the list is
    not nil even when it is empty. The request has then issued, between
    BEGIN and COMMIT, one statement for the rows and for every row two
    statements and one more per tag of the row. *)
Theorem my_livestreams_answer
    (userID : Z) (plan : nat -> bool) (site : SITE) (body : slice (Livestream.t User)) :
  fst (serve (getMyLivestreamsHandler userID) plan site) = Ok body ->
  let rows := livestreams_where_user_id userID site in
  let issued := trace (getMyLivestreamsHandler userID) plan site in
  exists livestreams,
    body = make_slice livestreams
    /\ Forall2 (composedFrom (rowsOf site)) rows livestreams
    /\ issued
       = Issued Begin :: SelectLivestreamsByUserID userID
         :: concat (map (composerStatements (rowsOf site)) rows) ++ [Issued Commit]
    /\ length issued
       = (3 + list_sum
                (map (fun row =>
                        2 + length (livestream_tags_where_livestream_id
                                      (LivestreamModel.ID row) (rowsOf site)))
                   rows))%nat.
Proof.
  intros H rows issued. subst issued.
  destruct (getMyLivestreamsHandler userID (fresh plan site)) as [r s] eqn:Hrun.
  destruct (served _ _ _ _ _ Hrun) as (Hr & ->). rewrite Hr in H. subst r.
  unfold getMyLivestreamsHandler in Hrun.
  apply bind_cases in Hrun as [(u & s1 & H1 & Hrun) | (e & _ & [=])].
  rewrite BeginTxx_eq in H1. destruct (nextFails (fresh plan site)); [discriminate |].
  injection H1 as _ <-.
  apply bind_cases in Hrun as [(found & s2 & H2 & Hrun) | (e & _ & [=])].
  apply mapErr_cases in H2 as [(a & H2 & [= <-]) | (e & _ & [=])].
  rewrite SelectRows_eq in H2. destruct (nextFails _); [discriminate |].
  injection H2 as <- <-.
  apply bind_cases in Hrun as [(livestreams & s3 & H3 & Hrun) | (e & _ & [=])].
  apply fillLivestreams_ok in H3 as (-> & Hall).
  apply bind_cases in Hrun as [(u' & s4 & H4 & Hrun) | (e & _ & [=])].
  rewrite CommitTx_eq in H4. destruct (nextFails _); [discriminate |].
  injection H4 as _ <-. injection Hrun as <- <-.
  exists livestreams. split; [reflexivity |]. split; [exact Hall |].
  assert (Hcount : forall found : list LivestreamModel.t,
            length (concat (map (composerStatements (rowsOf site)) found))
            = list_sum
                (map (fun row =>
                        2 + length (livestream_tags_where_livestream_id
                                      (LivestreamModel.ID row) (rowsOf site)))
                   found)%nat).
  { induction found as [| row rest IH]; [reflexivity |].
    simpl. rewrite length_app, IH. unfold composerStatements.
    rewrite length_map. simpl. rewrite length_map. reflexivity. }
  split; [reflexivity |].
  simpl. rewrite length_app, Hcount. simpl. fold rows. lia.
Qed.

(** X12. [getUserLivestreamsHandler], once the transaction has begun
    and the user is looked up without a failure of the database:
    the answer is 404 exactly when no user has the name; and an answer
    200 lists the livestreams of the first user with that name, one per
    row and in the order of the table. *)
Theorem user_livestreams_answer
    (username : string) (plan : nat -> bool) (site : SITE) :
  plan 0%nat = false ->
  plan 1%nat = false ->
  let response := fst (serve (getUserLivestreamsHandler username) plan site) in
  (response = Err (NewHTTPError StatusNotFound (Text "user not found"))
   <-> users_where_name username site = [])
  /\ (forall body, response = Ok body ->
        exists user others livestreams,
          users_where_name username site = user :: others
          /\ body = make_slice livestreams
          /\ Forall2 (composedFrom (rowsOf site))
               (livestreams_where_user_id (UserModel_ID user) site) livestreams).
Proof.
  intros Hbegin Hselect response. subst response.
  destruct (getUserLivestreamsHandler username (fresh plan site)) as [r s] eqn:Hrun.
  destruct (served _ _ _ _ _ Hrun) as (-> & _).
  unfold getUserLivestreamsHandler in Hrun.
  rewrite (bind_ok _ _ _ _ _ (begun_session plan site Hbegin)) in Hrun.
  unfold bind at 1, mapErr at 1 in Hrun. rewrite GetRow_eq in Hrun.
  replace (nextFails (next (Issued Begin) (fresh plan site))) with false in Hrun
    by (symmetry; exact Hselect).
  change (current (next (Issued Begin) (fresh plan site))) with site in Hrun.
  destruct (users_where_name username site) as [| user others] eqn:Hrows.
  - injection Hrun as <- _. split; [tauto |]. intros body H. discriminate.
  - split.
    + split; [| discriminate]. intros ->. exfalso.
      assert (Hcode : Code (NewHTTPError StatusNotFound (Text "user not found"))
                      = StatusInternalServerError).
      { revert Hrun. apply serverErrors_bind; [apply serverErrors_withStatus |].
        intros found. apply serverErrors_bind; [apply serverErrors_fillLivestreams |].
        intros livestreams. apply serverErrors_bind; [apply serverErrors_CommitTx |].
        intros u. apply serverErrors_ret. }
      discriminate Hcode.
    + intros body ->.
      apply bind_cases in Hrun as [(found & s2 & H2 & Hrun) | (e & _ & [=])].
      apply mapErr_cases in H2 as [(a & H2 & [= <-]) | (e & _ & [=])].
      rewrite SelectRows_eq in H2. destruct (nextFails _); [discriminate |].
      injection H2 as <- <-.
      apply bind_cases in Hrun as [(livestreams & s3 & H3 & Hrun) | (e & _ & [=])].
      apply fillLivestreams_ok in H3 as (-> & Hall).
      apply bind_cases in Hrun as [(u' & s4 & H4 & Hrun) | (e & _ & [=])].
      injection Hrun as <- _.
      exists user, others, livestreams. split; [reflexivity |]. split; [reflexivity |].
      exact Hall.
Qed.

End OtherHandlers.

(** X10, witness: no livestream has the id 70. *)
Lemma get_livestream_answers_witness :
  strconv.Atoi "70" = Some 70
  /\ livestreams_where_id (P := Sample.package) 70 Sample.site = []
  /\ fst (serve (P := Sample.package) (getLivestreamHandler "70") Sample.noFaults Sample.site)
     = Err (NewHTTPError StatusNotFound (Text "not found livestream that has the given id")).
Proof.
  assert (Hatoi : strconv.Atoi "70" = Some 70) by reflexivity.
  assert (Hnone : livestreams_where_id (P := Sample.package) 70 Sample.site = [])
    by reflexivity.
  split; [exact Hatoi |]. split; [exact Hnone |].
  exact (proj2 (proj1 (get_livestream_answers (P := Sample.package) "70" 70 Sample.noFaults
                         Sample.site Hatoi eq_refl eq_refl)) Hnone).
Defined.

(** X11, witness: alice owns the livestreams 7 and 8, with two tags
    and one: ten statements with BEGIN and COMMIT. *)
Lemma my_livestreams_answer_witness :
  exists body,
    fst (serve (P := Sample.package) (getMyLivestreamsHandler 1) Sample.noFaults Sample.site)
    = Ok body
    /\ length (trace (P := Sample.package) (getMyLivestreamsHandler 1) Sample.noFaults
                 Sample.site)
       = 10%nat.
Proof.
  destruct (fst (serve (P := Sample.package) (getMyLivestreamsHandler 1) Sample.noFaults
                   Sample.site)) as [body | e] eqn:H.
  - exists body. split; [reflexivity |].
    destruct (my_livestreams_answer (P := Sample.package) 1 Sample.noFaults Sample.site body H)
      as (livestreams & _ & _ & _ & Hlength).
    exact Hlength.
  - vm_compute in H. discriminate.
Defined.

(** X12, witness: nobody is called carol. *)
Lemma user_livestreams_answer_witness :
  users_where_name (P := Sample.package) "carol" Sample.site = []
  /\ fst (serve (P := Sample.package) (getUserLivestreamsHandler "carol") Sample.noFaults
            Sample.site)
     = Err (NewHTTPError StatusNotFound (Text "user not found")).
Proof.
  assert (Hnone : users_where_name (P := Sample.package) "carol" Sample.site = [])
    by reflexivity.
  split; [exact Hnone |].
  exact (proj2 (proj1 (user_livestreams_answer (P := Sample.package) "carol" Sample.noFaults
                         Sample.site eq_refl eq_refl)) Hnone).
Defined.

(** * [searchLivestreamsHandler] *)

(** Keys in descending order, equal keys allowed. *)
Fixpoint descending (keys : list Z) : Prop :=
  match keys with
  | [] => True
  | key :: rest => Forall (fun later => later <= key) rest /\ descending rest
  end.

Lemma insertDesc_Permutation {A} (key : A -> Z) (x : A) (rows : list A) :
  Permutation (insertDesc key x rows) (x :: rows).
Proof.
  induction rows as [| y rest IH]; simpl; [reflexivity |].
  destruct (key y <=? key x); [reflexivity |].
  rewrite IH. apply perm_swap.
Qed.

Lemma orderByDesc_Permutation {A} (key : A -> Z) (rows : list A) :
  Permutation (orderByDesc key rows) rows.
Proof.
  induction rows as [| x rest IH]; simpl; [reflexivity |].
  rewrite insertDesc_Permutation. constructor. exact IH.
Qed.

Lemma insertDesc_descending {A} (key : A -> Z) (x : A) (rows : list A) :
  descending (map key rows) -> descending (map key (insertDesc key x rows)).
Proof.
  induction rows as [| y rest IH]; simpl; [intros _; split; [constructor | exact I] |].
  intros [Hall Hrest]. destruct (Z.leb_spec (key y) (key x)) as [Hle | Hgt]; simpl.
  - split; [| split; assumption]. constructor; [exact Hle |].
    apply (Forall_impl _ _ _ Hall). intros k Hk. lia.
  - split; [| exact (IH Hrest)].
    apply List.Forall_forall. intros k Hk. apply in_map_iff in Hk as (z & <- & Hz).
    apply (Permutation_in _ (insertDesc_Permutation key x rest)) in Hz.
    destruct Hz as [<- | Hz]; [lia |].
    rewrite List.Forall_forall in Hall. apply Hall, in_map, Hz.
Qed.

Lemma orderByDesc_descending {A} (key : A -> Z) (rows : list A) :
  descending (map key (orderByDesc key rows)).
Proof.
  induction rows as [| x rest IH]; simpl; [exact I |].
  apply insertDesc_descending, IH.
Qed.

Lemma descending_firstn (n : nat) (keys : list Z) :
  descending keys -> descending (firstn n keys).
Proof.
  revert n. induction keys as [| k rest IH]; intros n H; destruct n; simpl; try exact I.
  destruct H as [Hall Hrest]. split; [| exact (IH n Hrest)].
  rewrite List.Forall_forall in Hall |- *. intros x Hx. apply Hall.
  rewrite <- (firstn_skipn n rest). apply in_or_app. left. exact Hx.
Qed.

Lemma limited_ok {A} (limit : option Z) (rows found : list A) :
  limited limit rows = Ok found ->
  (limit = None /\ found = rows)
  \/ (exists n, limit = Some n /\ 0 <= n /\ found = firstn (Z.to_nat n) rows).
Proof.
  destruct limit as [n |]; simpl.
  - destruct (Z.ltb_spec n 0); [discriminate |]. intros [= <-]. right. exists n. auto.
  - intros [= <-]. left. auto.
Qed.

Section Search.
Context `{P : Package}.

(** Errors passed to the client with a status and a text in front, or
    the rejection of the [limit] parameter. *)
Definition prefixedError (e : HTTPError) : Prop :=
  e = NewHTTPError StatusBadRequest (Text "limit query parameter must be integer")
  \/ exists message err,
       e = NewHTTPError StatusInternalServerError (TextErr message err) /\ message <> ""%string.

Lemma prefixed_withStatus {A} message (c : SessM error A) s e s' :
  message <> ""%string ->
  withStatus StatusInternalServerError message c s = (Err e, s') -> prefixedError e.
Proof.
  intros Hmessage H. apply mapErr_cases in H as [(a & _ & [=]) | (err & _ & [= ->])].
  right. exists message, err. auto.
Qed.

Lemma fetchLivestreams_errors rows s e s' :
  fetchLivestreams rows s = (Err e, s') -> prefixedError e.
Proof.
  revert s. induction rows as [| row rows IH]; intros s H; simpl in H; [discriminate |].
  apply bind_cases in H as [(ls & s1 & _ & H) | (e' & H1 & [= <-])].
  - apply bind_cases in H as [(more & s2 & _ & H) | (e' & H2 & [= <-])]; [discriminate |].
    exact (IH _ H2).
  - apply prefixed_withStatus in H1; [exact H1 | discriminate].
Qed.

Lemma fetchLivestreams_ok rows s found s' :
  fetchLivestreams rows s = (Ok found, s') ->
  current s' = current s
  /\ map LivestreamModel.ID found = map LivestreamTagModel.LivestreamID rows.
Proof.
  revert s found. induction rows as [| row rows IH]; intros s found H; simpl in H.
  - injection H as <- <-. auto.
  - apply bind_cases in H as [(ls & s1 & H1 & H) | (e & _ & [=])].
    apply mapErr_cases in H1 as [(a & H1 & [= <-]) | (e & _ & [=])].
    rewrite GetRow_eq in H1. destruct (nextFails s); [discriminate |].
    destruct (livestreams_where_id _ (current s)) as [| first others] eqn:Hrows; [discriminate |].
    injection H1 as <- <-.
    apply bind_cases in H as [(more & s2 & H2 & H) | (e & _ & [=])].
    injection H as <- <-. apply IH in H2 as (Hcurrent & Hids).
    split; [exact Hcurrent |]. simpl. f_equal; [| exact Hids].
    assert (Hin : In first (livestreams_where_id (LivestreamTagModel.LivestreamID row)
                              (current s))) by (rewrite Hrows; left; reflexivity).
    unfold livestreams_where_id in Hin. apply filter_In in Hin as [_ Hid].
    apply Z.eqb_eq in Hid. exact Hid.
Qed.

(** The last loop finds every row in the map of the bulk composer. *)
Lemma collectLivestreams_total (m : gmap Z (Livestream.t User)) rows :
  (forall row, In row rows -> is_Some (m !! LivestreamModel.ID row)) ->
  exists livestreams,
    collectLivestreams m rows = Ok livestreams
    /\ Forall2 (fun row livestream => m !! LivestreamModel.ID row = Some livestream)
         rows livestreams.
Proof.
  induction rows as [| row rows IH]; intros Hkeys; simpl.
  - exists []. split; [reflexivity | constructor].
  - destruct (Hkeys row (or_introl eq_refl)) as (livestream & Hrow). rewrite Hrow.
    destruct IH as (rest & -> & Hall); [intros r Hr; apply Hkeys; right; exact Hr |].
    exists (livestream :: rest). split; [reflexivity |]. constructor; assumption.
Qed.

Lemma inTx_bulk_ok rows s m s' :
  inTx (fillLivestreamResponseBulk rows) s = (Ok m, s') ->
  current s' = current s
  /\ (forall row, In row rows -> is_Some (m !! LivestreamModel.ID row))
  /\ (forall k livestream, m !! k = Some livestream -> Livestream.ID livestream = k).
Proof.
  intros H. assert (Hcurrent := steady_inTx _ (keeps_stored_fillLivestreamResponseBulk rows)
                                  _ _ _ H).
  unfold inTx in H. destruct (fillLivestreamResponseBulk rows (txOf s)) as [r tx'] eqn:Hbulk.
  injection H as -> _. split; [exact Hcurrent |]. split.
  - exact (proj1 (fillLivestreamResponseBulk_entries _ _ _ _ Hbulk)).
  - exact (fillLivestreamResponseBulk_ids _ _ _ _ Hbulk).
Qed.

(** The rows the handler composes, before the call of the bulk
    composer. *)
Definition searchRows (tag limit : string) : SessM HTTPError (list LivestreamModel.t) :=
  if negb (tag =? "")%string then
    let* tagIDList :=
      SelectRows (SelectTagIDsByName tag) (fun S => Ok (tag_ids_where_name tag S))
        |> withStatus StatusInternalServerError "failed to get tags: " in
    let* params :=
      lift (sqlx_In tagIDList)
        |> withStatus StatusInternalServerError "failed to construct IN query: " in
    let* keyTaggedLivestreams :=
      SelectRows (SelectLivestreamTagsByTagIDs params)
        (fun S => Ok (livestream_tags_where_tag_id_in params S))
        |> withStatus StatusInternalServerError "failed to get keyTaggedLivestreams: " in
    fetchLivestreams keyTaggedLivestreams
  else
    let* limit := lift (limitParam limit) in
    SelectRows (SelectLivestreamsDesc limit) (livestreams_desc limit)
      |> withStatus StatusInternalServerError "failed to get livestreams: ".

Lemma searchLivestreamsHandler_eq tag limit :
  searchLivestreamsHandler tag limit
  = (let* _ := BeginTxx in
     let* livestreamModels := searchRows tag limit in
     let* livestreamMap :=
       inTx (fillLivestreamResponseBulk livestreamModels)
         |> withStatus StatusInternalServerError "failed to fill livestreams: " in
     let* livestreams := lift (collectLivestreams livestreamMap livestreamModels) in
     let* _ := CommitTx in
     ret (make_slice livestreams)).
Proof. reflexivity. Qed.

Lemma searchRows_errors tag limit s e s' :
  searchRows tag limit s = (Err e, s') -> prefixedError e.
Proof.
  unfold searchRows. destruct (negb (tag =? "")%string); intros H.
  - apply bind_cases in H as [(ids & s1 & _ & H) | (e' & H1 & [= <-])];
      [| apply prefixed_withStatus in H1; [exact H1 | discriminate]].
    apply bind_cases in H as [(params & s2 & _ & H) | (e' & H1 & [= <-])];
      [| apply prefixed_withStatus in H1; [exact H1 | discriminate]].
    apply bind_cases in H as [(joins & s3 & _ & H) | (e' & H1 & [= <-])];
      [| apply prefixed_withStatus in H1; [exact H1 | discriminate]].
    exact (fetchLivestreams_errors _ _ _ _ H).
  - apply bind_cases in H as [(lim & s1 & _ & H) | (e' & H1 & [= <-])].
    + apply prefixed_withStatus in H; [exact H | discriminate].
    + unfold lift, limitParam in H1. destruct (limit =? "")%string; [discriminate |].
      destruct (strconv.Atoi limit); [discriminate |].
      injection H1 as <- _. left. reflexivity.
Qed.

Lemma searchRows_ok tag limit s rows s' :
  searchRows tag limit s = (Ok rows, s') ->
  current s' = current s
  /\ ((tag =? "")%string = true ->
      exists lim,
        limitParam limit = Ok lim /\ livestreams_desc lim (current s) = Ok rows)
  /\ ((tag =? "")%string = false ->
      map LivestreamModel.ID rows
      = map LivestreamTagModel.LivestreamID
          (livestream_tags_where_tag_id_in (tag_ids_where_name tag (current s)) (current s))).
Proof.
  unfold searchRows. destruct (tag =? "")%string; simpl; intros H.
  - apply bind_cases in H as [(lim & s1 & H1 & H) | (e & _ & [=])].
    unfold lift in H1. injection H1 as H1 <-.
    apply mapErr_cases in H as [(a & H & [= <-]) | (e & _ & [=])].
    rewrite SelectRows_eq in H. destruct (nextFails s); [discriminate |].
    injection H as H <-. split; [reflexivity |]. split; [| discriminate].
    intros _. exists lim. auto.
  - apply bind_cases in H as [(ids & s1 & H1 & H) | (e & _ & [=])].
    apply mapErr_cases in H1 as [(a & H1 & [= <-]) | (e & _ & [=])].
    rewrite SelectRows_eq in H1. destruct (nextFails s); [discriminate |].
    injection H1 as <- <-.
    apply bind_cases in H as [(params & s2 & H2 & H) | (e & _ & [=])].
    apply mapErr_cases in H2 as [(a & H2 & [= <-]) | (e & _ & [=])].
    unfold lift in H2. injection H2 as H2 <-.
    assert (params = tag_ids_where_name tag (current s)).
    { unfold sqlx_In in H2. destruct (tag_ids_where_name tag (current s)); [discriminate |].
      injection H2 as <-. reflexivity. }
    subst params.
    apply bind_cases in H as [(joins & s3 & H3 & H) | (e & _ & [=])].
    apply mapErr_cases in H3 as [(a & H3 & [= <-]) | (e & _ & [=])].
    rewrite SelectRows_eq in H3. destruct (nextFails _); [discriminate |].
    injection H3 as <- <-.
    apply fetchLivestreams_ok in H as (Hcurrent & Hids).
    split; [exact Hcurrent |]. split; [discriminate |]. intros _. exact Hids.
Qed.

(** X13. Searching for a tag name that no tag carries is answered as
    a server error: once the transaction has begun and the tag ids are
    read, [sqlx.In] rejects their empty list, and the handler answers
    500 after these two statements and no other. *)
Theorem search_unknown_tag_is_server_error
    (tag limit : string) (plan : nat -> bool) (site : SITE) :
  tag <> ""%string ->
  plan 0%nat = false ->
  plan 1%nat = false ->
  tag_ids_where_name tag site = [] ->
  fst (serve (searchLivestreamsHandler tag limit) plan site)
  = Err (NewHTTPError StatusInternalServerError
           (TextErr "failed to construct IN query: " ErrEmptySlice))
  /\ trace (searchLivestreamsHandler tag limit) plan site
     = [Issued Begin; SelectTagIDsByName tag].
Proof.
  intros Htag Hbegin Hselect Hnone.
  apply (served _ _ _ _ (mkSession site false [Issued Begin; SelectTagIDsByName tag] plan)).
  unfold searchLivestreamsHandler.
  rewrite (bind_ok _ _ _ _ _ (begun_session plan site Hbegin)).
  replace (tag =? "")%string with false by (symmetry; apply String.eqb_neq; exact Htag).
  cbn [negb].
  unfold bind at 1. unfold bind at 1. unfold withStatus at 1, mapErr at 1.
  rewrite SelectRows_eq.
  replace (nextFails (next (Issued Begin) (fresh plan site))) with false
    by (symmetry; exact Hselect).
  change (current (next (Issued Begin) (fresh plan site))) with site.
  rewrite Hnone. reflexivity.
Qed.

(** X14. Every error answer of [searchLivestreamsHandler] is either the
    rejection of the [limit] parameter or a status 500 with one of the
    texts the handler puts in front of an error. The answer
    "livestream not found for ID ..." of its last loop is never given:
    the map of the bulk composer holds every row it was called with. *)
Theorem search_errors
    (tag limit : string) (plan : nat -> bool) (site : SITE) :
  match fst (serve (searchLivestreamsHandler tag limit) plan site) with
  | Ok _ => True
  | Err e =>
      prefixedError e
      /\ forall id,
           e = NewHTTPError StatusInternalServerError
                 (Sprintf "livestream not found for ID %d" id) -> False
  end.
Proof.
  destruct (searchLivestreamsHandler tag limit (fresh plan site)) as [r s] eqn:Hrun.
  destruct (served _ _ _ _ _ Hrun) as (-> & _).
  destruct r as [body | e]; [exact I |].
  assert (He : prefixedError e).
  { rewrite searchLivestreamsHandler_eq in Hrun.
    apply bind_cases in Hrun as [(u & s1 & _ & Hrun) | (e' & H1 & [= <-])];
      [| apply prefixed_withStatus in H1; [exact H1 | discriminate]].
    apply bind_cases in Hrun as [(rows & s2 & _ & Hrun) | (e' & H2 & [= <-])];
      [| exact (searchRows_errors _ _ _ _ _ H2)].
    apply bind_cases in Hrun as [(m & s3 & H3 & Hrun) | (e' & H3 & [= <-])];
      [| apply prefixed_withStatus in H3; [exact H3 | discriminate]].
    apply mapErr_cases in H3 as [(a & H3 & [= <-]) | (e' & _ & [=])].
    apply inTx_bulk_ok in H3 as (_ & Hkeys & _).
    destruct (collectLivestreams_total m rows Hkeys) as (livestreams & Hcollect & _).
    unfold bind at 1, lift at 1 in Hrun. rewrite Hcollect in Hrun.
    apply bind_cases in Hrun as [(u' & s4 & _ & Hrun) | (e' & H4 & [= <-])];
      [discriminate |].
    apply prefixed_withStatus in H4; [exact H4 | discriminate]. }
  split; [exact He |]. intros id ->.
  destruct He as [He | (message & err & He & Hmessage)]; [discriminate |].
  injection He as <- _. apply Hmessage. reflexivity.
Qed.

(** X15. An answer 200 of [searchLivestreamsHandler] lists livestreams
    by descending id. Without a tag these are the rows of the table,
    all of them or, with a [limit] of [n], the first [n]. With a tag
    there is one entry per join row of a tag with that name, so that a
    livestream comes once for each such join row. *)
Theorem search_order
    (tag limit : string) (plan : nat -> bool) (site : SITE)
    (body : slice (Livestream.t User)) :
  fst (serve (searchLivestreamsHandler tag limit) plan site) = Ok body ->
  let ids := map Livestream.ID (elems body) in
  body = make_slice (elems body)
  /\ descending ids
  /\ (tag = ""%string ->
      exists lim,
        limitParam limit = Ok lim
        /\ (lim = None ->
            Permutation ids (map LivestreamModel.ID (livestreams (rowsOf site))))
        /\ (forall n, lim = Some n ->
            0 <= n
            /\ ids
               = firstn (Z.to_nat n)
                   (map LivestreamModel.ID
                      (orderByDesc LivestreamModel.ID (livestreams (rowsOf site))))))
  /\ (tag <> ""%string ->
      ids
      = map LivestreamTagModel.LivestreamID
          (livestream_tags_where_tag_id_in (tag_ids_where_name tag site) site)).
Proof.
  intros H ids. subst ids.
  destruct (searchLivestreamsHandler tag limit (fresh plan site)) as [r s] eqn:Hrun.
  destruct (served _ _ _ _ _ Hrun) as (Hr & _). rewrite Hr in H. subst r.
  rewrite searchLivestreamsHandler_eq in Hrun.
  apply bind_cases in Hrun as [(u & s1 & H1 & Hrun) | (e & _ & [=])].
  rewrite BeginTxx_eq in H1. destruct (nextFails (fresh plan site)); [discriminate |].
  injection H1 as _ <-.
  apply bind_cases in Hrun as [(rows & s2 & H2 & Hrun) | (e & _ & [=])].
  apply searchRows_ok in H2 as (Hcurrent2 & Hplain & Htagged).
  change (current (next (Issued Begin) (fresh plan site))) with site in *.
  apply bind_cases in Hrun as [(m & s3 & H3 & Hrun) | (e & _ & [=])].
  apply mapErr_cases in H3 as [(a & H3 & [= <-]) | (e & _ & [=])].
  apply inTx_bulk_ok in H3 as (_ & Hkeys & Hids).
  destruct (collectLivestreams_total m rows Hkeys) as (livestreams & Hcollect & Hall).
  unfold bind at 1, lift at 1 in Hrun. rewrite Hcollect in Hrun.
  apply bind_cases in Hrun as [(u' & s4 & _ & Hrun) | (e & _ & [=])].
  injection Hrun as <- _. cbn [elems].
  assert (Hsame : map Livestream.ID livestreams = map LivestreamModel.ID rows).
  { clear - Hall Hids. induction Hall as [| row livestream rows livestreams Hrow _ IH];
      [reflexivity |].
    simpl. rewrite IH, (Hids _ _ Hrow). reflexivity. }
  rewrite Hsame. split; [reflexivity |].
  assert (Hdesc : descending (map LivestreamModel.ID rows)).
  { destruct (tag =? "")%string eqn:Htag.
    - destruct (Hplain eq_refl) as (lim & _ & Hrows). unfold livestreams_desc in Hrows.
      apply limited_ok in Hrows as [(_ & ->) | (n & _ & _ & ->)].
      + apply orderByDesc_descending.
      + rewrite <- firstn_map. apply descending_firstn, orderByDesc_descending.
    - rewrite (Htagged eq_refl). unfold livestream_tags_where_tag_id_in.
      apply orderByDesc_descending. }
  split; [exact Hdesc |]. split.
  - intros ->. destruct (Hplain eq_refl) as (lim & Hlim & Hrows).
    exists lim. split; [exact Hlim |]. unfold livestreams_desc in Hrows.
    apply limited_ok in Hrows as [(-> & ->) | (n & -> & Hn & ->)].
    + split; [| discriminate]. intros _.
      apply Permutation_map, orderByDesc_Permutation.
    + split; [discriminate |]. intros n' [= <-]. split; [exact Hn |].
      symmetry. apply firstn_map.
  - intros Htag. apply Htagged. apply String.eqb_neq. exact Htag.
Qed.

End Search.

(** X13, witness: no tag is called "nope". *)
Lemma search_unknown_tag_is_server_error_witness :
  tag_ids_where_name (P := Sample.package) "nope" Sample.site = []
  /\ fst (serve (P := Sample.package) (searchLivestreamsHandler "nope" "") Sample.noFaults
            Sample.site)
     = Err (NewHTTPError StatusInternalServerError
              (TextErr "failed to construct IN query: " ErrEmptySlice)).
Proof.
  assert (Hnone : tag_ids_where_name (P := Sample.package) "nope" Sample.site = [])
    by reflexivity.
  split; [exact Hnone |].
  refine (proj1 (search_unknown_tag_is_server_error (P := Sample.package) "nope" ""
                   Sample.noFaults Sample.site _ eq_refl eq_refl Hnone)).
  discriminate.
Defined.

(** X15, witness: the two livestreams with the highest ids. *)
Lemma search_order_witness :
  exists body,
    fst (serve (P := Sample.package) (searchLivestreamsHandler "" "2") Sample.noFaults
           Sample.site) = Ok body
    /\ descending (map Livestream.ID (elems body))
    /\ length (elems body) = 2%nat.
Proof.
  destruct (fst (serve (P := Sample.package) (searchLivestreamsHandler "" "2") Sample.noFaults
                   Sample.site)) as [body | e] eqn:H.
  - exists body. split; [reflexivity |].
    destruct (search_order (P := Sample.package) "" "2" Sample.noFaults Sample.site body H)
      as (_ & Hdesc & Hplain & _).
    split; [exact Hdesc |].
    destruct (Hplain eq_refl) as (lim & Hlim & _ & Hfirst).
    vm_compute in Hlim. injection Hlim as <-.
    destruct (Hfirst 2 eq_refl) as (_ & Hids).
    apply (f_equal (@length Z)) in Hids. rewrite length_map in Hids. exact Hids.
  - vm_compute in H. discriminate.
Defined.

(** * [getReactionsHandler] and [postReactionHandler] *)

Section ReactionHandlers.
Context `{P : Package}.

Lemma inTx_GetContext_eq {A} q (rows : DB -> list A) s :
  q <> Commit ->
  inTx (GetContext q rows) s
  = (if nextFails s then Err ErrStorage
     else match rows (rowsOf (current s)) with
          | [] => Err ErrNoRows
          | r :: _ => Ok r
          end,
     next (Issued q) s).
Proof.
  intros Hq. unfold inTx. rewrite GetContext_eq, failsNext_txOf.
  unfold sessionOf, next. rewrite committed_after by exact Hq.
  simpl. rewrite site_eta. reflexivity.
Qed.

Lemma inTx_callFillUserResponse_eq userModel s :
  inTx (callFillUserResponse userModel) s
  = (fillUserResponse (rowsOf (current s)) userModel, s).
Proof.
  unfold inTx, callFillUserResponse, sessionOf. simpl.
  rewrite site_eta, app_nil_r, session_eta. reflexivity.
Qed.

(** What step 4 of the bulk composer returns follows the rows. *)
Lemma buildReactions_rows userMap livestreamMap reactionModels reactions :
  buildReactions userMap livestreamMap reactionModels = Ok reactions ->
  Forall2
    (fun rm reaction =>
       exists user livestream,
         userMap !! ReactionModel.UserID rm = Some user
         /\ livestreamMap !! ReactionModel.LivestreamID rm = Some livestream
         /\ reaction = reactionOf rm user livestream)
    reactionModels reactions.
Proof.
  intros H.
  destruct (buildReactions_ok userMap livestreamMap reactionModels) as (found & Hfound & Hall).
  - intros rm Hin. exact (buildReactions_found _ _ _ _ _ H Hin).
  - rewrite H in Hfound. injection Hfound as <-. exact Hall.
Qed.

(** A reaction composed from a row. *)
Definition reactionFrom (rm : ReactionModel.t) (reaction : Reaction.t User) : Prop :=
  Reaction.ID reaction = ReactionModel.ID rm
  /\ Reaction.EmojiName reaction = ReactionModel.EmojiName rm
  /\ Reaction.CreatedAt reaction = ReactionModel.CreatedAt rm
  /\ Livestream.ID (Reaction.Livestream_ reaction) = ReactionModel.LivestreamID rm.

Lemma fillReactionResponseBulk_rows reactionModels tx body tx' :
  fillReactionResponseBulk reactionModels tx = (Ok body, tx') ->
  (reactionModels = [] /\ body = nil_slice)
  \/ (exists reactions,
        reactionModels <> [] /\ body = make_slice reactions
        /\ Forall2 reactionFrom reactionModels reactions).
Proof.
  destruct reactionModels as [| rm0 rest].
  - intros [= <- _]. left. auto.
  - rewrite fillReactionResponseBulk_eq. cbv zeta.
    destruct (reactionLookups (rm0 :: rest) tx) as [[[userMap livestreamMap] | e] tx1]
      eqn:Hlookups; [| discriminate].
    cbn [fst snd].
    destruct (buildReactions userMap livestreamMap (rm0 :: rest)) as [reactions |] eqn:Hbuild;
      [| discriminate].
    intros [= <- _]. right. exists reactions. split; [discriminate |].
    split; [reflexivity |].
    pose proof (reactionLookups_ids _ _ _ _ _ Hlookups) as Hids.
    apply buildReactions_rows in Hbuild.
    eapply Forall2_impl; [exact Hbuild |].
    intros rm reaction (user & livestream & _ & Hl & ->).
    repeat split. simpl. exact (Hids _ _ Hl).
Qed.

(** X16. [getReactionsHandler] for a livestream without reactions (or
    with a [limit] of 0), when none of its three statements fails:
    the answer is 200 with a nil list, which is encoded as [null], and
    the composer issues no statement. *)
Theorem get_reactions_without_reactions
    (livestream_id limit : string) (livestreamID : Z) (lim : option Z)
    (plan : nat -> bool) (site : SITE) :
  strconv.Atoi livestream_id = Some livestreamID ->
  limitParam limit = Ok lim ->
  plan 0%nat = false ->
  plan 1%nat = false ->
  plan 2%nat = false ->
  reactions_desc livestreamID lim site = Ok [] ->
  fst (serve (getReactionsHandler livestream_id limit) plan site) = Ok nil_slice
  /\ trace (getReactionsHandler livestream_id limit) plan site
     = [Issued Begin; SelectReactionsDesc livestreamID lim; Issued Commit].
Proof.
  intros Hatoi Hlim Hbegin Hselect Hcommit Hrows.
  apply (served _ _ _ _
           (mkSession site true
              [Issued Begin; SelectReactionsDesc livestreamID lim; Issued Commit] plan)).
  unfold getReactionsHandler. rewrite Hatoi.
  rewrite (bind_ok _ _ _ _ _ (begun_session plan site Hbegin)).
  rewrite Hlim. unfold bind at 1, lift at 1.
  unfold bind at 1, mapErr at 1. rewrite SelectRows_eq.
  replace (nextFails (next (Issued Begin) (fresh plan site))) with false
    by (symmetry; exact Hselect).
  change (current (next (Issued Begin) (fresh plan site))) with site. rewrite Hrows.
  unfold bind at 1, withStatus at 1, mapErr at 1, inTx at 1. simpl fillReactionResponseBulk.
  unfold ret at 1. unfold sessionOf. simpl. rewrite site_eta.
  unfold bind at 1. rewrite CommitTx_eq. unfold nextFails. simpl. rewrite Hcommit.
  reflexivity.
Qed.

(** X17. An answer 200 of [getReactionsHandler] lists the reactions on
    the livestream of the path, one per row the statement returns and
    in its order, that is by descending creation time and, with a
    [limit] of [n], at most [n] of them; each carries the id, emoji
    name and creation time of its row and a livestream with the id of
    the path. *)
Theorem get_reactions_answer
    (livestream_id limit : string) (plan : nat -> bool) (site : SITE)
    (body : slice (Reaction.t User)) :
  fst (serve (getReactionsHandler livestream_id limit) plan site) = Ok body ->
  exists livestreamID lim rows,
    strconv.Atoi livestream_id = Some livestreamID
    /\ limitParam limit = Ok lim
    /\ reactions_desc livestreamID lim site = Ok rows
    /\ Forall2 reactionFrom rows (elems body)
    /\ descending (map Reaction.CreatedAt (elems body))
    /\ Forall (fun reaction => Livestream.ID (Reaction.Livestream_ reaction) = livestreamID)
         (elems body)
    /\ (forall n, lim = Some n -> (len body <= Z.to_nat n)%nat).
Proof.
  intros H.
  destruct (getReactionsHandler livestream_id limit (fresh plan site)) as [r s] eqn:Hrun.
  destruct (served _ _ _ _ _ Hrun) as (Hr & _). rewrite Hr in H. subst r.
  unfold getReactionsHandler in Hrun.
  destruct (strconv.Atoi livestream_id) as [livestreamID |]; [| discriminate].
  apply bind_cases in Hrun as [(u & s1 & H1 & Hrun) | (e & _ & [=])].
  rewrite BeginTxx_eq in H1. destruct (nextFails (fresh plan site)); [discriminate |].
  injection H1 as _ <-.
  apply bind_cases in Hrun as [(lim & s2 & H2 & Hrun) | (e & _ & [=])].
  unfold lift in H2. injection H2 as Hlim <-.
  apply bind_cases in Hrun as [(rows & s3 & H3 & Hrun) | (e & _ & [=])].
  apply mapErr_cases in H3 as [(a & H3 & [= <-]) | (e & _ & [=])].
  rewrite SelectRows_eq in H3. destruct (nextFails _); [discriminate |].
  injection H3 as Hrows <-.
  change (current (next (Issued Begin) (fresh plan site))) with site in Hrows.
  apply bind_cases in Hrun as [(reactions & s4 & H4 & Hrun) | (e & _ & [=])].
  apply mapErr_cases in H4 as [(a & H4 & [= <-]) | (e & _ & [=])].
  apply bind_cases in Hrun as [(u' & s5 & _ & Hrun) | (e & _ & [=])].
  injection Hrun as <- _.
  unfold inTx in H4.
  destruct (fillReactionResponseBulk rows (txOf _)) as [r' tx'] eqn:Hbulk.
  injection H4 as -> _.
  assert (Hall : Forall2 reactionFrom rows (elems reactions)).
  { apply fillReactionResponseBulk_rows in Hbulk as [(-> & ->) | (found & _ & -> & Hall)].
    - constructor.
    - exact Hall. }
  assert (Hsorted : descending (map ReactionModel.CreatedAt rows)
                    /\ Forall (fun rm => ReactionModel.LivestreamID rm = livestreamID) rows
                    /\ forall n, lim = Some n -> (length rows <= Z.to_nat n)%nat).
  { unfold reactions_desc in Hrows.
    set (all := orderByDesc ReactionModel.CreatedAt _) in Hrows.
    assert (Hdesc : descending (map ReactionModel.CreatedAt all))
      by apply orderByDesc_descending.
    assert (Hmine : Forall (fun rm => ReactionModel.LivestreamID rm = livestreamID) all).
    { apply List.Forall_forall. intros rm Hin.
      apply (Permutation_in _ (orderByDesc_Permutation _ _)) in Hin.
      apply filter_In in Hin as [_ Hid]. apply Z.eqb_eq in Hid. exact Hid. }
    apply limited_ok in Hrows as [(-> & ->) | (n & -> & Hn & ->)].
    - split; [exact Hdesc |]. split; [exact Hmine | discriminate].
    - split; [rewrite <- firstn_map; apply descending_firstn, Hdesc |]. split.
      + apply List.Forall_forall. intros rm Hin. rewrite List.Forall_forall in Hmine.
        apply Hmine. rewrite <- (firstn_skipn (Z.to_nat n) all). apply in_or_app. left.
        exact Hin.
      + intros n' [= <-]. rewrite length_take. lia. }
  destruct Hsorted as (Hdesc & Hmine & Hbound).
  exists livestreamID, lim, rows.
  split; [reflexivity |]. split; [exact Hlim |]. split; [exact Hrows |].
  split; [exact Hall |].
  assert (Htimes : map Reaction.CreatedAt (elems reactions)
                   = map ReactionModel.CreatedAt rows).
  { clear - Hall. induction Hall as [| rm reaction rms rs (_ & _ & Ht & _) _ IH];
      [reflexivity |].
    simpl. rewrite IH, Ht. reflexivity. }
  split; [rewrite Htimes; exact Hdesc |]. split.
  - clear - Hall Hmine. induction Hall as [| rm reaction rms rs (_ & _ & _ & Hid) _ IH];
      [constructor |].
    inversion Hmine; subst. constructor; [congruence | auto].
  - intros n Hn. unfold len. rewrite <- (Forall2_length _ _ _ Hall). exact (Hbound n Hn).
Qed.

(** X18. When the statement that reads the reactions fails, because
    the database fails it or because the [limit] is negative and the
    statement is rejected, [getReactionsHandler] answers 404 "failed to
    get reactions", after BEGIN and this statement. *)
Theorem get_reactions_failure_is_not_found
    (livestream_id limit : string) (livestreamID : Z) (lim : option Z)
    (plan : nat -> bool) (site : SITE) :
  strconv.Atoi livestream_id = Some livestreamID ->
  limitParam limit = Ok lim ->
  plan 0%nat = false ->
  plan 1%nat = true \/ (exists n, lim = Some n /\ n < 0) ->
  fst (serve (getReactionsHandler livestream_id limit) plan site)
  = Err (NewHTTPError StatusNotFound (Text "failed to get reactions"))
  /\ trace (getReactionsHandler livestream_id limit) plan site
     = [Issued Begin; SelectReactionsDesc livestreamID lim].
Proof.
  intros Hatoi Hlim Hbegin Hfails.
  apply (served _ _ _ _
           (mkSession site false [Issued Begin; SelectReactionsDesc livestreamID lim] plan)).
  unfold getReactionsHandler. rewrite Hatoi.
  rewrite (bind_ok _ _ _ _ _ (begun_session plan site Hbegin)).
  rewrite Hlim. unfold bind at 1, lift at 1.
  unfold bind at 1, mapErr at 1. rewrite SelectRows_eq.
  change (nextFails (next (Issued Begin) (fresh plan site))) with (plan 1%nat).
  destruct (plan 1%nat) eqn:Hselect; [reflexivity |].
  destruct Hfails as [Hfails | (n & -> & Hn)]; [discriminate |].
  unfold reactions_desc, limited.
  replace (n <? 0) with true by (symmetry; apply Z.ltb_lt; exact Hn). reflexivity.
Qed.

End ReactionHandlers.

Section PostReaction.
Context `{P : Package}.

(** The session once the reaction is inserted. *)
Definition withReaction (row : ReactionModel.t) (S : SITE) : SITE :=
  mkSite (database S) (reactions S ++ [row]) (next_reaction_id S + 1)
    (livestream_viewers_history S) (livecomment_reports S).

Lemma InsertReactionRow_eq row s :
  InsertReactionRow row s
  = if nextFails s then (Err ErrStorage, next (InsertReaction row) s)
    else
      let id := next_reaction_id (current s) in
      let stored :=
        ReactionModel.mk id (ReactionModel.EmojiName row) (ReactionModel.UserID row)
          (ReactionModel.LivestreamID row) (ReactionModel.CreatedAt row) in
      (Ok id,
       mkSession (withReaction stored (current s)) (finished s)
         (statements s ++ [InsertReaction row]) (plan s)).
Proof. unfold InsertReactionRow, bind. rewrite issue_eq. destruct (nextFails s); reflexivity. Qed.

(** A run of [fillReactionResponse]: it changes no row and does not
    commit; what it returns is built from the row, with the first
    livestream that has the row's livestream id. *)
Lemma fillReactionResponse_run reactionModel s r s' :
  fillReactionResponse reactionModel s = (r, s') ->
  current s' = current s
  /\ finished s' = finished s
  /\ match r with
     | Ok reaction =>
         reactionFrom reactionModel reaction
         /\ exists row others,
              livestreams_where_id (ReactionModel.LivestreamID reactionModel) (current s)
              = row :: others
     | Err _ => True
     end.
Proof.
  unfold fillReactionResponse. intros H.
  unfold bind at 1 in H. rewrite inTx_GetContext_eq in H by discriminate.
  destruct (nextFails s); [injection H as <- <-; auto |].
  destruct (users_where_id _ _) as [| userModel others]; [injection H as <- <-; auto |].
  unfold bind at 1 in H. rewrite inTx_callFillUserResponse_eq in H.
  change (current (next _ s)) with (current s) in H.
  destruct (fillUserResponse _ userModel) as [user | e]; [| injection H as <- <-; auto].
  unfold bind at 1 in H. rewrite GetRow_eq in H.
  destruct (nextFails _); [injection H as <- <-; auto |].
  change (current (next _ s)) with (current s) in H.
  destruct (livestreams_where_id _ (current s)) as [| row rows] eqn:Hrows;
    [injection H as <- <-; auto |].
  match type of H with
  | bind (inTx (fillLivestreamResponse row)) _ ?s2 = _ =>
      destruct (inTx_fillLivestreamResponse row s2) as (r' & tx' & Hfill & Hin)
  end.
  unfold bind at 1 in H. rewrite Hin in H.
  destruct r' as [livestream | e]; injection H as <- <-; simpl; [| auto].
  split; [reflexivity |]. split; [reflexivity |]. split.
  - apply fillLivestreamResponse_ok in Hfill. cbv zeta in Hfill.
    destruct Hfill as (_ & _ & _ & _ & um & us & owner & found & _ & _ & _ & ->).
    repeat split. simpl.
    assert (Hin' : In row (livestreams_where_id (ReactionModel.LivestreamID reactionModel)
                             (current s))) by (rewrite Hrows; left; reflexivity).
    unfold livestreams_where_id in Hin'. apply filter_In in Hin' as [_ Hid].
    apply Z.eqb_eq in Hid. exact Hid.
  - exists row, rows. reflexivity.
Qed.

(** X19. [postReactionHandler] stores a reaction or nothing. An answer
    201 means that exactly one row was added at the end of
    [reactions], with the next id of the table, the session's user,
    the livestream of the path, the emoji name of the request and the
    current time, that the body carries this id, and that a livestream
    with the id of the path exists. Any other answer leaves every table
    as it was; the counter of [reactions] may have advanced by one. *)
Theorem post_reaction_effect
    (userID : Z) (livestream_id : string) (req : PostReactionRequest.t) (now : Z)
    (plan : nat -> bool) (site : SITE) :
  let answer := serve (postReactionHandler userID livestream_id req now) plan site in
  match fst answer with
  | Ok reaction =>
      exists livestreamID row others,
        strconv.Atoi livestream_id = Some livestreamID
        /\ livestreams_where_id livestreamID site = row :: others
        /\ snd answer
           = withReaction
               (ReactionModel.mk (next_reaction_id site) (PostReactionRequest.EmojiName req)
                  userID livestreamID now)
               site
        /\ Reaction.ID reaction = next_reaction_id site
        /\ Reaction.EmojiName reaction = PostReactionRequest.EmojiName req
        /\ Reaction.CreatedAt reaction = now
        /\ Livestream.ID (Reaction.Livestream_ reaction) = livestreamID
  | Err _ =>
      database (snd answer) = database site
      /\ reactions (snd answer) = reactions site
      /\ livestream_viewers_history (snd answer) = livestream_viewers_history site
      /\ livecomment_reports (snd answer) = livecomment_reports site
      /\ (next_reaction_id (snd answer) = next_reaction_id site
          \/ next_reaction_id (snd answer) = next_reaction_id site + 1)
  end.
Proof.
  intros answer. subst answer.
  destruct (postReactionHandler userID livestream_id req now (fresh plan site)) as [r s]
    eqn:Hrun.
  rewrite (serve_eq _ _ _ _ _ Hrun). cbn [fst snd].
  unfold postReactionHandler in Hrun.
  destruct (strconv.Atoi livestream_id) as [livestreamID |].
  2: { injection Hrun as <- <-. simpl. destruct site as [[T a b] rs n v l]. simpl. auto 10. }
  unfold bind at 1 in Hrun. rewrite BeginTxx_eq in Hrun.
  destruct (nextFails (fresh plan site)).
  { injection Hrun as <- <-. simpl. destruct site as [[T a b] rs n v l]. simpl. auto 10. }
  unfold bind at 1, withStatus at 1, mapErr at 1 in Hrun.
  rewrite InsertReactionRow_eq in Hrun.
  destruct (nextFails _).
  { injection Hrun as <- <-. simpl. destruct site as [[T a b] rs n v l]. simpl. auto 10. }
  cbv zeta in Hrun. change (current (next (Issued Begin) (fresh plan site))) with site in Hrun.
  cbn [ReactionModel.EmojiName ReactionModel.UserID ReactionModel.LivestreamID
       ReactionModel.CreatedAt] in Hrun.
  unfold bind at 1, withStatus at 1, mapErr at 1 in Hrun.
  match type of Hrun with
  | context [fillReactionResponse ?rm ?s2] =>
      destruct (fillReactionResponse rm s2) as [r' s3] eqn:Hfill;
      apply fillReactionResponse_run in Hfill as (Hcurrent & Hfinished & Hreaction)
  end.
  simpl in Hcurrent, Hfinished.
  destruct r' as [reaction | e].
  2: { injection Hrun as <- <-. rewrite Hfinished. unfold restored. rewrite Hcurrent. simpl.
       destruct site as [[T a b] rs n v l]. simpl. auto 10. }
  unfold bind at 1 in Hrun. rewrite CommitTx_eq in Hrun.
  destruct (nextFails s3).
  { injection Hrun as <- <-. unfold next, restored. cbn [finished current].
    rewrite Hfinished, Hcurrent. simpl.
    destruct site as [[T a b] rs n v l]. simpl. auto 10. }
  injection Hrun as <- <-. simpl. rewrite Hcurrent.
  destruct Hreaction as ((Hid & Hemoji & Htime & Hlivestream) & row & others & Hrow).
  simpl in Hid, Hemoji, Htime, Hlivestream, Hrow.
  exists livestreamID, row, others. auto 10.
Qed.

(** X20. Posting a reaction to a livestream that does not exist, on a
    database that fails no statement and for a user the user composer
    accepts: the answer is 500 (not 404), the failure to compose the
    reaction; no reaction is stored, yet the id the INSERT was given is
    used up. *)
Theorem post_reaction_unknown_livestream
    (userID : Z) (livestream_id : string) (livestreamID : Z) (req : PostReactionRequest.t)
    (now : Z) (plan : nat -> bool) (site : SITE)
    (userModel : UserModel) (others : list UserModel) (user : User) :
  strconv.Atoi livestream_id = Some livestreamID ->
  (forall n, plan n = false) ->
  users_where_id userID (rowsOf site) = userModel :: others ->
  fillUserResponse (rowsOf site) userModel = Ok user ->
  livestreams_where_id livestreamID site = [] ->
  let answer := serve (postReactionHandler userID livestream_id req now) plan site in
  fst answer
  = Err (NewHTTPError StatusInternalServerError (TextErr "failed to fill reaction: " ErrNoRows))
  /\ reactions (snd answer) = reactions site
  /\ next_reaction_id (snd answer) = next_reaction_id site + 1
  /\ trace (postReactionHandler userID livestream_id req now) plan site
     = [Issued Begin;
        InsertReaction
          (ReactionModel.mk 0 (PostReactionRequest.EmojiName req) userID livestreamID now);
        Issued (SelectUserByID userID);
        SelectLivestreamByID livestreamID].
Proof.
  intros Hatoi Hplan Huser Hfill Hnone answer. subst answer.
  assert (Hrun : postReactionHandler userID livestream_id req now (fresh plan site)
                 = (Err (NewHTTPError StatusInternalServerError
                           (TextErr "failed to fill reaction: " ErrNoRows)),
                    mkSession
                      (withReaction
                         (ReactionModel.mk (next_reaction_id site)
                            (PostReactionRequest.EmojiName req) userID livestreamID now)
                         site)
                      false
                      [Issued Begin;
                       InsertReaction
                         (ReactionModel.mk 0 (PostReactionRequest.EmojiName req) userID
                            livestreamID now);
                       Issued (SelectUserByID userID);
                       SelectLivestreamByID livestreamID] plan)).
  { unfold postReactionHandler. rewrite Hatoi.
    rewrite (bind_ok _ _ _ _ _ (begun_session plan site (Hplan 0%nat))).
    unfold bind at 1, withStatus at 1, mapErr at 1. rewrite InsertReactionRow_eq.
    unfold nextFails at 1. rewrite Hplan. cbv zeta.
    change (current (next (Issued Begin) (fresh plan site))) with site.
    cbn [ReactionModel.EmojiName ReactionModel.UserID ReactionModel.LivestreamID
         ReactionModel.CreatedAt].
    unfold bind at 1, withStatus at 1, mapErr at 1, fillReactionResponse.
    unfold bind at 1. rewrite inTx_GetContext_eq by discriminate.
    unfold nextFails at 1. rewrite Hplan.
    cbn [current ReactionModel.UserID ReactionModel.LivestreamID].
    match goal with
    | |- context [users_where_id userID (rowsOf ?S)] =>
        change (rowsOf S) with (rowsOf site)
    end.
    rewrite Huser.
    unfold bind at 1. rewrite inTx_callFillUserResponse_eq.
    cbn [current next].
    match goal with
    | |- context [fillUserResponse (rowsOf ?S) userModel] =>
        change (rowsOf S) with (rowsOf site)
    end.
    rewrite Hfill.
    unfold bind at 1. rewrite GetRow_eq. unfold nextFails at 1. rewrite Hplan.
    cbn [current next].
    match goal with
    | |- context [livestreams_where_id livestreamID ?S] =>
        change (livestreams_where_id livestreamID S)
          with (livestreams_where_id livestreamID site)
    end.
    rewrite Hnone. reflexivity. }
  destruct (served _ _ _ _ _ Hrun) as (-> & ->). rewrite (serve_eq _ _ _ _ _ Hrun).
  simpl. auto.
Qed.

End PostReaction.

(** X16, witness: livestream 9 has no reaction. *)
Lemma get_reactions_without_reactions_witness :
  fst (serve (P := Sample.package) (getReactionsHandler "9" "") Sample.noFaults Sample.site)
  = Ok nil_slice.
Proof.
  exact (proj1 (get_reactions_without_reactions (P := Sample.package) "9" "" 9 None
                  Sample.noFaults Sample.site eq_refl eq_refl eq_refl eq_refl eq_refl eq_refl)).
Defined.

(** X17, witness: the two reactions on livestream 7, the later first. *)
Lemma get_reactions_answer_witness :
  exists body,
    fst (serve (P := Sample.package) (getReactionsHandler "7" "") Sample.noFaults Sample.site)
    = Ok body
    /\ descending (map Reaction.CreatedAt (elems body))
    /\ len body = 2%nat.
Proof.
  destruct (fst (serve (P := Sample.package) (getReactionsHandler "7" "") Sample.noFaults
                   Sample.site)) as [body | e] eqn:H.
  - exists body. split; [reflexivity |].
    destruct (get_reactions_answer (P := Sample.package) "7" "" Sample.noFaults Sample.site
                body H)
      as (livestreamID & lim & rows & Hatoi & Hlim & Hrows & Hall & Hdesc & _).
    split; [exact Hdesc |].
    vm_compute in Hatoi. injection Hatoi as <-. vm_compute in Hlim. injection Hlim as <-.
    vm_compute in Hrows. injection Hrows as <-.
    unfold len. rewrite <- (Forall2_length _ _ _ Hall). reflexivity.
  - vm_compute in H. discriminate.
Defined.

(** X18, witness: a limit of -1. *)
Lemma get_reactions_failure_is_not_found_witness :
  fst (serve (P := Sample.package) (getReactionsHandler "7" "-1") Sample.noFaults Sample.site)
  = Err (NewHTTPError StatusNotFound (Text "failed to get reactions")).
Proof.
  refine (proj1 (get_reactions_failure_is_not_found (P := Sample.package) "7" "-1" 7
                   (Some (-1)) Sample.noFaults Sample.site eq_refl eq_refl eq_refl _)).
  right. exists (-1). split; [reflexivity | lia].
Defined.

(** X20, witness: bob reacts to livestream 80, which does not exist. *)
Lemma post_reaction_unknown_livestream_witness :
  let answer :=
    serve (P := Sample.package)
      (postReactionHandler 2 "80" (PostReactionRequest.mk "wow") (Sample.t0 + 120))
      Sample.noFaults Sample.site in
  is_ok (fst answer) = false
  /\ reactions (snd answer) = reactions Sample.site
  /\ next_reaction_id (snd answer) = 5.
Proof.
  cbv zeta.
  destruct (post_reaction_unknown_livestream (P := Sample.package) 2 "80" 80
              (PostReactionRequest.mk "wow") (Sample.t0 + 120) Sample.noFaults Sample.site
              Sample.bob [] Sample.bob eq_refl (fun _ => eq_refl) eq_refl eq_refl eq_refl)
    as (Hresponse & Hrows & Hnext & _).
  rewrite Hresponse. split; [reflexivity |]. split; [exact Hrows | exact Hnext].
Defined.

(** * [enterLivestreamHandler] and [exitLivestreamHandler] *)

Section Viewers.
Context `{P : Package}.

(** The three statements of the two handlers fail or pass one after
    the other. *)
Lemma enterLivestreamHandler_served userID livestream_id livestreamID now plan site :
  strconv.Atoi livestream_id = Some livestreamID ->
  let viewer := LivestreamViewerModel.mk userID livestreamID now in
  exists k,
    trace (enterLivestreamHandler userID livestream_id now) plan site
    = firstn k [Issued Begin; InsertViewer viewer; Issued Commit]
    /\ ((is_ok (fst (serve (enterLivestreamHandler userID livestream_id now) plan site)) = true
         /\ k = 3%nat
         /\ snd (serve (enterLivestreamHandler userID livestream_id now) plan site)
            = insert_viewer viewer site)
        \/ (is_ok (fst (serve (enterLivestreamHandler userID livestream_id now) plan site))
            = false
            /\ (1 <= k)%nat
            /\ snd (serve (enterLivestreamHandler userID livestream_id now) plan site) = site)).
Proof.
  intros Hatoi viewer.
  destruct (enterLivestreamHandler userID livestream_id now (fresh plan site)) as [r s] eqn:Hrun.
  destruct (served _ _ _ _ _ Hrun) as (_ & ->). rewrite (serve_eq _ _ _ _ _ Hrun).
  cbn [fst snd].
  unfold enterLivestreamHandler in Hrun. rewrite Hatoi in Hrun.
  unfold bind at 1 in Hrun. rewrite BeginTxx_eq in Hrun.
  destruct (nextFails (fresh plan site)).
  { injection Hrun as <- <-. exists 1%nat. split; [reflexivity |]. right.
    split; [reflexivity |]. split; [lia |]. simpl. apply site_eta. }
  unfold bind at 1, withStatus at 1, mapErr at 1 in Hrun. rewrite ExecStatement_eq in Hrun.
  destruct (nextFails _).
  { injection Hrun as <- <-. exists 2%nat. split; [reflexivity |]. right.
    split; [reflexivity |]. split; [lia |]. simpl. apply site_eta. }
  rewrite CommitTx_eq in Hrun. destruct (nextFails _); injection Hrun as <- <-.
  - exists 3%nat. split; [reflexivity |]. right.
    split; [reflexivity |]. split; [lia |]. unfold next, restored. simpl. apply site_eta.
  - exists 3%nat. split; [reflexivity |]. left. auto.
Qed.

Lemma exitLivestreamHandler_served userID livestream_id livestreamID plan site :
  strconv.Atoi livestream_id = Some livestreamID ->
  exists k,
    trace (exitLivestreamHandler userID livestream_id) plan site
    = firstn k [Issued Begin; DeleteViewer userID livestreamID; Issued Commit]
    /\ ((is_ok (fst (serve (exitLivestreamHandler userID livestream_id) plan site)) = true
         /\ k = 3%nat
         /\ snd (serve (exitLivestreamHandler userID livestream_id) plan site)
            = delete_viewer userID livestreamID site)
        \/ (is_ok (fst (serve (exitLivestreamHandler userID livestream_id) plan site)) = false
            /\ (1 <= k)%nat
            /\ snd (serve (exitLivestreamHandler userID livestream_id) plan site) = site)).
Proof.
  intros Hatoi.
  destruct (exitLivestreamHandler userID livestream_id (fresh plan site)) as [r s] eqn:Hrun.
  destruct (served _ _ _ _ _ Hrun) as (_ & ->). rewrite (serve_eq _ _ _ _ _ Hrun).
  cbn [fst snd].
  unfold exitLivestreamHandler in Hrun. rewrite Hatoi in Hrun.
  unfold bind at 1 in Hrun. rewrite BeginTxx_eq in Hrun.
  destruct (nextFails (fresh plan site)).
  { injection Hrun as <- <-. exists 1%nat. split; [reflexivity |]. right.
    split; [reflexivity |]. split; [lia |]. simpl. apply site_eta. }
  unfold bind at 1, withStatus at 1, mapErr at 1 in Hrun. rewrite ExecStatement_eq in Hrun.
  destruct (nextFails _).
  { injection Hrun as <- <-. exists 2%nat. split; [reflexivity |]. right.
    split; [reflexivity |]. split; [lia |]. simpl. apply site_eta. }
  rewrite CommitTx_eq in Hrun. destruct (nextFails _); injection Hrun as <- <-.
  - exists 3%nat. split; [reflexivity |]. right.
    split; [reflexivity |]. split; [lia |]. unfold next, restored. simpl. apply site_eta.
  - exists 3%nat. split; [reflexivity |]. left. auto.
Qed.

(** Whether a row of the viewers history is the user's on the
    livestream. *)
Definition viewerOf (userID livestreamID : Z) (viewer : LivestreamViewerModel.t) : bool :=
  (LivestreamViewerModel.UserID viewer =? userID)
  && (LivestreamViewerModel.LivestreamID viewer =? livestreamID).

(** X21. Entering a livestream is all or nothing and looks at no other
    table: for a numeric path id the handler issues at most BEGIN, the
    INSERT and COMMIT, never a statement on [livestreams], so that the
    id need not be one of a livestream; an answer 200 means exactly one
    row was added at the end of the viewers history, for the session's
    user, that id and the current time, and any other answer leaves
    the history as it was. The other tables are never touched. *)
Theorem enter_livestream_effect
    (userID : Z) (livestream_id : string) (livestreamID now : Z)
    (plan : nat -> bool) (site : SITE) :
  strconv.Atoi livestream_id = Some livestreamID ->
  let viewer := LivestreamViewerModel.mk userID livestreamID now in
  let answer := serve (enterLivestreamHandler userID livestream_id now) plan site in
  (exists k,
     trace (enterLivestreamHandler userID livestream_id now) plan site
     = firstn k [Issued Begin; InsertViewer viewer; Issued Commit])
  /\ livestream_viewers_history (snd answer)
     = (if is_ok (fst answer) then livestream_viewers_history site ++ [viewer]
        else livestream_viewers_history site)
  /\ database (snd answer) = database site
  /\ reactions (snd answer) = reactions site
  /\ next_reaction_id (snd answer) = next_reaction_id site
  /\ livecomment_reports (snd answer) = livecomment_reports site.
Proof.
  intros Hatoi viewer answer. subst answer.
  destruct (enterLivestreamHandler_served userID livestream_id livestreamID now plan site Hatoi)
    as (k & Htrace & [(Hok & _ & Hsite) | (Hok & _ & Hsite)]);
    (split; [exists k; exact Htrace |]); rewrite Hok, Hsite; simpl; auto.
Qed.

(** X22. Leaving after entering: when both requests are answered 200,
    the viewers history holds no row of the user on the livestream any
    more, neither the one just added nor earlier ones, and the rows of
    other users and livestreams are as before, in their order. If the
    user had no row on the livestream before entering, the database is
    back to what it was. *)
Theorem enter_then_exit
    (userID : Z) (livestream_id : string) (livestreamID now : Z)
    (plan plan' : nat -> bool) (site : SITE) :
  strconv.Atoi livestream_id = Some livestreamID ->
  let entered := serve (enterLivestreamHandler userID livestream_id now) plan site in
  let left := serve (exitLivestreamHandler userID livestream_id) plan' (snd entered) in
  is_ok (fst entered) = true ->
  is_ok (fst left) = true ->
  livestream_viewers_history (snd left)
  = List.filter (fun viewer => negb (viewerOf userID livestreamID viewer))
      (livestream_viewers_history site)
  /\ Forall (fun viewer => viewerOf userID livestreamID viewer = false)
       (livestream_viewers_history (snd left))
  /\ (Forall (fun viewer => viewerOf userID livestreamID viewer = false)
        (livestream_viewers_history site) ->
      snd left = site).
Proof.
  intros Hatoi entered left Hentered Hleft. subst left entered.
  destruct (enterLivestreamHandler_served userID livestream_id livestreamID now plan site Hatoi)
    as (k & _ & [(_ & _ & Hsite) | (Hok & _)]); [| congruence].
  rewrite Hsite in Hleft |- *.
  destruct (exitLivestreamHandler_served userID livestream_id livestreamID plan'
              (insert_viewer (LivestreamViewerModel.mk userID livestreamID now) site) Hatoi)
    as (k' & _ & [(_ & _ & Hsite') | (Hok & _)]); [| congruence].
  rewrite Hsite'.
  assert (Hhistory :
    livestream_viewers_history
      (delete_viewer userID livestreamID
         (insert_viewer (LivestreamViewerModel.mk userID livestreamID now) site))
    = List.filter (fun viewer => negb (viewerOf userID livestreamID viewer))
        (livestream_viewers_history site)).
  { simpl. rewrite List.filter_app. simpl. rewrite !Z.eqb_refl. simpl. apply app_nil_r. }
  split; [exact Hhistory |]. split.
  - rewrite Hhistory. apply List.Forall_forall. intros viewer Hin.
    apply filter_In in Hin as [_ Hnot]. apply negb_true_iff in Hnot. exact Hnot.
  - intros Hnone.
    assert (Hkeep : List.filter (fun viewer => negb (viewerOf userID livestreamID viewer))
                      (livestream_viewers_history site)
                    = livestream_viewers_history site).
    { clear - Hnone. induction Hnone as [| viewer rest Hviewer _ IH]; [reflexivity |].
      simpl. rewrite Hviewer. simpl. rewrite IH. reflexivity. }
    unfold delete_viewer, insert_viewer in Hhistory |- *. simpl in Hhistory |- *.
    unfold viewerOf in Hhistory, Hkeep. rewrite Hhistory, Hkeep.
    destruct site as [d r n v l]. reflexivity.
Qed.

End Viewers.

(** * [getLivecommentReportsHandler] *)

Section Reports.
Context `{P : Package}.

Lemma fillReports_run rows s r s' :
  fillReports rows s = (r, s') ->
  s' = s
  /\ match r with
     | Ok reports =>
         Forall2 (fun row report => fillLivecommentReportResponse (current s) row = Ok report)
           rows reports
     | Err e => Code e = StatusInternalServerError
     end.
Proof.
  revert r s'. induction rows as [| row rows IH]; intros r s' H; simpl in H.
  - injection H as <- <-. split; [reflexivity | constructor].
  - unfold bind at 1, withStatus, mapErr, callFillLivecommentReportResponse in H.
    destruct (fillLivecommentReportResponse (current s) row) as [report | e] eqn:Hrow.
    + unfold bind at 1 in H.
      destruct (fillReports rows s) as [r1 s1] eqn:Hrest.
      destruct (IH _ _ eq_refl) as (-> & Hall).
      destruct r1 as [reports | e]; injection H as <- <-.
      * split; [reflexivity |]. constructor; assumption.
      * split; [reflexivity | exact Hall].
    + injection H as <- <-. split; reflexivity.
Qed.

(** X23. [getLivecommentReportsHandler], for a numeric path id and
    once the transaction has begun and the livestream is looked up
    without a failure of the database: a livestream that does not
    exist is answered 500, not 404; for one that exists the answer is
    403 exactly when its owner is not the session's user, and then the
    reports are not even read; an answer 200 lists the reports of the
    livestream, one per row and in the order of the table. *)
Theorem reports_only_for_owner
    (userID : Z) (livestream_id : string) (livestreamID : Z)
    (plan : nat -> bool) (site : SITE) :
  strconv.Atoi livestream_id = Some livestreamID ->
  plan 0%nat = false ->
  plan 1%nat = false ->
  let response := fst (serve (getLivecommentReportsHandler userID livestream_id) plan site) in
  let issued := trace (getLivecommentReportsHandler userID livestream_id) plan site in
  (livestreams_where_id livestreamID site = [] ->
   response
   = Err (NewHTTPError StatusInternalServerError
            (TextErr "failed to get livestream: " ErrNoRows)))
  /\ (forall row others,
        livestreams_where_id livestreamID site = row :: others ->
        (response
         = Err (NewHTTPError StatusForbidden
                  (Text "can't get other streamer's livecomment reports"))
         <-> LivestreamModel.UserID row <> userID)
        /\ (LivestreamModel.UserID row <> userID ->
            issued = [Issued Begin; SelectLivestreamByID livestreamID])
        /\ (forall body, response = Ok body ->
              exists reports,
                body = make_slice reports
                /\ Forall2
                     (fun reportModel report =>
                        fillLivecommentReportResponse site reportModel = Ok report)
                     (reports_where_livestream_id livestreamID site) reports)).
Proof.
  intros Hatoi Hbegin Hselect response issued. subst response issued.
  destruct (getLivecommentReportsHandler userID livestream_id (fresh plan site)) as [r s]
    eqn:Hrun.
  destruct (served _ _ _ _ _ Hrun) as (-> & ->).
  unfold getLivecommentReportsHandler in Hrun. rewrite Hatoi in Hrun.
  rewrite (bind_ok _ _ _ _ _ (begun_session plan site Hbegin)) in Hrun.
  unfold bind at 1, withStatus at 1, mapErr at 1 in Hrun. rewrite GetRow_eq in Hrun.
  replace (nextFails (next (Issued Begin) (fresh plan site))) with false in Hrun
    by (symmetry; exact Hselect).
  change (current (next (Issued Begin) (fresh plan site))) with site in Hrun.
  destruct (livestreams_where_id livestreamID site) as [| first rest] eqn:Hrows.
  - injection Hrun as <- _. split; [reflexivity |]. intros row others H. discriminate.
  - split; [discriminate |]. intros row others [= <- <-].
    destruct (Z.eqb_spec (LivestreamModel.UserID first) userID) as [Howner | Hother];
      cbn [negb] in Hrun.
    + assert (Hnot403 : forall e, r = Err e -> Code e = StatusInternalServerError).
      { intros e ->. revert Hrun. generalize (next (SelectLivestreamByID livestreamID)
                                                (next (Issued Begin) (fresh plan site))).
        intros s0 Hrun.
        apply bind_cases in Hrun as [(found & s2 & _ & Hrun) | (e' & H2 & [= <-])];
          [| exact (serverErrors_withStatus _ _ _ _ _ H2)].
        apply bind_cases in Hrun as [(reports & s3 & _ & Hrun) | (e' & H3 & [= <-])];
          [| apply fillReports_run in H3 as (_ & H3); exact H3].
        apply bind_cases in Hrun as [(u & s4 & _ & Hrun) | (e' & H4 & [= <-])];
          [discriminate |].
        exact (serverErrors_CommitTx _ _ _ H4). }
      split; [| split].
      * split; [| intros Hne; congruence].
        intros ->. specialize (Hnot403 _ eq_refl). discriminate.
      * intros Hne. congruence.
      * intros body ->.
        apply bind_cases in Hrun as [(found & s2 & H2 & Hrun) | (e & _ & [=])].
        apply mapErr_cases in H2 as [(a & H2 & [= <-]) | (e & _ & [=])].
        rewrite SelectRows_eq in H2. destruct (nextFails _); [discriminate |].
        injection H2 as <- <-.
        apply bind_cases in Hrun as [(reports & s3 & H3 & Hrun) | (e & _ & [=])].
        apply fillReports_run in H3 as (-> & Hall).
        apply bind_cases in Hrun as [(u & s4 & _ & Hrun) | (e & _ & [=])].
        injection Hrun as <- _. exists reports. split; [reflexivity | exact Hall].
    + injection Hrun as <- <-. split; [| split].
      * split; [intros _; exact Hother | reflexivity].
      * intros _. reflexivity.
      * intros body H. discriminate.
Qed.

End Reports.

(** X21, witness: bob enters livestream 80, of which there is no row. *)
Lemma enter_livestream_effect_witness :
  let answer :=
    serve (P := Sample.package) (enterLivestreamHandler 2 "80" (Sample.t0 + 5))
      Sample.noFaults Sample.site in
  livestreams_where_id (P := Sample.package) 80 Sample.site = []
  /\ is_ok (fst answer) = true
  /\ livestream_viewers_history (snd answer)
     = livestream_viewers_history Sample.site
       ++ [LivestreamViewerModel.mk 2 80 (Sample.t0 + 5)].
Proof.
  cbv zeta. split; [reflexivity |].
  assert (Hok : is_ok (fst (serve (P := Sample.package)
                              (enterLivestreamHandler 2 "80" (Sample.t0 + 5))
                              Sample.noFaults Sample.site)) = true) by reflexivity.
  split; [exact Hok |].
  destruct (enter_livestream_effect (P := Sample.package) 2 "80" 80 (Sample.t0 + 5)
              Sample.noFaults Sample.site eq_refl) as (_ & Hhistory & _).
  rewrite Hok in Hhistory. exact Hhistory.
Defined.

(** X22, witness: alice enters and leaves livestream 8. *)
Lemma enter_then_exit_witness :
  let entered :=
    serve (P := Sample.package) (enterLivestreamHandler 1 "8" (Sample.t0 + 5))
      Sample.noFaults Sample.site in
  snd (serve (P := Sample.package) (exitLivestreamHandler 1 "8") Sample.noFaults (snd entered))
  = Sample.site.
Proof.
  cbv zeta.
  refine (proj2 (proj2 (enter_then_exit (P := Sample.package) 1 "8" 8 (Sample.t0 + 5)
                          Sample.noFaults Sample.noFaults Sample.site eq_refl eq_refl eq_refl))
            _).
  repeat constructor.
Defined.

(** X23, witness: bob asks for the reports on alice's livestream 7. *)
Lemma reports_only_for_owner_witness :
  fst (serve (P := Sample.package) (getLivecommentReportsHandler 2 "7") Sample.noFaults
         Sample.site)
  = Err (NewHTTPError StatusForbidden (Text "can't get other streamer's livecomment reports")).
Proof.
  destruct (reports_only_for_owner (P := Sample.package) 2 "7" 7 Sample.noFaults Sample.site
              eq_refl eq_refl eq_refl) as (_ & Hrow).
  destruct (Hrow (Sample.stream 7 1) [] eq_refl) as (Hforbidden & _).
  apply Hforbidden. discriminate.
Defined.

(** * [fillReactionResponse] against [fillReactionResponseBulk] *)

Lemma filter_unique {A} (key : A -> Z) (rows : list A) (row : A) :
  NoDup (map key rows) -> In row rows ->
  List.filter (fun r => key r =? key row) rows = [row].
Proof.
  induction rows as [| r rows IH]; intros Hnd Hin; [destruct Hin |].
  simpl in Hnd. inversion Hnd as [| ? ? Hnotin Hnd']; subst. simpl.
  destruct Hin as [-> | Hin].
  - rewrite Z.eqb_refl. f_equal. apply filter_none. intros x Hx.
    apply Z.eqb_neq. intros Heq. apply Hnotin. rewrite <- Heq.
    apply list_elem_of_In, in_map, Hx.
  - destruct (Z.eqb_spec (key r) (key row)) as [Heq | _].
    + exfalso. apply Hnotin. rewrite Heq. apply list_elem_of_In, in_map, Hin.
    + apply IH; assumption.
Qed.

Section ReactionAgreement.
Context `{P : Package}.

(** On a database that fails no statement, what the loop over the join
    rows returns depends on the rows only. *)
Lemma fetchTags_rows lts tx tx' :
  neverFails tx -> neverFails tx' -> view tx = view tx' ->
  fst (fetchTags lts tx) = fst (fetchTags lts tx').
Proof.
  revert tx tx'. induction lts as [| lt lts IH]; intros tx tx' Hnever Hnever' Hview; simpl;
    [reflexivity |].
  unfold bind at 1 3. rewrite !GetContext_eq, !neverFails_next by assumption.
  rewrite <- Hview.
  destruct (tags_where_id (LivestreamTagModel.TagID lt) (view tx)) as [| tm others];
    [reflexivity |].
  unfold bind.
  specialize (IH (after (SelectTagByID (LivestreamTagModel.TagID lt)) tx)
                (after (SelectTagByID (LivestreamTagModel.TagID lt)) tx')
                (neverFails_after _ _ Hnever) (neverFails_after _ _ Hnever') Hview).
  destruct (fetchTags lts (after _ tx)) as [[found | e] t1],
           (fetchTags lts (after _ tx')) as [[found' | e'] t1'];
    simpl in IH; try discriminate; inversion IH; reflexivity.
Qed.

Lemma fillLivestreamResponse_rows livestreamModel tx tx' :
  neverFails tx -> neverFails tx' -> view tx = view tx' ->
  fst (fillLivestreamResponse livestreamModel tx)
  = fst (fillLivestreamResponse livestreamModel tx').
Proof.
  intros Hnever Hnever' Hview. unfold fillLivestreamResponse.
  unfold bind at 1 5. rewrite !GetContext_eq, !neverFails_next by assumption.
  rewrite <- Hview.
  destruct (users_where_id _ (view tx)) as [| um others]; [reflexivity |].
  unfold bind at 1 4. unfold callFillUserResponse at 1 2. rewrite !view_after, <- Hview.
  destruct (fillUserResponse (view tx) um) as [owner | e]; [| reflexivity].
  unfold bind at 1 3. rewrite !SelectContext_eq, !neverFails_next
    by (apply neverFails_after; assumption).
  rewrite !view_after, <- Hview.
  match goal with
  | |- fst (bind (fetchTags ?lts) _ ?t) = fst (bind (fetchTags ?lts) _ ?t') =>
      pose proof (fetchTags_rows lts t t') as Htags
  end.
  unfold bind.
  match type of Htags with
  | _ -> _ -> _ -> fst ?a = fst ?b =>
      destruct a as [[found | e] t1], b as [[found' | e'] t1']
  end;
    (specialize (Htags ltac:(repeat apply neverFails_after; assumption)
                   ltac:(repeat apply neverFails_after; assumption) Hview);
     simpl in Htags; try discriminate; inversion Htags; reflexivity).
Qed.

(** X24. Where the bulk composer of reactions succeeds, the single-row
    composer returns the same: on a database that fails no statement,
    with one row per tag id and per livestream id and user composers
    that agree with each other, the i-th reaction of
    [fillReactionResponseBulk] is what [fillReactionResponse] returns
    for the i-th row. *)
Theorem reaction_single_agrees_with_bulk
    (reactionModels : list ReactionModel.t)
    (s s' : Session UserModel LivecommentReportModel) (body : slice (Reaction.t User)) :
  (forall n, plan s n = false) ->
  NoDup (map TagModel.ID (tags (rowsOf (current s)))) ->
  NoDup (map LivestreamModel.ID (livestreams (rowsOf (current s)))) ->
  userComposersAgree (rowsOf (current s)) ->
  inTx (fillReactionResponseBulk reactionModels) s = (Ok body, s') ->
  forall (i : nat) reactionModel,
    reactionModels !! i = Some reactionModel ->
    exists reaction,
      elems body !! i = Some reaction
      /\ fst (fillReactionResponse reactionModel s) = Ok reaction.
Proof.
  intros Hplan Htags Hlivestreams Hagree Hbulk i rm Hi.
  assert (Hnever : neverFails (txOf s)) by (intros n; apply Hplan).
  unfold inTx in Hbulk.
  destruct (fillReactionResponseBulk reactionModels (txOf s)) as [r tx'] eqn:Hrun.
  injection Hbulk as -> _.
  destruct reactionModels as [| rm0 rest]; [rewrite lookup_nil in Hi; discriminate |].
  rewrite fillReactionResponseBulk_eq in Hrun. cbv zeta in Hrun.
  destruct (reactionLookups (rm0 :: rest) (txOf s)) as [[[userMap livestreamMap] | e] tx1]
    eqn:Hlookups; [| discriminate].
  cbn [fst snd] in Hrun.
  destruct (buildReactions userMap livestreamMap (rm0 :: rest)) as [reactions |] eqn:Hbuild;
    [| discriminate].
  injection Hrun as <- _. cbn [elems].
  apply buildReactions_rows in Hbuild.
  destruct (Forall2_lookup_l _ _ _ _ _ Hbuild Hi)
    as (reaction & Hreaction & user & livestream & Huser & Hlivestream & ->).
  exists (reactionOf rm user livestream). split; [exact Hreaction |].
  rewrite reactionLookups_eq in Hlookups. cbv zeta in Hlookups.
  rewrite (neverFails_next _ Hnever) in Hlookups.
  destruct (fillUserResponseBulk _ _) as [users' |] eqn:Husers; [| discriminate].
  rewrite neverFails_next in Hlookups by (apply neverFails_after, Hnever).
  set (batch := livestreams_where_id_in _ _) in Hlookups.
  set (tx2 := after _ (after _ (txOf s))) in Hlookups.
  destruct (fillLivestreamResponseBulk batch tx2) as [[found | e] tx3] eqn:Hinner;
    [| discriminate].
  injection Hlookups as <- <- _.
  change (view (txOf s)) with (rowsOf (current s)) in Husers.
  destruct (Hagree _ _ _ _ Husers Huser) as (userModel & others & Hrow & Hfill).
  destruct (fillLivestreamResponseBulk_entries _ _ _ _ Hinner) as (_ & Hfrom).
  destruct (Hfrom _ _ Hlivestream) as (row & owner & tags' & Hin & Hid & _).
  assert (Hnever2 : neverFails tx2) by (repeat apply neverFails_after; exact Hnever).
  assert (Htable : In row (livestreams (rowsOf (current s)))).
  { unfold batch, livestreams_where_id_in in Hin. apply filter_In in Hin as [Hin _].
    exact Hin. }
  destruct (bulk_agrees_with_single batch tx2 found tx3 row Hnever2 Htags Hagree Hinner Hin)
    as (entry & Hentry & Hsingle).
  { intros other Hother Hsame.
    assert (Hother' : In other (livestreams (rowsOf (current s)))).
    { unfold batch, livestreams_where_id_in in Hother. apply filter_In in Hother as [Ho _].
      exact Ho. }
    pose proof (filter_unique LivestreamModel.ID _ row Hlivestreams Htable) as Hunique.
    assert (Hmember : In other (List.filter
                        (fun r => LivestreamModel.ID r =? LivestreamModel.ID row)
                        (livestreams (rowsOf (current s)))))
      by (apply filter_In; split; [exact Hother' | apply Z.eqb_eq; exact Hsame]).
    rewrite Hunique in Hmember. destruct Hmember as [<- | []]. reflexivity. }
  rewrite Hid, Hlivestream in Hentry. injection Hentry as <-.
  unfold fillReactionResponse.
  unfold bind at 1. rewrite inTx_GetContext_eq by discriminate.
  unfold nextFails at 1. rewrite Hplan, Hrow.
  unfold bind at 1. rewrite inTx_callFillUserResponse_eq.
  change (current (next _ s)) with (current s). rewrite Hfill.
  unfold bind at 1. rewrite GetRow_eq. unfold nextFails at 1.
  change (plan (next _ s)) with (plan s). rewrite Hplan.
  change (current (next _ s)) with (current s).
  unfold livestreams_where_id. rewrite <- Hid.
  rewrite (filter_unique LivestreamModel.ID _ row Hlivestreams Htable).
  unfold bind at 1. unfold inTx at 1.
  match goal with
  | |- context [fillLivestreamResponse row (txOf ?s3)] =>
      pose proof (fillLivestreamResponse_rows row tx2 (txOf s3) Hnever2
                    ltac:(intros n; apply Hplan) eq_refl) as Hsame;
      destruct (fillLivestreamResponse row (txOf s3)) as [r3 tx4]
  end.
  rewrite Hsingle in Hsame. simpl in Hsame. subst r3. reflexivity.
Qed.

End ReactionAgreement.

(** X24, witness: the first of the three reactions of the sample. *)
Lemma reaction_single_agrees_with_bulk_witness :
  let s := fresh (P := Sample.package) Sample.noFaults Sample.site in
  exists body reaction,
    fst (inTx (P := Sample.package) (fillReactionResponseBulk (reactions Sample.site)) s)
    = Ok body
    /\ elems body !! 0%nat = Some reaction
    /\ fst (fillReactionResponse (P := Sample.package) (ReactionModel.mk 1 "smile" 2 7
                                                         (Sample.t0 + 60)) s)
       = Ok reaction.
Proof.
  cbv zeta.
  destruct (inTx (P := Sample.package) (fillReactionResponseBulk (reactions Sample.site))
              (fresh (P := Sample.package) Sample.noFaults Sample.site))
    as [[body | e] s'] eqn:Hbulk.
  - destruct (reaction_single_agrees_with_bulk (P := Sample.package) (reactions Sample.site)
                (fresh (P := Sample.package) Sample.noFaults Sample.site) s' body
                (fun _ => eq_refl)) with (i := 0%nat)
                (reactionModel := ReactionModel.mk 1 "smile" 2 7 (Sample.t0 + 60))
      as (reaction & Hreaction & Hsingle).
    + simpl. repeat constructor; rewrite list_elem_of_In; simpl; intuition discriminate.
    + simpl. repeat constructor; rewrite list_elem_of_In; simpl; intuition discriminate.
    + exact sample_userComposersAgree.
    + exact Hbulk.
    + reflexivity.
    + exists body, reaction. auto.
  - vm_compute in Hbulk. discriminate.
Defined.

(** * What the failure of the bulk composer means for the handlers *)

Section UntaggedLivestreams.
Context `{P : Package}.

Lemma joinsOf_none (rows : list LivestreamModel.t) (T : DB) :
  (forall row, In row rows ->
     livestream_tags_where_livestream_id (LivestreamModel.ID row) T = []) ->
  joinsOf rows T = [].
Proof.
  intros Hnone. unfold joinsOf, livestream_tags_where_livestream_id_in.
  apply filter_none. intros lt Hlt.
  destruct (inb (LivestreamTagModel.LivestreamID lt) (map LivestreamModel.ID rows)) eqn:Hin;
    [| reflexivity].
  exfalso. apply inb_In, in_map_iff in Hin as (row & Hid & Hrow).
  assert (Hmember : In lt (livestream_tags_where_livestream_id (LivestreamModel.ID row) T)).
  { unfold livestream_tags_where_livestream_id. apply filter_In. split; [exact Hlt |].
    apply Z.eqb_eq. symmetry. exact Hid. }
  rewrite (Hnone row Hrow) in Hmember. destruct Hmember.
Qed.

Lemma inTx_fails {E A} (c : TxM E A) s :
  is_ok (fst (c (txOf s))) = false -> is_ok (fst (inTx c s)) = false.
Proof. unfold inTx. destruct (c (txOf s)) as [r tx']. intros H. exact H. Qed.

(** X25. A search without a tag whose rows carry no tag at all cannot
    be answered: when the statement returns at least one livestream and
    no returned livestream has a join row, the bulk composer fails and
    the handler answers 500 "failed to fill livestreams", whatever else
    the database holds. *)
Theorem search_fails_without_tags
    (limit : string) (lim : option Z) (plan : nat -> bool) (site : SITE)
    (rows : list LivestreamModel.t) :
  limitParam limit = Ok lim ->
  plan 0%nat = false ->
  plan 1%nat = false ->
  livestreams_desc lim site = Ok rows ->
  rows <> [] ->
  (forall row, In row rows ->
     livestream_tags_where_livestream_id (LivestreamModel.ID row) (rowsOf site) = []) ->
  exists err,
    fst (serve (searchLivestreamsHandler "" limit) plan site)
    = Err (NewHTTPError StatusInternalServerError (TextErr "failed to fill livestreams: " err)).
Proof.
  intros Hlim Hbegin Hselect Hrows Hsome Hnone.
  destruct (searchLivestreamsHandler "" limit (fresh plan site)) as [r s] eqn:Hrun.
  destruct (served _ _ _ _ _ Hrun) as (-> & _).
  rewrite searchLivestreamsHandler_eq in Hrun.
  rewrite (bind_ok _ _ _ _ _ (begun_session plan site Hbegin)) in Hrun.
  unfold bind at 1, searchRows at 1 in Hrun. cbn [String.eqb negb] in Hrun.
  rewrite Hlim in Hrun. unfold bind at 1, lift at 1 in Hrun.
  unfold withStatus at 1, mapErr at 1 in Hrun. rewrite SelectRows_eq in Hrun.
  replace (nextFails (next (Issued Begin) (fresh plan site))) with false in Hrun
    by (symmetry; exact Hselect).
  change (current (next (Issued Begin) (fresh plan site))) with site in Hrun.
  rewrite Hrows in Hrun.
  unfold bind at 1, withStatus at 1, mapErr at 1 in Hrun.
  match type of Hrun with
  | context [inTx (fillLivestreamResponseBulk rows) ?s2] =>
      pose proof (inTx_fails (fillLivestreamResponseBulk rows) s2
                    (fillLivestreamResponseBulk_without_joins rows (txOf s2) Hsome
                       (joinsOf_none rows _ Hnone))) as Hfails;
      destruct (inTx (fillLivestreamResponseBulk rows) s2) as [[m | e] s3]
  end; [discriminate |].
  injection Hrun as <- _. exists e. reflexivity.
Qed.

(** A batch of reactions on one livestream that has no join row is
    never composed. *)
Lemma fillReactionResponseBulk_untagged reactionModels (tx : Tx UserModel) livestreamID :
  reactionModels <> [] ->
  Forall (fun rm => ReactionModel.LivestreamID rm = livestreamID) reactionModels ->
  livestream_tags_where_livestream_id livestreamID (view tx) = [] ->
  is_ok (fst (fillReactionResponseBulk reactionModels tx)) = false.
Proof.
  intros Hsome Hmine Hnone. destruct reactionModels as [| rm0 rest]; [congruence |].
  rewrite fillReactionResponseBulk_eq. cbv zeta.
  destruct (reactionLookups (rm0 :: rest) tx) as [[[userMap livestreamMap] | e] tx1]
    eqn:Hlookups; [| reflexivity].
  cbn [fst snd].
  destruct (buildReactions userMap livestreamMap (rm0 :: rest)) as [reactions |] eqn:Hbuild;
    [| reflexivity].
  exfalso. apply buildReactions_nonempty in Hbuild.
  rewrite reactionLookups_eq in Hlookups. cbv zeta in Hlookups.
  destruct (failsNext tx); [discriminate |].
  destruct (fillUserResponseBulk _ _); [| discriminate].
  destruct (failsNext _); [discriminate |].
  set (batch := livestreams_where_id_in _ _) in Hlookups.
  destruct batch as [| row batch'] eqn:Hbatch.
  - simpl in Hlookups. injection Hlookups as _ <- _. apply Hbuild. reflexivity.
  - match type of Hlookups with
    | context [fillLivestreamResponseBulk ?b ?t] =>
        pose proof (fillLivestreamResponseBulk_without_joins b t ltac:(discriminate)) as Hfails
    end.
    rewrite joinsOf_none in Hfails.
    + specialize (Hfails eq_refl).
      destruct (fillLivestreamResponseBulk _ _) as [[m | e] t]; discriminate.
    + intros r Hr. change (view (after _ (after _ tx))) with (view tx).
      assert (Hin : In r (livestreams_where_id_in
                            (map ReactionModel.LivestreamID (rm0 :: rest)) (view tx)))
        by (fold batch; rewrite Hbatch; exact Hr).
      unfold livestreams_where_id_in in Hin. apply filter_In in Hin as [_ Hin].
      apply inb_In, in_map_iff in Hin as (rm & Hid & Hrm).
      rewrite List.Forall_forall in Hmine. rewrite <- Hid, (Hmine rm Hrm). exact Hnone.
Qed.

(** X26. The reactions on a livestream that carries no tag cannot be
    listed: when the statement returns at least one reaction and the
    livestream of the path has no join row, [getReactionsHandler]
    answers 500 "failed to fill reactions". *)
Theorem get_reactions_fails_for_untagged_livestream
    (livestream_id limit : string) (livestreamID : Z) (lim : option Z)
    (plan : nat -> bool) (site : SITE) (rows : list ReactionModel.t) :
  strconv.Atoi livestream_id = Some livestreamID ->
  limitParam limit = Ok lim ->
  plan 0%nat = false ->
  plan 1%nat = false ->
  reactions_desc livestreamID lim site = Ok rows ->
  rows <> [] ->
  livestream_tags_where_livestream_id livestreamID (rowsOf site) = [] ->
  exists err,
    fst (serve (getReactionsHandler livestream_id limit) plan site)
    = Err (NewHTTPError StatusInternalServerError (TextErr "failed to fill reactions: " err)).
Proof.
  intros Hatoi Hlim Hbegin Hselect Hrows Hsome Hnone.
  assert (Hmine : Forall (fun rm => ReactionModel.LivestreamID rm = livestreamID) rows).
  { unfold reactions_desc in Hrows.
    set (all := orderByDesc ReactionModel.CreatedAt _) in Hrows.
    assert (Hall : Forall (fun rm => ReactionModel.LivestreamID rm = livestreamID) all).
    { apply List.Forall_forall. intros rm Hin.
      apply (Permutation_in _ (orderByDesc_Permutation _ _)) in Hin.
      apply filter_In in Hin as [_ Hid]. apply Z.eqb_eq in Hid. exact Hid. }
    apply limited_ok in Hrows as [(_ & ->) | (n & _ & _ & ->)]; [exact Hall |].
    apply List.Forall_forall. intros rm Hin. rewrite List.Forall_forall in Hall.
    apply Hall. rewrite <- (firstn_skipn (Z.to_nat n) all). apply in_or_app. left. exact Hin. }
  destruct (getReactionsHandler livestream_id limit (fresh plan site)) as [r s] eqn:Hrun.
  destruct (served _ _ _ _ _ Hrun) as (-> & _).
  unfold getReactionsHandler in Hrun. rewrite Hatoi in Hrun.
  rewrite (bind_ok _ _ _ _ _ (begun_session plan site Hbegin)) in Hrun.
  rewrite Hlim in Hrun. unfold bind at 1, lift at 1 in Hrun.
  unfold bind at 1, mapErr at 1 in Hrun. rewrite SelectRows_eq in Hrun.
  replace (nextFails (next (Issued Begin) (fresh plan site))) with false in Hrun
    by (symmetry; exact Hselect).
  change (current (next (Issued Begin) (fresh plan site))) with site in Hrun.
  rewrite Hrows in Hrun.
  unfold bind at 1, withStatus at 1, mapErr at 1 in Hrun.
  match type of Hrun with
  | context [inTx (fillReactionResponseBulk rows) ?s2] =>
      pose proof (inTx_fails (fillReactionResponseBulk rows) s2
                    (fillReactionResponseBulk_untagged rows (txOf s2) livestreamID
                       Hsome Hmine Hnone)) as Hfails;
      destruct (inTx (fillReactionResponseBulk rows) s2) as [[body | e] s3]
  end; [discriminate |].
  injection Hrun as <- _. exists e. reflexivity.
Qed.

End UntaggedLivestreams.

(** X25, witness: only livestream 9, which carries no tag, is asked
    for. *)
Lemma search_fails_without_tags_witness :
  exists err,
    fst (serve (P := Sample.package) (searchLivestreamsHandler "" "1") Sample.noFaults
           Sample.site)
    = Err (NewHTTPError StatusInternalServerError (TextErr "failed to fill livestreams: " err)).
Proof.
  apply (search_fails_without_tags (P := Sample.package) "1" (Some 1) Sample.noFaults
           Sample.site [Sample.stream 9 2]).
  - reflexivity.
  - reflexivity.
  - reflexivity.
  - reflexivity.
  - discriminate.
  - intros row [<- | []]. reflexivity.
Defined.

(** X26, witness: a reaction on the untagged livestream 9. *)
Lemma get_reactions_fails_for_untagged_livestream_witness :
  let site :=
    insert_reaction (P := Sample.package)
      (ReactionModel.mk 4 "smile" 1 9 (Sample.t0 + 100)) Sample.site in
  exists err,
    fst (serve (P := Sample.package) (getReactionsHandler "9" "") Sample.noFaults site)
    = Err (NewHTTPError StatusInternalServerError (TextErr "failed to fill reactions: " err)).
Proof.
  cbv zeta.
  apply (get_reactions_fails_for_untagged_livestream (P := Sample.package) "9" "" 9 None
           Sample.noFaults
           (insert_reaction (P := Sample.package)
              (ReactionModel.mk 4 "smile" 1 9 (Sample.t0 + 100)) Sample.site)
           [ReactionModel.mk 4 "smile" 1 9 (Sample.t0 + 100)]).
  - reflexivity.
  - reflexivity.
  - reflexivity.
  - reflexivity.
  - reflexivity.
  - discriminate.
  - reflexivity.
Defined.

(** * A reaction on a livestream without tags *)

(** C10. A reaction of user 1 on livestream 9: the user has a row, the
    livestream has a row and so has its owner, so that every reference
    of the reaction resolves. Livestream 9 carries no tag.
    [fillReactionResponseBulk] on this one row returns no list of one
    reaction but an error, that of [sqlx.In] on the empty list of tag
    ids in the bulk composer of livestreams, after four statements;
    [fillReactionResponse] on the same row returns the reaction, with
    an empty tag list. *)
Theorem reactions_fail_for_untagged_livestream :
  let row := Sample.reaction 1 1 9 in
  let tx := Sample.transaction Sample.catalogue in
  users_where_id (UH := Sample.handler) (ReactionModel.UserID row) (view tx) = [Sample.alice]
  /\ livestreams_where_id_in (UH := Sample.handler) [ReactionModel.LivestreamID row] (view tx)
     = [Sample.stream 9 2]
  /\ users_where_id (UH := Sample.handler) 2 (view tx) = [Sample.bob]
  /\ livestream_tags_where_livestream_id (UH := Sample.handler) 9 (view tx) = []
  /\ fst (fillReactionResponseBulk (UH := Sample.handler) [row] tx)
     = Err (Wrap "failed to process livestream responses: %w"
              (Wrap "failed to build tag query: %w" ErrEmptySlice))
  /\ issued (snd (fillReactionResponseBulk (UH := Sample.handler) [row] tx))
     = [SelectUsersIn [1]; SelectLivestreamsIn [9]; SelectUsersIn [2];
        SelectLivestreamTagsIn [9]]
  /\ fst (fillReactionResponse (P := Sample.package) row
            (fresh (P := Sample.package) Sample.noFaults Sample.site))
     = Ok (reactionOf (UH := Sample.handler) row Sample.alice
             (livestreamOf (UH := Sample.handler) (Sample.stream 9 2) Sample.bob [])).
Proof. repeat split; vm_compute; reflexivity. Qed.
